(** * Student performance pipeline: data synthesizer, regression model wrapper
    and prediction service.

    A shallow embedding of [src/data_generator.py], [src/model.py] and
    [src/app.py].  Python [float] values (IEEE binary64) are idealised as exact
    rationals [Q]; the only non-finite values the program can produce, the
    results of a division by zero, are kept as explicit constructors.  Calls
    into NumPy's random generator, scikit-learn and Flask are taken through
    interfaces whose few assumed laws are stated where they are declared. *)

From Stdlib Require Import ZArith QArith Qround Qminmax Lia Lqa List String Ascii Bool.
From Stdlib Require Import DecimalString.
From Stdlib Require DecimalNat DecimalFacts.
From stdpp Require Import gmap strings list.

Local Open Scope string_scope.

(** ** Python exceptions and fallible results *)

Inductive exn : Type :=
| ValueError (msg : string)
| KeyError (key : string)
| TypeError (msg : string)
| IndexError (msg : string)
| NotFittedError (msg : string)
| FileNotFoundError (path : string)
| FileExistsError (path : string)
| IsADirectoryError (path : string)
| NotADirectoryError (path : string)
| HTTPException (code : Z) (msg : string).

Definition result (A : Type) : Type := (exn + A)%type.

Definition ok {A} (x : A) : result A := inr x.
Definition raise {A} (e : exn) : result A := inl e.

Definition rbind {A B} (r : result A) (k : A -> result B) : result B :=
  match r with
  | inl e => inl e
  | inr x => k x
  end.


(** str(e) for the exceptions above. *)
Definition str_exn (e : exn) : string :=
  match e with
  | ValueError m => m
  | KeyError k => "'" ++ k ++ "'"
  | TypeError m => m
  | IndexError m => m
  | NotFittedError m => m
  | FileNotFoundError p => "[Errno 2] No such file or directory: '" ++ p ++ "'"
  | FileExistsError p => "[Errno 17] File exists: '" ++ p ++ "'"
  | IsADirectoryError p => "[Errno 21] Is a directory: '" ++ p ++ "'"
  | NotADirectoryError p => "[Errno 20] Not a directory: '" ++ p ++ "'"
  | HTTPException _ m => m
  end.

(** ** NumPy arithmetic on idealised floats *)

Module Numpy.
Local Open Scope Q_scope.

(** A float64 cell: a finite value, or what a division by zero leaves. *)
Inductive float64 : Type :=
| Fin (q : Q)
| PInf
| NInf
| NaN.

(** [x.clip(lo, hi)] is [minimum(maximum(x, lo), hi)]. *)
Definition clip (lo hi x : Q) : Q := Qmin (Qmax x lo) hi.

(** [np.rint]: round to the nearest integer, ties to the even one. *)
Definition rint (x : Q) : Z :=
  let f := Qfloor x in
  let r := x - inject_Z f in
  match Qcompare r (1 # 2) with
  | Lt => f
  | Gt => (f + 1)%Z
  | Eq => if Z.even f then f else (f + 1)%Z
  end.

(** [np.round(x, 2)]: scale by 100, [rint], scale back. *)
Definition round2 (x : Q) : Q := inject_Z (rint (x * 100)) / 100.

(** [x.astype(int)]: truncation toward zero. *)
Definition astype_int (x : Q) : Z :=
  if Qle_bool 0 x then Qfloor x else Qceiling x.

(** Elementwise true division with NumPy's float semantics: dividing by
    zero does not raise, it yields [nan] or a signed infinity. *)
Definition divide (a b : Q) : float64 :=
  if Qeq_bool b 0 then
    match Qcompare a 0 with
    | Eq => NaN
    | Gt => PInf
    | Lt => NInf
    end
  else Fin (a / b).

(** [x * c] for a positive finite constant [c]. *)
Definition scale (c : Q) (x : float64) : float64 :=
  match x with
  | Fin q => Fin (q * c)
  | other => other
  end.

Definition round2_f (x : float64) : float64 :=
  match x with
  | Fin q => Fin (round2 q)
  | other => other
  end.

(** [a.min()] and [a.max()] raise on an empty array. *)
Definition amin (a : list Q) : result Q :=
  match a with
  | [] => raise (ValueError
      "zero-size array to reduction operation minimum which has no identity")
  | x :: xs => ok (fold_left Qmin xs x)
  end.

Definition amax (a : list Q) : result Q :=
  match a with
  | [] => raise (ValueError
      "zero-size array to reduction operation maximum which has no identity")
  | x :: xs => ok (fold_left Qmax xs x)
  end.

(** Elementwise operations on arrays of one length. *)
Definition vadd (a b : list Q) : list Q := zip_with Qplus a b.
Definition vmul_s (a : list Q) (c : Q) : list Q := map (fun x => x * c) a.
Definition vdiv_s (a : list Q) (c : Q) : list Q := map (fun x => x / c) a.
Definition vsub_s (a : list Q) (c : Q) : list Q := map (fun x => x - c) a.
Definition of_ints (a : list Z) : list Q := map inject_Z a.

Definition is_finite (x : float64) : bool :=
  match x with Fin _ => true | _ => false end.
End Numpy.

(** ** The global NumPy random generator

    [np.random] is one process-wide generator.  Its algorithm is not part of
    the repository: the interface gives, for each distribution the generator
    draws from, one draw as a function of the generator state.  Two laws are
    assumed, both part of NumPy's documented contract: [choice] returns a
    position of its probability vector, and a Beta variate lies in [0, 1]. *)

Class NumpyRandom : Type := {
  rng_state : Type;
  seeded : Z -> rng_state;
  normal : Q -> Q -> rng_state -> Q * rng_state;
  lognormal : Q -> Q -> rng_state -> Q * rng_state;
  beta : Q -> Q -> rng_state -> Q * rng_state;
  gamma : Q -> Q -> rng_state -> Q * rng_state;
  exponential : Q -> rng_state -> Q * rng_state;
  poisson : Q -> rng_state -> Z * rng_state;
  choice_index : list Q -> rng_state -> nat * rng_state;
  choice_index_lt : forall p s, p <> [] -> (fst (choice_index p s) < length p)%nat;
  beta_range : forall a b s, (0 <= fst (beta a b s) <= 1)%Q
}.

Module Generator.
Import Numpy.

Section WithRandom.
Context {R : NumpyRandom}.

(** Code running against the global generator: it may raise, and it
    leaves the generator in a new state. *)
Definition M (A : Type) : Type := rng_state -> result (A * rng_state).

Definition ret {A} (x : A) : M A := fun s => ok (x, s).
Definition bind {A B} (m : M A) (k : A -> M B) : M B :=
  fun s => match m s with
           | inl e => inl e
           | inr (x, s') => k x s'
           end.
Definition lift {A} (r : result A) : M A :=
  fun s => match r with inl e => inl e | inr x => ok (x, s) end.

Notation "'let*' x ':=' m 'in' k" := (bind m (fun x => k))
  (at level 10, x name, m at level 100, k at level 200).

(** The seeds [np.random.seed] accepts. *)
Definition valid_seed (seed : Z) : Prop := (0 <= seed < 2 ^ 32)%Z.

(** [np.random.seed(s)]: replaces the state, whatever it was; the seed
    must fit in 32 bits. *)
Definition np_random_seed (s : Z) : M unit :=
  fun _ => if ((0 <=? s) && (s <? 2 ^ 32))%Z
           then ok (tt, seeded s)
           else raise (ValueError "Seed must be between 0 and 2**32 - 1").

(** [size] consecutive draws, as the [size] argument of a sampler. *)
Fixpoint draws {A} (f : rng_state -> A * rng_state) (n : nat)
    (s : rng_state) : list A * rng_state :=
  match n with
  | O => ([], s)
  | S k => let (x, s1) := f s in
           let (xs, s2) := draws f k s1 in
           (x :: xs, s2)
  end.

Definition sized {A} (f : rng_state -> A * rng_state) (size : Z) : M (list A) :=
  fun s => if (size <? 0)%Z
           then raise (ValueError "negative dimensions are not allowed")
           else ok (draws f (Z.to_nat size) s).

(** [np.random.choice(a, size, p=p)]; [d] is never returned, see
    [choice_index_lt]. *)
Definition np_choice {A} (a : list A) (d : A) (p : list Q) (size : Z) : M (list A) :=
  sized (fun s => let (i, s') := choice_index p s in (nth i a d, s')) size.

Record StudentDataGenerator : Type := {
  num_students : Z;
  random_seed : Z
}.

(** [StudentDataGenerator(num_students, random_seed)] *)
Definition init (num_students random_seed : Z) : M StudentDataGenerator :=
  let* _ := np_random_seed random_seed in
  ret {| num_students := num_students; random_seed := random_seed |}.

(** [str(i).zfill(4)] for a non-negative [i]. *)
Definition str_int (i : nat) : string := NilZero.string_of_uint (Nat.to_uint i).

Fixpoint zeros (n : nat) : string :=
  match n with O => "" | S k => "0" ++ zeros k end.

Definition zfill (width : nat) (s : string) : string :=
  zeros (width - String.length s) ++ s.

(** Reading an identifier back: the number after the three-letter prefix. *)
Definition id_number (id : string) : option nat :=
  match id with
  | String _ (String _ (String _ digits)) =>
      Nat.of_uint <$> NilEmpty.uint_of_string digits
  | _ => None
  end.

(** The arrays sampled by lines 38-73, as the locals hold them before the
    final rounding of the frame's columns. *)
Record Features : Type := {
  f_student_ids : list string;
  f_ages : list Z;
  f_genders : list string;
  f_parental_education : list string;
  f_household_income : list Q;
  f_previous_gpa : list Q;
  f_study_hours_per_week : list Q;
  f_attendance_rate : list Q;
  f_sleep_hours : list Q;
  f_exercise_hours_per_week : list Q;
  f_has_internet : list Z;
  f_has_computer : list Z;
  f_extracurricular_hours : list Z;
  f_school_type : list string;
  f_class_size : list Z
}.

(** The ranges of the sampled arrays, and their common length. *)
Record features_ok (n : nat) (f : Features) : Prop := {
  len_student_ids : length (f_student_ids f) = n;
  len_ages : length (f_ages f) = n;
  len_genders : length (f_genders f) = n;
  len_parental_education : length (f_parental_education f) = n;
  len_household_income : length (f_household_income f) = n;
  len_previous_gpa : length (f_previous_gpa f) = n;
  len_study_hours : length (f_study_hours_per_week f) = n;
  len_attendance_rate : length (f_attendance_rate f) = n;
  len_sleep_hours : length (f_sleep_hours f) = n;
  len_exercise_hours : length (f_exercise_hours_per_week f) = n;
  len_has_internet : length (f_has_internet f) = n;
  len_has_computer : length (f_has_computer f) = n;
  len_extracurricular : length (f_extracurricular_hours f) = n;
  len_school_type : length (f_school_type f) = n;
  len_class_size : length (f_class_size f) = n;
  rng_ages : Forall (fun x => 16 <= x <= 25)%Z (f_ages f);
  rng_household_income :
    Forall (fun x => 20000 <= x <= 200000)%Q (f_household_income f);
  rng_previous_gpa : Forall (fun x => 0 <= x <= 4)%Q (f_previous_gpa f);
  rng_study_hours : Forall (fun x => 1 <= x <= 40)%Q (f_study_hours_per_week f);
  rng_attendance_rate : Forall (fun x => 0 <= x <= 100)%Q (f_attendance_rate f);
  rng_sleep_hours : Forall (fun x => 4 <= x <= 12)%Q (f_sleep_hours f);
  rng_exercise_hours : Forall (fun x => 0 <= x <= 20)%Q (f_exercise_hours_per_week f);
  rng_extracurricular : Forall (fun x => 0 <= x <= 15)%Z (f_extracurricular_hours f);
  rng_class_size : Forall (fun x => 10 <= x <= 50)%Z (f_class_size f)
}.

Definition clipZ (lo hi x : Z) : Z := Z.min (Z.max x lo) hi.

Definition sample_features (n : Z) : M Features :=
  let student_ids :=
    map (fun i => "STU" ++ zfill 4 (str_int i)) (seq 1 (Z.to_nat n)) in
  let* ages := sized (normal 18.5 1.5) n in
  let ages := map (fun x => astype_int (clip 16 25 x)) ages in
  let* genders :=
    np_choice ["Male"; "Female"; "Other"] "Male" [0.45; 0.50; 0.05]%Q n in
  let* parental_education :=
    np_choice ["High School"; "Bachelor"; "Master"; "PhD"; "No Formal Education"]
      "High School" [0.3; 0.35; 0.2; 0.1; 0.05]%Q n in
  let* household_income := sized (lognormal 10.5 0.8) n in
  let household_income := map (clip 20000 200000) household_income in
  let* previous_gpa := sized (beta 2 1) n in
  let previous_gpa := vmul_s previous_gpa 4.0 in
  let previous_gpa := map round2 previous_gpa in
  let* study_hours_per_week := sized (gamma 2 3) n in
  let study_hours_per_week := map (clip 1 40) study_hours_per_week in
  let* attendance_rate := sized (beta 5 1) n in
  let attendance_rate := vmul_s attendance_rate 100 in
  let* sleep_hours := sized (normal 7 1.2) n in
  let sleep_hours := map (clip 4 12) sleep_hours in
  let* exercise_hours_per_week := sized (exponential 3) n in
  let exercise_hours_per_week := map (clip 0 20) exercise_hours_per_week in
  let* has_internet := np_choice [0; 1]%Z 0%Z [0.1; 0.9]%Q n in
  let* has_computer := np_choice [0; 1]%Z 0%Z [0.15; 0.85]%Q n in
  let* extracurricular_hours := sized (poisson 3) n in
  let extracurricular_hours := map (clipZ 0 15) extracurricular_hours in
  let* school_type := np_choice ["Public"; "Private"] "Public" [0.7; 0.3]%Q n in
  let* class_size := sized (normal 25 5) n in
  let class_size := map (fun x => astype_int (clip 10 50 x)) class_size in
  ret {| f_student_ids := student_ids;
         f_ages := ages;
         f_genders := genders;
         f_parental_education := parental_education;
         f_household_income := household_income;
         f_previous_gpa := previous_gpa;
         f_study_hours_per_week := study_hours_per_week;
         f_attendance_rate := attendance_rate;
         f_sleep_hours := sleep_hours;
         f_exercise_hours_per_week := exercise_hours_per_week;
         f_has_internet := has_internet;
         f_has_computer := has_computer;
         f_extracurricular_hours := extracurricular_hours;
         f_school_type := school_type;
         f_class_size := class_size |}.

(** [np.where(parental_education == 'PhD', 5, np.where(... 'Master', 3,
    np.where(... 'Bachelor', 1, 0)))] *)
Definition education_bonus (e : string) : Z :=
  if String.eqb e "PhD" then 5
  else if String.eqb e "Master" then 3
  else if String.eqb e "Bachelor" then 1
  else 0.

(** [np.where(school_type == 'Private', 2, 0)] *)
Definition private_bonus (t : string) : Z :=
  if String.eqb t "Private" then 2 else 0.

(** Lines 77-92, operator by operator. *)
Definition performance_base (f : Features) : list Q :=
  vadd (vadd (vadd (vadd (vadd (vadd (vadd (vadd (vadd (vadd (vadd
    (vmul_s (f_previous_gpa f) 15)
    (vmul_s (f_study_hours_per_week f) 1.2))
    (vmul_s (f_attendance_rate f) 0.3))
    (vmul_s (f_sleep_hours f) 2))
    (vmul_s (f_exercise_hours_per_week f) 0.5))
    (of_ints (map (fun x => x * 3)%Z (f_has_internet f))))
    (of_ints (map (fun x => x * 4)%Z (f_has_computer f))))
    (vmul_s (of_ints (f_extracurricular_hours f)) 0.3))
    (vmul_s (vdiv_s (f_household_income f) 10000) 0.2))
    (of_ints (map education_bonus (f_parental_education f))))
    (of_ints (map private_bonus (f_school_type f))))
    (vmul_s (of_ints (map (fun c => 30 - c)%Z (f_class_size f))) 0.1).

(** Lines 99-101: min-max normalisation to 0-100, then two decimals. *)
Definition normalize (final_score : list Q) : result (list float64) :=
  rbind (amin final_score) (fun lo =>
  rbind (amax final_score) (fun hi =>
  ok (map (fun x => round2_f (scale 100 (divide x (hi - lo))))
          (vsub_s final_score lo)))).

(** The returned frame, column by column. *)
Record Dataset : Type := {
  student_id : list string;
  age : list Z;
  gender : list string;
  parental_education : list string;
  household_income : list Q;
  previous_gpa : list Q;
  study_hours_per_week : list Q;
  attendance_rate : list Q;
  sleep_hours : list Q;
  exercise_hours_per_week : list Q;
  has_internet : list Z;
  has_computer : list Z;
  extracurricular_hours : list Z;
  school_type : list string;
  class_size : list Z;
  final_score : list float64
}.

Definition make_frame (f : Features) (final_score : list float64) : Dataset :=
  {| student_id := f_student_ids f;
     age := f_ages f;
     gender := f_genders f;
     parental_education := f_parental_education f;
     household_income := map round2 (f_household_income f);
     previous_gpa := f_previous_gpa f;
     study_hours_per_week := map round2 (f_study_hours_per_week f);
     attendance_rate := map round2 (f_attendance_rate f);
     sleep_hours := map round2 (f_sleep_hours f);
     exercise_hours_per_week := map round2 (f_exercise_hours_per_week f);
     has_internet := f_has_internet f;
     has_computer := f_has_computer f;
     extracurricular_hours := f_extracurricular_hours f;
     school_type := f_school_type f;
     class_size := f_class_size f;
     final_score := final_score |}.

(** The raw score array of line 96, with the features it was built from. *)
Definition raw_scores (self : StudentDataGenerator) : M (Features * list Q) :=
  let* _ := np_random_seed (random_seed self) in
  let* f := sample_features (num_students self) in
  let performance_base := performance_base f in
  let* noise := sized (normal 0 5) (num_students self) in
  ret (f, vadd performance_base noise).

Definition generate_dataset (self : StudentDataGenerator) : M Dataset :=
  let* fs := raw_scores self in
  let* final_score := lift (normalize (snd fs)) in
  ret (make_frame (fst fs) final_score).

(** What a caller sees of a computation: its value or its exception. *)
Definition run {A} (m : M A) (s : rng_state) : result A :=
  match m s with
  | inl e => inl e
  | inr (x, _) => inr x
  end.

(** The record at position [i] of the sampled arrays. *)
Record Row : Type := {
  r_previous_gpa : Q;
  r_study_hours_per_week : Q;
  r_attendance_rate : Q;
  r_sleep_hours : Q;
  r_exercise_hours_per_week : Q;
  r_has_internet : Z;
  r_has_computer : Z;
  r_extracurricular_hours : Z;
  r_household_income : Q;
  r_parental_education : string;
  r_school_type : string;
  r_class_size : Z
}.

Definition row (f : Features) (i : nat) : option Row :=
  gpa ← f_previous_gpa f !! i;
  study ← f_study_hours_per_week f !! i;
  att ← f_attendance_rate f !! i;
  sleep ← f_sleep_hours f !! i;
  ex ← f_exercise_hours_per_week f !! i;
  inet ← f_has_internet f !! i;
  comp ← f_has_computer f !! i;
  extra ← f_extracurricular_hours f !! i;
  income ← f_household_income f !! i;
  edu ← f_parental_education f !! i;
  school ← f_school_type f !! i;
  csize ← f_class_size f !! i;
  Some {| r_previous_gpa := gpa;
          r_study_hours_per_week := study;
          r_attendance_rate := att;
          r_sleep_hours := sleep;
          r_exercise_hours_per_week := ex;
          r_has_internet := inet;
          r_has_computer := comp;
          r_extracurricular_hours := extra;
          r_household_income := income;
          r_parental_education := edu;
          r_school_type := school;
          r_class_size := csize |}.

(** The batch has two distinct raw scores: its minimum and maximum
    differ. *)
Definition distinct_extremes (self : StudentDataGenerator) (s : rng_state) : Prop :=
  match raw_scores self s with
  | inr (_, scores, _) =>
      match amin scores, amax scores with
      | inr lo, inr hi => ~ (lo == hi)%Q
      | _, _ => False
      end
  | inl _ => False
  end.

End WithRandom.

(** The score formula as the specification words it, with the coefficient
    of the household income left open: the specification's figure is
    [0.02]. *)
Module Spec.
Local Open Scope Q_scope.

Definition education_bonus (e : string) : Q :=
  if String.eqb e "PhD" then 5
  else if String.eqb e "Master" then 3
  else if String.eqb e "Bachelor" then 1
  else 0.

Definition base_with (income_coefficient : Q) (r : Row) : Q :=
  15 * r_previous_gpa r + 1.2 * r_study_hours_per_week r
  + 0.3 * r_attendance_rate r + 2 * r_sleep_hours r
  + 0.5 * r_exercise_hours_per_week r
  + 3 * inject_Z (r_has_internet r) + 4 * inject_Z (r_has_computer r)
  + 0.3 * inject_Z (r_extracurricular_hours r)
  + income_coefficient * r_household_income r
  + education_bonus (r_parental_education r)
  + (if String.eqb (r_school_type r) "Private" then 2 else 0)
  + 0.1 * (30 - inject_Z (r_class_size r)).

Definition base : Row -> Q := base_with 0.02.
End Spec.
End Generator.

(** ** Python values, as JSON bodies and as the cells of a frame *)

Module Py.
#[local] Unset Elimination Schemes.
Inductive value : Type :=
| VNone
| VBool (b : bool)
| VInt (n : Z)
| VFloat (x : Q)
| VNaN
| VStr (s : string)
| VList (l : list value)
| VDict (items : list (string * value)).
#[local] Set Elimination Schemes.

(** [bool(v)], as [not data] evaluates it. *)
Definition truthy (v : value) : bool :=
  match v with
  | VNone => false
  | VBool b => b
  | VInt n => negb (n =? 0)%Z
  | VFloat x => negb (Qeq_bool x 0)
  | VNaN => true
  | VStr s => negb (String.eqb s "")
  | VList l => match l with [] => false | _ => true end
  | VDict d => match d with [] => false | _ => true end
  end.

(** [isinstance(v, list)] *)
Definition is_list (v : value) : bool :=
  match v with VList _ => true | _ => false end.

Definition number (v : value) : option Q :=
  match v with
  | VBool b => Some (if b then 1 else 0)%Q
  | VInt n => Some (inject_Z n)
  | VFloat x => Some x
  | _ => None
  end.

(** [a == b] on hashable values, as a dictionary or set lookup compares
    labels: numbers by value, strings by content; following scikit-learn's
    handling of missing values, [nan] matches [nan]. *)
Definition eqb (a b : value) : bool :=
  match number a, number b with
  | Some x, Some y => Qeq_bool x y
  | None, None =>
      match a, b with
      | VStr s, VStr t => String.eqb s t
      | VNone, VNone => true
      | VNaN, VNaN => true
      | _, _ => false
      end
  | _, _ => false
  end.

Definition hashable (v : value) : bool :=
  match v with VList _ | VDict _ => false | _ => true end.

(** [d.get(k)] on the items of a dictionary. *)
Fixpoint dict_get {A} (k : string) (d : list (string * A)) : option A :=
  match d with
  | [] => None
  | (k', v) :: rest => if String.eqb k' k then Some v else dict_get k rest
  end.

(** [d[k] = v]: in place when the key exists, appended otherwise. *)
Fixpoint dict_set {A} (k : string) (v : A) (d : list (string * A)) : list (string * A) :=
  match d with
  | [] => [(k, v)]
  | (k', v') :: rest =>
      if String.eqb k' k then (k', v) :: rest else (k', v') :: dict_set k v rest
  end.
End Py.

(** ** pandas frames *)

Module Pandas.
Import Py.

(** A frame, column-major: the length of its index and its columns in
    order. *)
Record DataFrame : Type := {
  index_len : nat;
  columns : list (string * list value)
}.

(** [col in df.columns] *)
Definition has_column (col : string) (df : DataFrame) : bool :=
  match dict_get col (columns df) with Some _ => true | None => false end.

(** [df[col]] *)
Definition get_column (col : string) (df : DataFrame) : result (list value) :=
  match dict_get col (columns df) with
  | Some c => ok c
  | None => raise (KeyError col)
  end.

(** [df[col] = values], for values as long as the index. *)
Definition set_column (col : string) (values : list value) (df : DataFrame) : DataFrame :=
  {| index_len := index_len df; columns := dict_set col values (columns df) |}.

(** [df[cols]]: the sub-frame of the listed columns, in the listed order;
    a missing column raises. *)
Fixpoint select_columns (cols : list string) (df : DataFrame)
    : result (list (string * list value)) :=
  match cols with
  | [] => ok []
  | c :: rest =>
      match dict_get c (columns df) with
      | None => raise (KeyError c)
      | Some v => rbind (select_columns rest df) (fun tl => ok ((c, v) :: tl))
      end
  end.

Definition select (cols : list string) (df : DataFrame) : result DataFrame :=
  rbind (select_columns cols df) (fun cs =>
  ok {| index_len := index_len df; columns := cs |}).

(** The keys of a list of records, in order of first appearance. *)
Fixpoint add_keys (keys : list string) (seen : list string) : list string :=
  match keys with
  | [] => seen
  | k :: rest =>
      if existsb (String.eqb k) seen then add_keys rest seen
      else add_keys rest (seen ++ [k])
  end.

Definition all_keys (records : list (list (string * value))) : list string :=
  fold_left (fun seen r => add_keys (map fst r) seen) records [].

(** [pd.DataFrame(records)] for a list of dictionaries: one row per record,
    one column per key, [nan] where a record lacks the key. *)
Definition from_records (records : list (list (string * value))) : DataFrame :=
  {| index_len := length records;
     columns := map (fun k =>
                  (k, map (fun r => default VNaN (dict_get k r)) records))
                (all_keys records) |}.

Definition as_dict (v : value) : option (list (string * value)) :=
  match v with VDict d => Some d | _ => None end.
End Pandas.

(** ** POSIX paths ([os.path]) *)

Module OsPath.
Definition slash : ascii := "/"%char.

(** [os.path.isabs(p)]: [p.startswith('/')] *)
Definition isabs (p : string) : bool :=
  match p with
  | String c _ => Ascii.eqb c slash
  | EmptyString => false
  end.

Fixpoint ends_with_slash (p : string) : bool :=
  match p with
  | EmptyString => false
  | String c EmptyString => Ascii.eqb c slash
  | String _ rest => ends_with_slash rest
  end.

(** [os.path.join(a, b)] *)
Definition join (a b : string) : string :=
  if isabs b then b
  else if String.eqb a "" || ends_with_slash a then a ++ b
  else a ++ "/" ++ b.

Fixpoint drop_while (f : ascii -> bool) (l : list ascii) : list ascii :=
  match l with
  | [] => []
  | c :: rest => if f c then drop_while f rest else l
  end.

(** [os.path.dirname(p)]: everything up to the last slash; trailing
    slashes are stripped from the result unless it consists of slashes
    only. *)
Definition dirname (p : string) : string :=
  let head := rev (drop_while (fun c => negb (Ascii.eqb c slash))
                     (rev (list_ascii_of_string p))) in
  if forallb (fun c => Ascii.eqb c slash) head then string_of_list_ascii head
  else string_of_list_ascii
         (rev (drop_while (fun c => Ascii.eqb c slash) (rev head))).

(** The proper ancestors of a path as [os.makedirs] walks them, outermost
    first: ["/"; "/app"] for ["/app/models"], nothing for ["models"]. *)
Fixpoint ancestors_from (prefix rest : string) : list string :=
  match rest with
  | EmptyString => []
  | String c rest' =>
      (if Ascii.eqb c slash
          && negb (forallb (fun c => Ascii.eqb c slash) (list_ascii_of_string rest'))
          && negb (ends_with_slash prefix)
       then [if String.eqb prefix "" then "/" else prefix]
       else [])
      ++ ancestors_from (prefix ++ String c "") rest'
  end.

Definition ancestors (p : string) : list string := ancestors_from "" p.
End OsPath.

(** ** scikit-learn

    The estimators, the scaler, the splitter and the metrics are library code;
    they enter through an interface.  The laws are the library's documented
    shapes: an estimator predicts one value per row, scaling keeps the rows,
    and an encoder returns one integer code per label. *)

Inductive estimator_config : Type :=
| LinearRegression
| RandomForestRegressor (n_estimators random_state max_depth min_samples_split : Z).

Class Sklearn : Type := {
  fitted : Type;
  scaler_state : Type;
  (** [np.unique] on a column that is neither all strings nor all integers *)
  unique_other : list Py.value -> result (list Py.value);
  (** [np.asarray(v, dtype=int64)] on a cell that is not a number *)
  int64_of_other : Py.value -> result Z;
  (** [LabelEncoder.transform] for classes that are neither all strings nor
      all integers: classes, labels *)
  transform_other : list Py.value -> list Py.value -> result (list Py.value);
  train_test_split :
    Pandas.DataFrame -> option (list Py.value) ->
    result (Pandas.DataFrame * Pandas.DataFrame
            * option (list Py.value) * option (list Py.value));
  scaler_fit : Pandas.DataFrame -> result scaler_state;
  scaler_apply : scaler_state -> Pandas.DataFrame -> result Pandas.DataFrame;
  estimator_fit :
    estimator_config -> Pandas.DataFrame -> option (list Py.value) -> result fitted;
  estimator_predict :
    estimator_config -> fitted -> Pandas.DataFrame -> result (list Q);
  mean_squared_error : option (list Py.value) -> list Q -> result Q;
  mean_absolute_error : option (list Py.value) -> list Q -> result Q;
  r2_score : option (list Py.value) -> list Q -> result Q;
  np_sqrt : Q -> Q;
  feature_importances_ : estimator_config -> fitted -> list Q;
  sort_values_descending : list (string * Q) -> list (string * Q);
  estimator_predict_length : forall c f X ys,
    estimator_predict c f X = inr ys -> length ys = Pandas.index_len X;
  scaler_apply_rows : forall s X X',
    scaler_apply s X = inr X' -> Pandas.index_len X' = Pandas.index_len X;
  transform_other_codes : forall classes y codes,
    transform_other classes y = inr codes ->
    length codes = length y /\ Forall (fun c => exists n, c = Py.VInt n) codes
}.

(** ** The regression model wrapper ([src/model.py]) *)

Module Model.
Import Py Pandas.

(** [LabelEncoder]: [classes_] is absent until the encoder is fitted. *)
Record LabelEncoder : Type := { classes_ : option (list value) }.

(** The code of a label: its position among the classes. *)
Fixpoint index_of (v : value) (classes : list value) : option nat :=
  match classes with
  | [] => None
  | c :: rest => if Py.eqb c v then Some O else S <$> index_of v rest
  end.

(** The lookup of [LabelEncoder.transform]: every label is replaced by its
    position among the classes; a label that matches none is an error. *)
Definition lookup_labels (classes y : list value) : result (list value) :=
  if forallb hashable y then
    match mapM (fun v => index_of v classes) y with
    | Some codes => ok (map (fun i => VInt (Z.of_nat i)) codes)
    | None => raise (ValueError "y contains previously unseen labels")
    end
  else raise (TypeError "unhashable type").

Definition as_str (v : value) : option string :=
  match v with VStr s => Some s | _ => None end.

(** Classes that are strings, as fitting on a column of strings leaves
    them. *)
Definition string_labels (classes : list value) : Prop :=
  Forall (fun c => exists s, c = VStr s) classes.

Definition as_int (v : value) : option Z :=
  match v with VInt n => Some n | _ => None end.

Fixpoint insert_str (s : string) (l : list string) : list string :=
  match l with
  | [] => [s]
  | x :: rest =>
      match String.compare s x with
      | Lt => s :: l
      | Eq => l
      | Gt => x :: insert_str s rest
      end
  end.

Fixpoint insert_int (n : Z) (l : list Z) : list Z :=
  match l with
  | [] => [n]
  | x :: rest =>
      match Z.compare n x with
      | Lt => n :: l
      | Eq => l
      | Gt => x :: insert_int n rest
      end
  end.

Definition codes_of (classes y : list value) : list value :=
  map (fun v => VInt (Z.of_nat (default O (index_of v classes)))) y.

Section WithSklearn.
Context {SK : Sklearn}.

(** [np.asarray(y, dtype=int64)], cell by cell: integers as they are,
    booleans as 0 and 1, floats truncated toward zero. *)
Definition as_int64 (v : value) : result Z :=
  match v with
  | VInt n => ok n
  | VBool b => ok (if b then 1 else 0)%Z
  | VFloat x => ok (Numpy.astype_int x)
  | _ => int64_of_other v
  end.

Fixpoint cast_int64 (y : list value) : result (list Z) :=
  match y with
  | [] => ok []
  | v :: rest =>
      rbind (as_int64 v) (fun n =>
      rbind (cast_int64 rest) (fun ns => ok (n :: ns)))
  end.

(** [LabelEncoder.transform(y)].  scikit-learn first casts [y] to the dtype
    of [classes_] ([column_or_1d(y, dtype=self.classes_.dtype)]) and then
    looks the labels up.  Classes that are strings make an object array, to
    which every label is cast as it is; classes that are integers make an
    int64 array, to which the labels are converted before the lookup; an
    empty [y] gives an empty result.  [classes_] is sorted and without
    repetition, as [fit] leaves it, so the position found is the code. *)
Definition transform (le : LabelEncoder) (y : list value) : result (list value) :=
  match classes_ le with
  | None => raise (NotFittedError
      "This LabelEncoder instance is not fitted yet.")
  | Some classes =>
      match mapM as_str classes with
      | Some _ => lookup_labels classes y
      | None =>
          match mapM as_int classes with
          | Some _ =>
              rbind (cast_int64 y) (fun ints => lookup_labels classes (map VInt ints))
          | None =>
              match y with
              | [] => ok []
              | _ => transform_other classes y
              end
          end
      end
  end.

(** [np.unique(y, return_inverse=True)]: the sorted distinct labels and
    the code of every label. *)
Definition np_unique (y : list value) : result (list value * list value) :=
  match mapM as_str y with
  | Some strs =>
      let classes := map VStr (fold_right insert_str [] strs) in
      ok (classes, codes_of classes y)
  | None =>
      match mapM as_int y with
      | Some ints =>
          let classes := map VInt (fold_right insert_int [] ints) in
          ok (classes, codes_of classes y)
      | None =>
          rbind (unique_other y) (fun classes => ok (classes, codes_of classes y))
      end
  end.

Record Estimator : Type := {
  config : estimator_config;
  params : option fitted
}.

Record StudentPerformanceModel : Type := {
  model : option Estimator;
  scaler : option scaler_state;
  label_encoders : gmap string LabelEncoder;
  feature_columns : option (list string);
  target_column : string;
  model_metrics : list (string * value)
}.

(** [StudentPerformanceModel()] *)
Definition init : StudentPerformanceModel :=
  {| model := None;
     scaler := None;
     label_encoders := ∅;
     feature_columns := None;
     target_column := "final_score";
     model_metrics := [] |}.

Definition with_model (e : option Estimator) (self : StudentPerformanceModel) :=
  {| model := e; scaler := scaler self; label_encoders := label_encoders self;
     feature_columns := feature_columns self; target_column := target_column self;
     model_metrics := model_metrics self |}.

Definition with_scaler (s : option scaler_state) (self : StudentPerformanceModel) :=
  {| model := model self; scaler := s; label_encoders := label_encoders self;
     feature_columns := feature_columns self; target_column := target_column self;
     model_metrics := model_metrics self |}.

Definition with_label_encoders (m : gmap string LabelEncoder)
    (self : StudentPerformanceModel) :=
  {| model := model self; scaler := scaler self; label_encoders := m;
     feature_columns := feature_columns self; target_column := target_column self;
     model_metrics := model_metrics self |}.

Definition with_feature_columns (c : option (list string))
    (self : StudentPerformanceModel) :=
  {| model := model self; scaler := scaler self; label_encoders := label_encoders self;
     feature_columns := c; target_column := target_column self;
     model_metrics := model_metrics self |}.

Definition with_target_column (t : string) (self : StudentPerformanceModel) :=
  {| model := model self; scaler := scaler self; label_encoders := label_encoders self;
     feature_columns := feature_columns self; target_column := t;
     model_metrics := model_metrics self |}.

Definition with_model_metrics (m : list (string * value))
    (self : StudentPerformanceModel) :=
  {| model := model self; scaler := scaler self; label_encoders := label_encoders self;
     feature_columns := feature_columns self; target_column := target_column self;
     model_metrics := m |}.

(** A method: it returns or raises, and either way leaves [self] in the
    state its assignments reached. *)
Definition MM (A : Type) : Type :=
  StudentPerformanceModel -> result A * StudentPerformanceModel.

Definition mret {A} (x : A) : MM A := fun self => (ok x, self).
Definition mbind {A B} (m : MM A) (k : A -> MM B) : MM B :=
  fun self => match m self with
              | (inl e, self') => (inl e, self')
              | (inr x, self') => k x self'
              end.
Definition mlift {A} (r : result A) : MM A := fun self => (r, self).
Definition mget : MM StudentPerformanceModel := fun self => (ok self, self).
Definition mmodify (f : StudentPerformanceModel -> StudentPerformanceModel) : MM unit :=
  fun self => (ok tt, f self).

Notation "'let*' x ':=' m 'in' k" := (mbind m (fun x => k))
  (at level 10, x name, m at level 100, k at level 200).
Notation "'let*' ' p ':=' m 'in' k" := (mbind m (fun x => let 'p := x in k))
  (at level 10, p pattern, m at level 100, k at level 200).

Definition categorical_columns : list string :=
  ["gender"; "parental_education"; "school_type"].

(** One iteration of the loop of lines 46-53. *)
Definition encode_column (col : string) (processed_data : DataFrame) : MM DataFrame :=
  let* self := mget in
  match dict_get col (columns processed_data) with
  | None => mret processed_data
  | Some y =>
      match label_encoders self !! col with
      | None =>
          let* _ := mmodify (with_label_encoders
                      (<[col := {| classes_ := None |}]> (label_encoders self))) in
          let* '(classes, codes) := mlift (np_unique y) in
          let* _ := mmodify (with_label_encoders
                      (<[col := {| classes_ := Some classes |}]> (label_encoders self))) in
          mret (set_column col codes processed_data)
      | Some le =>
          let* codes := mlift (transform le y) in
          mret (set_column col codes processed_data)
      end
  end.

Fixpoint encode_columns (cols : list string) (processed_data : DataFrame) : MM DataFrame :=
  match cols with
  | [] => mret processed_data
  | col :: rest =>
      let* processed_data := encode_column col processed_data in
      encode_columns rest processed_data
  end.

Definition preprocess_data (data : DataFrame) : MM DataFrame :=
  let processed_data := data in
  encode_columns categorical_columns processed_data.

Definition prepare_features (data : DataFrame)
    : MM (DataFrame * option (list value)) :=
  let* self := mget in
  let exclude_columns := ["student_id"; target_column self] in
  let* _ :=
    match feature_columns self with
    | None =>
        mmodify (with_feature_columns (Some
          (List.filter (fun col => negb (existsb (String.eqb col) exclude_columns))
             (map fst (columns data)))))
    | Some _ => mret tt
    end in
  let* self := mget in
  let* X := mlift (select (default [] (feature_columns self)) data) in
  let y := dict_get (target_column self) (columns data) in
  mret (X, y).

(** [self.scaler.fit_transform(X)] and [self.scaler.transform(X)] *)
Definition scaler_fit_transform (X : DataFrame) : MM DataFrame :=
  let* s := mlift (scaler_fit X) in
  let* _ := mmodify (with_scaler (Some s)) in
  mlift (scaler_apply s X).

Definition scaler_transform (X : DataFrame) : MM DataFrame :=
  let* self := mget in
  match scaler self with
  | None => mlift (raise (NotFittedError
      "This StandardScaler instance is not fitted yet."))
  | Some s => mlift (scaler_apply s X)
  end.

(** [self.model.fit(X, y)] and [self.model.predict(X)] *)
Definition model_fit (X : DataFrame) (y : option (list value)) : MM unit :=
  let* self := mget in
  match model self with
  | None => mlift (raise (TypeError
      "'NoneType' object has no attribute 'fit'"))
  | Some e =>
      let* p := mlift (estimator_fit (config e) X y) in
      mmodify (with_model (Some {| config := config e; params := Some p |}))
  end.

Definition model_predict (X : DataFrame) : MM (list Q) :=
  let* self := mget in
  match model self with
  | None => mlift (raise (TypeError
      "'NoneType' object has no attribute 'predict'"))
  | Some e =>
      match params e with
      | None => mlift (raise (NotFittedError
          "This estimator instance is not fitted yet."))
      | Some p => mlift (estimator_predict (config e) p X)
      end
  end.

Definition importance_records (ranking : list (string * Q)) : value :=
  VList (map (fun fi => VDict [("feature", VStr (fst fi));
                               ("importance", VFloat (snd fi))]) ranking).

(** [train(data, model_type)]; [now] is [datetime.now().isoformat()]. *)
Definition train (now : string) (data : DataFrame) (model_type : string) : MM unit :=
  let* processed_data := preprocess_data data in
  let* '(X, y) := prepare_features processed_data in
  let* '(X_train, X_test, y_train, y_test) := mlift (train_test_split X y) in
  let* X_train_scaled := scaler_fit_transform X_train in
  let* X_test_scaled := scaler_transform X_test in
  let* _ :=
    if String.eqb model_type "linear" then
      mmodify (with_model (Some {| config := LinearRegression; params := None |}))
    else
      mmodify (with_model (Some
        {| config := RandomForestRegressor 100 42 10 5; params := None |})) in
  let* y_pred :=
    if String.eqb model_type "linear" then
      let* _ := model_fit X_train_scaled y_train in
      model_predict X_test_scaled
    else
      let* _ := model_fit X_train y_train in
      model_predict X_test in
  let* mse := mlift (mean_squared_error y_test y_pred) in
  let rmse := np_sqrt mse in
  let* mae := mlift (mean_absolute_error y_test y_pred) in
  let* r2 := mlift (r2_score y_test y_pred) in
  let* _ := mmodify (with_model_metrics
    [("mse", VFloat mse); ("rmse", VFloat rmse); ("mae", VFloat mae);
     ("r2_score", VFloat r2); ("model_type", VStr model_type);
     ("training_date", VStr now);
     ("train_size", VInt (Z.of_nat (index_len X_train)));
     ("test_size", VInt (Z.of_nat (index_len X_test)))]) in
  if String.eqb model_type "random_forest" then
    let* self := mget in
    match model self with
    | Some {| config := c; params := Some p |} =>
        let feature_importance :=
          sort_values_descending
            (zip (default [] (feature_columns self)) (feature_importances_ c p)) in
        mmodify (with_model_metrics
          (dict_set "feature_importance" (importance_records feature_importance)
             (model_metrics self)))
    | _ => mlift (raise (NotFittedError
        "This estimator instance is not fitted yet."))
    end
  else mret tt.

(** Two runs agree on what the caller sees and on the estimator they
    leave in the model. *)
Definition same_outcome (a b : result unit * StudentPerformanceModel) : Prop :=
  fst a = fst b /\ model (snd a) = model (snd b).

(** [predict(data)] *)
Definition predict (data : DataFrame) : MM (list Q) :=
  let* self := mget in
  match model self with
  | None => mlift (raise (ValueError "Model not trained yet. Call train() first."))
  | Some e =>
      let* processed_data := preprocess_data data in
      let* '(X, _) := prepare_features processed_data in
      let* X :=
        match config e with
        | LinearRegression => scaler_transform X
        | _ => mret X
        end in
      let* predictions := model_predict X in
      mret predictions
  end.

(** The encoders of the three categorical columns are fitted, and their
    classes are strings, as after training on the generated data. *)
Definition fitted_on_strings (self : StudentPerformanceModel) : Prop :=
  forall col, In col categorical_columns ->
    exists classes,
      label_encoders self !! col = Some {| classes_ := Some classes |} /\
      Forall (fun c => exists s, c = VStr s) classes.

(** The states of a model object on which neither [train] nor [load_model]
    was ever called. *)
Inductive never_trained : StudentPerformanceModel -> Prop :=
| nt_init : never_trained init
| nt_preprocess_data self data :
    never_trained self -> never_trained (snd (preprocess_data data self))
| nt_prepare_features self data :
    never_trained self -> never_trained (snd (prepare_features data self))
| nt_predict self data :
    never_trained self -> never_trained (snd (predict data self)).

(** *** Persistence

    [joblib.dump] and [joblib.load] against a file system: a set of
    directories and the objects stored under file paths.  A file is taken
    to hold the kind of object [save_model] writes under its name; any
    other content makes [load_model] raise.  Paths are taken as they are
    written, one spelling per file and no symbolic links, and the process
    may write wherever the path is free: permissions and a full disk are
    outside the model. *)

Inductive artifact : Type :=
| AEstimator (e : Estimator)
| AScaler (s : option scaler_state)
| AEncoders (m : gmap string LabelEncoder)
| AMetadata (feature_columns : option (list string)) (target_column : string)
    (metrics : list (string * value)).

Record FileSystem : Type := {
  dirs : gset string;
  files : gmap string artifact
}.

Definition is_file (path : string) (fs : FileSystem) : bool :=
  match files fs !! path with Some _ => true | None => false end.

(** The disk after a successful [os.makedirs(path)]: the directory and
    the ancestors it lacked exist. *)
Definition made (path : string) (fs : FileSystem) : FileSystem :=
  {| dirs := {[path]} ∪ list_to_set (OsPath.ancestors path) ∪ dirs fs;
     files := files fs |}.

(** [os.makedirs(path, exist_ok=True)]: an existing directory is accepted;
    a regular file at the path, or where one of its ancestors should be,
    is an error. *)
Definition makedirs (path : string) (fs : FileSystem) : result FileSystem :=
  match files fs !! path with
  | Some _ => raise (FileExistsError path)
  | None =>
      if existsb (fun a => is_file a fs) (OsPath.ancestors path)
      then raise (NotADirectoryError path)
      else ok (made path fs)
  end.

(** [joblib.dump(obj, path)] into an existing directory: the file is
    created or replaced; a directory standing at the path is an error. *)
Definition dump (obj : artifact) (path : string) (fs : FileSystem)
    : result FileSystem :=
  if bool_decide (path ∈ dirs fs) then raise (IsADirectoryError path)
  else ok {| dirs := dirs fs; files := <[path := obj]> (files fs) |}.

(** One statement of [save_model] acting on the disk: when it raises, the
    disk stays as the statement found it and nothing after it runs. *)
Definition on_disk (step : FileSystem -> result FileSystem)
    (rest : FileSystem -> result unit * FileSystem) (fs : FileSystem)
    : result unit * FileSystem :=
  match step fs with
  | inl err => (inl err, fs)
  | inr fs' => rest fs'
  end.

(** [joblib.load(path)] *)
Definition load (path : string) (fs : FileSystem) : result artifact :=
  match files fs !! path with
  | Some obj => ok obj
  | None => raise (FileNotFoundError path)
  end.

(** The names of the four artifacts. *)
Definition artifact_names : list string :=
  ["student_performance_model.joblib"; "scaler.joblib";
   "label_encoders.joblib"; "model_metadata.joblib"].

(** [__file__] of [model.py] *)
Variable module_file : string.

(** The directory both methods work in: lines 198-199 and 232-233. *)
Definition resolve_model_dir (model_dir : string) : string :=
  if negb (OsPath.isabs model_dir)
  then OsPath.join (OsPath.dirname (OsPath.dirname module_file)) "models"
  else model_dir.

(** [save_model(model_dir)]: [self] is only read. *)
Definition save_model (model_dir : string) (self : StudentPerformanceModel)
    (fs : FileSystem) : result unit * FileSystem :=
  match model self with
  | None => (raise (ValueError "No model to save. Train the model first."), fs)
  | Some e =>
      let model_dir := resolve_model_dir model_dir in
      on_disk (makedirs model_dir) (fun fs =>
      let model_path := OsPath.join model_dir "student_performance_model.joblib" in
      on_disk (dump (AEstimator e) model_path) (fun fs =>
      let scaler_path := OsPath.join model_dir "scaler.joblib" in
      on_disk (dump (AScaler (scaler self)) scaler_path) (fun fs =>
      let encoders_path := OsPath.join model_dir "label_encoders.joblib" in
      on_disk (dump (AEncoders (label_encoders self)) encoders_path) (fun fs =>
      let metadata_path := OsPath.join model_dir "model_metadata.joblib" in
      on_disk (dump (AMetadata (feature_columns self) (target_column self)
                       (model_metrics self)) metadata_path) (fun fs =>
      (ok tt, fs)) fs) fs) fs) fs) fs
  end.

Definition wrong_content {A} (path : string) : MM A :=
  mlift (raise (TypeError ("unexpected object in " ++ path))).

(** [load_model(model_dir)]: the file system is only read. *)
Definition load_model (model_dir : string) (fs : FileSystem) : MM unit :=
  let model_dir := resolve_model_dir model_dir in
  let model_path := OsPath.join model_dir "student_performance_model.joblib" in
  let* obj := mlift (load model_path fs) in
  let* _ := match obj with
            | AEstimator e => mmodify (with_model (Some e))
            | _ => wrong_content model_path
            end in
  let scaler_path := OsPath.join model_dir "scaler.joblib" in
  let* obj := mlift (load scaler_path fs) in
  let* _ := match obj with
            | AScaler s => mmodify (with_scaler s)
            | _ => wrong_content scaler_path
            end in
  let encoders_path := OsPath.join model_dir "label_encoders.joblib" in
  let* obj := mlift (load encoders_path fs) in
  let* _ := match obj with
            | AEncoders m => mmodify (with_label_encoders m)
            | _ => wrong_content encoders_path
            end in
  let metadata_path := OsPath.join model_dir "model_metadata.joblib" in
  let* obj := mlift (load metadata_path fs) in
  match obj with
  | AMetadata fc tc metrics =>
      let* _ := mmodify (with_feature_columns fc) in
      let* _ := mmodify (with_target_column tc) in
      mmodify (with_model_metrics metrics)
  | _ => wrong_content metadata_path
  end.

(** *** Notions used in the statements about the model *)

(** A column of integer codes. *)
Definition int_coded (codes : list value) : Prop :=
  Forall (fun c => exists n, c = VInt n) codes.

(** The columns an encoder would have to be fitted on hold strings. *)
Definition fits_on_strings (cols : list string) (df : DataFrame)
    (self : StudentPerformanceModel) : Prop :=
  forall c y, In c cols -> dict_get c (columns df) = Some y ->
    label_encoders self !! c = None -> is_Some (mapM as_str y).

(** The feature list [prepare_features] computes on its first call (lines
    68-70). *)
Definition feature_names (target : string) (df : DataFrame) : list string :=
  List.filter (fun col => negb (existsb (String.eqb col) ["student_id"; target]))
    (map fst (columns df)).

(** A method keeps a property of the model when every run from a state
    with the property, returning or raising, ends in a state with it. *)
Definition preserves {A} (I : StudentPerformanceModel -> Prop) (m : MM A) : Prop :=
  forall self r self', I self -> m self = (r, self') -> I self'.

(** The feature list, once fixed, and the name of the target. *)
Definition features_fixed (fc : list string) (target : string)
    (self : StudentPerformanceModel) : Prop :=
  feature_columns self = Some fc /\ target_column self = target.

(** Two frames that agree on a set of columns. *)
Definition agree_on (cols : list string) (d d' : DataFrame) : Prop :=
  index_len d = index_len d' /\
  forall c, In c cols -> dict_get c (columns d) = dict_get c (columns d').

(** The estimator [train] builds for a model type (lines 104-112). *)
Definition estimator_for (model_type : string) : estimator_config :=
  if String.eqb model_type "linear" then LinearRegression
  else RandomForestRegressor 100 42 10 5.

(** The metrics dictionary of lines 129-138 and 148-157. *)
Definition metrics_of (now model_type : string) (fc : list string) (p : fitted)
    (mse mae r2 : Q) (train_size test_size : Z) : list (string * value) :=
  ([("mse", VFloat mse); ("rmse", VFloat (np_sqrt mse)); ("mae", VFloat mae);
    ("r2_score", VFloat r2); ("model_type", VStr model_type);
    ("training_date", VStr now);
    ("train_size", VInt train_size); ("test_size", VInt test_size)]
   ++ if String.eqb model_type "random_forest"
      then [("feature_importance",
             importance_records
               (sort_values_descending
                  (zip fc (feature_importances_ (estimator_for model_type) p))))]
      else [])%list.

(** The file system a successful [save_model] leaves. *)
Definition saved (dir : string) (e : Estimator) (self : StudentPerformanceModel)
    (fs : FileSystem) : FileSystem :=
  {| dirs := dirs (made dir fs);
     files :=
       <[OsPath.join dir "model_metadata.joblib" :=
           AMetadata (feature_columns self) (target_column self) (model_metrics self)]>
       (<[OsPath.join dir "label_encoders.joblib" := AEncoders (label_encoders self)]>
       (<[OsPath.join dir "scaler.joblib" := AScaler (scaler self)]>
       (<[OsPath.join dir "student_performance_model.joblib" := AEstimator e]>
          (files fs)))) |}.

End WithSklearn.
End Model.

(** ** The prediction service ([src/app.py]) *)

Module App.
Import Py Pandas Model.

(** What a handler returns: [jsonify(body), status]. *)
Record response : Type := {
  status : Z;
  body : list (string * value)
}.

Definition error_response (code : Z) (msg : string) : response :=
  {| status := code; body := [("error", VStr msg)] |}.

(** One entry of the batch result. *)
Definition batch_entry (i : nat) (pd : Q * value) : value :=
  VDict [("student_index", VInt (Z.of_nat i));
         ("prediction", VFloat (fst pd));
         ("input_data", snd pd)].

Section WithSklearn.
Context {SK : Sklearn}.

(** [pd.DataFrame(data)] for a list with an element that is not a
    dictionary: left to pandas. *)
Variable frame_of_other : list value -> result DataFrame.

Definition pd_DataFrame (data : list value) : result DataFrame :=
  match mapM as_dict data with
  | Some records => ok (from_records records)
  | None => frame_of_other data
  end.

Notation "'let*' x ':=' m 'in' k" := (mbind m (fun x => k))
  (at level 10, x name, m at level 100, k at level 200).

(** [try: ... except Exception as e: return jsonify({'error': str(e)}), 500] *)
Definition try_except (block : MM response) (self : StudentPerformanceModel)
    : response * StudentPerformanceModel :=
  match block self with
  | (inl e, self') => (error_response 500 (str_exn e), self')
  | (inr r, self') => (r, self')
  end.

(** A handler running against the global [model], which is [None] until
    [load_or_train_model] has run.  [get_json] is the outcome of
    [request.get_json()], [now] the clock reading. *)
Definition with_global (block : MM response)
    (model : option StudentPerformanceModel)
    : response * option StudentPerformanceModel :=
  match model with
  | None => (error_response 500 "Model not loaded", None)
  | Some m => let (r, m') := try_except block m in (r, Some m')
  end.

(** [POST /predict] *)
Definition predict_single (now : string) (get_json : result value)
    : option StudentPerformanceModel -> response * option StudentPerformanceModel :=
  with_global (
    let* data := mlift get_json in
    if negb (truthy data) then mret (error_response 400 "No data provided")
    else
      let* df := mlift (pd_DataFrame [data]) in
      let* prediction := predict df in
      match prediction with
      | [] => mlift (raise (IndexError
          "index 0 is out of bounds for axis 0 with size 0"))
      | p :: _ =>
          mret {| status := 200;
                  body := [("prediction", VFloat p);
                           ("input_data", data);
                           ("timestamp", VStr now)] |}
      end).

(** [POST /predict/batch] *)
Definition predict_batch (now : string) (get_json : result value)
    : option StudentPerformanceModel -> response * option StudentPerformanceModel :=
  with_global (
    let* data := mlift get_json in
    if negb (truthy data) || negb (is_list data) then
      mret (error_response 400 "Data should be a list of student records")
    else
      let items := match data with VList l => l | _ => [] end in
      let* df := mlift (pd_DataFrame items) in
      let* predictions := predict df in
      let results := imap batch_entry (zip predictions items) in
      mret {| status := 200;
              body := [("predictions", VList results);
                       ("count", VInt (Z.of_nat (length results)));
                       ("timestamp", VStr now)] |}).

(** [os.path.exists(path)] *)
Definition path_exists (path : string) (fs : FileSystem) : bool :=
  match files fs !! path with
  | Some _ => true
  | None => bool_decide (path ∈ dirs fs)
  end.

(** [load_or_train_model()]: the value it returns and the global [model] it
    leaves.  [app_file] and [model_file] are the [__file__] of [app.py] and
    of [model.py]; the global holds the new object from the first line on,
    also when loading raises half way. *)
Definition load_or_train_model (app_file model_file : string) (fs : FileSystem)
    : bool * option StudentPerformanceModel :=
  let model := Model.init in
  let models_dir := OsPath.join (OsPath.dirname (OsPath.dirname app_file)) "models" in
  let model_path := OsPath.join models_dir "student_performance_model.joblib" in
  if path_exists model_path fs then
    match load_model model_file models_dir fs model with
    | (inr _, model) => (true, Some model)
    | (inl _, model) => (false, Some model)
    end
  else (false, Some model).

(** [GET /health] *)
Definition health (now : string) (model : option StudentPerformanceModel) : response :=
  {| status := 200;
     body := [("status", VStr "healthy");
              ("timestamp", VStr now);
              ("model_loaded", VBool (match model with Some _ => true | None => false end))] |}.

(** [GET /model/info] *)
Definition model_info (model : option StudentPerformanceModel) : response :=
  match model with
  | None => error_response 500 "Model not loaded"
  | Some m =>
      {| status := 200;
         body := [("model_metrics", VDict (model_metrics m));
                  ("feature_columns",
                   match feature_columns m with
                   | None => VNone
                   | Some fc => VList (map VStr fc)
                   end);
                  ("target_column", VStr (target_column m))] |}
  end.

End WithSklearn.
End App.

(** ** From the generator to the model and the service *)

Module Pipeline.
Import Numpy Generator Py Pandas Model App.

(** The feature list of the service's documentation page. *)
Definition documented_features : list string :=
  ["age"; "gender"; "parental_education"; "household_income"; "previous_gpa";
   "study_hours_per_week"; "attendance_rate"; "sleep_hours";
   "exercise_hours_per_week"; "has_internet"; "has_computer";
   "extracurricular_hours"; "school_type"; "class_size"].

(** The fourteen feature columns of a generated frame, in order, with
    their cells as Python values. *)
Definition feature_cells (d : Dataset) : list (string * list value) :=
  [("age", map VInt (age d));
   ("gender", map VStr (gender d));
   ("parental_education", map VStr (parental_education d));
   ("household_income", map VFloat (household_income d));
   ("previous_gpa", map VFloat (previous_gpa d));
   ("study_hours_per_week", map VFloat (study_hours_per_week d));
   ("attendance_rate", map VFloat (attendance_rate d));
   ("sleep_hours", map VFloat (sleep_hours d));
   ("exercise_hours_per_week", map VFloat (exercise_hours_per_week d));
   ("has_internet", map VInt (has_internet d));
   ("has_computer", map VInt (has_computer d));
   ("extracurricular_hours", map VInt (extracurricular_hours d));
   ("school_type", map VStr (school_type d));
   ("class_size", map VInt (class_size d))].

(** A score as a cell.  [Py.value] has no infinity: a frame with an
    infinite score has no counterpart. *)
Definition score_cell (x : float64) : option value :=
  match x with
  | Fin q => Some (VFloat q)
  | NaN => Some VNaN
  | PInf | NInf => None
  end.

(** The frame [generate_dataset] returns, as [train] and [predict] take
    it: the sixteen columns of lines 104-121. *)
Definition to_frame (d : Dataset) : option DataFrame :=
  scores ← mapM score_cell (final_score d);
  Some {| index_len := length (student_id d);
          columns := (("student_id", map VStr (student_id d)) :: feature_cells d
                      ++ [("final_score", scores)])%list |}.

(** [df.to_dict('records')]: one dictionary per row. *)
Definition to_records (n : nat) (columns : list (string * list value))
    : list (list (string * value)) :=
  map (fun i => map (fun kc => (fst kc, default VNaN (snd kc !! i))) columns)
      (seq 0 n).

(** The body of a successful [GET /generate/sample]. *)
Record sample_body : Type := {
  sample_data : list (list (string * value));
  actual_scores : list float64;
  count : nat;
  note : string
}.

Section WithRandom.
Context {R : NumpyRandom}.

(** [GET /generate/sample]: the status with the error message or the body.
    [randint] is [np.random.randint(1, 1000)] on the global generator. *)
Definition generate_sample (randint : rng_state -> Z * rng_state) (s : rng_state)
    : Z * (string + sample_body) :=
  let (seed, s) := randint s in
  match Generator.bind (Generator.init 5 seed) generate_dataset s with
  | inr (sample_data, _) =>
      (* drop(['student_id', 'final_score'], axis=1) *)
      let prediction_data := feature_cells sample_data in
      (200%Z,
       inr {| sample_data := to_records (length (student_id sample_data)) prediction_data;
              actual_scores := final_score sample_data;
              count := length (student_id sample_data);
              note := "Use sample_data for predictions, actual_scores for comparison" |})
  | inl e => (500%Z, inl (str_exn e))
  end.

End WithRandom.
End Pipeline.

(** ** Instances for worked examples

    A small congruential generator and a constant estimator: stand-ins for
    the libraries, used where a statement is evaluated on concrete data. *)

Module Examples.
Local Open Scope Z_scope.

Definition step (s : Z) : Z := (s * 1103515245 + 12345) mod 2147483648.

(** A rational in [0, 1] read off the state. *)
Definition unit_draw (s : Z) : Q := (s mod 1001) # 1000.

Lemma unit_draw_range s : (0 <= unit_draw s <= 1)%Q.
Proof.
  unfold unit_draw, Qle; simpl.
  pose proof (Z.mod_pos_bound s 1001 ltac:(lia)). lia.
Qed.

Definition pick (p : list Q) (s : Z) : nat := Z.to_nat (s mod Z.of_nat (length p)).

Lemma pick_lt p s : p <> [] -> (pick p s < length p)%nat.
Proof.
  intros Hp. unfold pick.
  assert (0 < Z.of_nat (length p)) by (destruct p; [congruence | simpl; lia]).
  pose proof (Z.mod_pos_bound s (Z.of_nat (length p)) ltac:(lia)). lia.
Qed.

#[local] Instance lcg : NumpyRandom := {|
  rng_state := Z;
  seeded := fun s => step (s + 1);
  normal := fun mu sigma s => ((mu + sigma * (4 * unit_draw s - 2))%Q, step s);
  lognormal := fun mu sigma s => ((30000 + 200000 * unit_draw s)%Q, step s);
  beta := fun a b s => (unit_draw s, step s);
  gamma := fun k theta s => ((k * theta * 3 * unit_draw s)%Q, step s);
  exponential := fun scale s => ((scale * 4 * unit_draw s)%Q, step s);
  poisson := fun lam s => (s mod 9, step s);
  choice_index := fun p s => (pick p s, step s);
  choice_index_lt := fun p s H => pick_lt p s H;
  beta_range := fun a b s => unit_draw_range s
|}.

(** Three students, seed 42. *)
Definition batch3 : Generator.StudentDataGenerator :=
  {| Generator.num_students := 3; Generator.random_seed := 42 |}.

(** [np.random.randint(1, 1000)] for the congruential generator. *)
Definition lcg_randint (s : Z) : Z * Z := (1 + s mod 999, step s).

Import Pandas.

(** An estimator that predicts 50 for every row, a scaler that is the
    identity, a splitter that keeps the whole frame on both sides. *)
#[local] Instance constant_sklearn : Sklearn := {|
  fitted := unit;
  scaler_state := unit;
  unique_other := fun y => raise (TypeError
    "Encoders require their input argument must be uniformly strings or numbers.");
  int64_of_other := fun v => raise (TypeError
    "int() argument must be a string, a bytes-like object or a real number");
  transform_other := fun classes y => raise (TypeError
    "Encoders require their input argument must be uniformly strings or numbers.");
  train_test_split := fun X y => ok (X, X, y, y);
  scaler_fit := fun X => ok tt;
  scaler_apply := fun _ X => ok X;
  estimator_fit := fun _ _ _ => ok tt;
  estimator_predict := fun _ _ X => ok (repeat 50%Q (index_len X));
  mean_squared_error := fun _ _ => ok 0%Q;
  mean_absolute_error := fun _ _ => ok 0%Q;
  r2_score := fun _ _ => ok 1%Q;
  np_sqrt := fun x => x;
  feature_importances_ := fun _ _ => [];
  sort_values_descending := fun l => l;
  estimator_predict_length := fun c f X ys H =>
    eq_ind _ (fun r => length r = index_len X) (repeat_length _ _)
      _ (f_equal (fun r => match r with inr l => l | inl _ => ys end) H);
  scaler_apply_rows := fun s X X' H =>
    f_equal (fun r => match r with inr d => index_len d | inl _ => index_len X' end)
      (eq_sym H);
  transform_other_codes := fun classes y codes H =>
    match H in (_ = r) return (match r with inl _ => True | inr _ => _ end) with
    | eq_refl => I
    end
|}.

Import Py Model.

(** A model as [load_model] leaves it after a training run on generated
    data: a fitted forest and the three encoders with their sorted classes. *)
Definition encoders : gmap string LabelEncoder :=
  <["gender" := {| classes_ := Some [VStr "Female"; VStr "Male"; VStr "Other"] |}]>
  (<["parental_education" :=
       {| classes_ := Some [VStr "Bachelor"; VStr "High School"; VStr "Master";
                            VStr "No Formal Education"; VStr "PhD"] |}]>
  (<["school_type" := {| classes_ := Some [VStr "Private"; VStr "Public"] |}]> ∅)).

Definition loaded_model : StudentPerformanceModel :=
  {| model := Some {| config := RandomForestRegressor 100 42 10 5;
                      params := Some tt |};
     scaler := Some tt;
     label_encoders := encoders;
     feature_columns := Some
       ["age"; "gender"; "parental_education"; "household_income";
        "previous_gpa"; "study_hours_per_week"; "attendance_rate";
        "sleep_hours"; "exercise_hours_per_week"; "has_internet";
        "has_computer"; "extracurricular_hours"; "school_type"; "class_size"];
     target_column := "final_score";
     model_metrics := [("model_type", VStr "random_forest")] |}.

(** The request body of the service's documentation page, and the same
    student with a gender no encoder has seen. *)
Definition student : list (string * value) :=
  [("age", VInt 18); ("gender", VStr "Female");
   ("parental_education", VStr "Bachelor"); ("household_income", VInt 65000);
   ("previous_gpa", VFloat 3.2); ("study_hours_per_week", VInt 15);
   ("attendance_rate", VInt 85); ("sleep_hours", VInt 7);
   ("exercise_hours_per_week", VInt 4); ("has_internet", VInt 1);
   ("has_computer", VInt 1); ("extracurricular_hours", VInt 5);
   ("school_type", VStr "Public"); ("class_size", VInt 25)].

Definition stranger : list (string * value) :=
  dict_set "gender" (VStr "Unknown") student.



(** The frame of that one student, and the frame [preprocess_data] makes of
    it: the three categories replaced by their codes. *)
Definition student_frame : DataFrame := from_records [student].

Definition encoded_student_frame : DataFrame :=
  set_column "school_type" [VInt 1]
    (set_column "parental_education" [VInt 0]
       (set_column "gender" [VInt 0] student_frame)).

(** A frame to train on: four students with a target column. *)
Definition training_frame : DataFrame :=
  from_records
    (map (fun score => (student ++ [("final_score", VFloat score)])%list)
       [61.5; 72; 80.25; 93]%Q).

(** pandas on a list that is not a list of dictionaries: not needed by the
    examples. *)
Definition no_other_frames (data : list value) : result DataFrame :=
  raise (TypeError "not a list of records").

(** A disk with nothing on it, and one where a directory stands at the
    path of the scaler file. *)
Definition empty_disk : FileSystem := {| dirs := ∅; files := ∅ |}.

End Examples.

(** * Properties *)

(** ** Rounding, clipping and truncation keep a value inside integer bounds *)

Section NumpyFacts.
Import Numpy.
Local Open Scope Q_scope.

Lemma clip_bounds lo hi x : lo <= hi -> lo <= clip lo hi x <= hi.
Proof.
  intros Hle. unfold clip. split.
  - apply Q.min_glb; [apply Q.le_max_r | exact Hle].
  - apply Q.le_min_r.
Qed.

Lemma clipZ_bounds lo hi x :
  (lo <= hi)%Z -> (lo <= Generator.clipZ lo hi x <= hi)%Z.
Proof. unfold Generator.clipZ. lia. Qed.

Lemma rint_floor_or_succ x : rint x = Qfloor x \/ rint x = (Qfloor x + 1)%Z.
Proof.
  unfold rint. destruct (Qcompare _ _); [destruct (Z.even _) | |]; auto.
Qed.

Lemma rint_ge (z : Z) x : inject_Z z <= x -> (z <= rint x)%Z.
Proof.
  intros Hle.
  assert (z <= Qfloor x)%Z.
  { rewrite <- (Qfloor_Z z). now apply Qfloor_resp_le. }
  destruct (rint_floor_or_succ x) as [-> | ->]; lia.
Qed.

Lemma rint_le (z : Z) x : x <= inject_Z z -> (rint x <= z)%Z.
Proof.
  intros Hle.
  assert (Hf : (Qfloor x <= z)%Z).
  { rewrite <- (Qfloor_Z z). now apply Qfloor_resp_le. }
  unfold rint.
  destruct (Qcompare (x - inject_Z (Qfloor x)) (1 # 2)) eqn:Hc.
  - apply Qeq_alt in Hc.
    assert (Hlt : inject_Z (Qfloor x) < inject_Z z) by lra.
    rewrite <- Zlt_Qlt in Hlt. destruct (Z.even _); lia.
  - exact Hf.
  - apply Qgt_alt in Hc.
    assert (Hlt : inject_Z (Qfloor x) < inject_Z z) by lra.
    rewrite <- Zlt_Qlt in Hlt. lia.
Qed.

Lemma round2_scaled x : round2 x * 100 == inject_Z (rint (x * 100)).
Proof. unfold round2. field. Qed.

Lemma round2_between (a b : Z) x :
  inject_Z a <= x * 100 <= inject_Z b ->
  inject_Z a <= round2 x * 100 <= inject_Z b.
Proof.
  intros [Ha Hb]. rewrite round2_scaled.
  apply rint_ge in Ha. apply rint_le in Hb.
  now rewrite <- !Zle_Qle.
Qed.

Lemma astype_int_between (a b : Z) x :
  inject_Z a <= x <= inject_Z b -> (a <= astype_int x <= b)%Z.
Proof.
  intros [Ha Hb]. unfold astype_int.
  destruct (Qle_bool 0 x).
  - split.
    + rewrite <- (Qfloor_Z a). now apply Qfloor_resp_le.
    + rewrite <- (Qfloor_Z b). now apply Qfloor_resp_le.
  - split.
    + rewrite <- (Qceiling_Z a). now apply Qceiling_resp_le.
    + rewrite <- (Qceiling_Z b). now apply Qceiling_resp_le.
Qed.

(** The fold of [Qmin] is a lower bound of the array and one of its
    elements; dually for [Qmax]. *)
Lemma fold_min_le xs : forall x0 y,
  In y (x0 :: xs) -> fold_left Qmin xs x0 <= y.
Proof.
  induction xs as [| x xs IH]; intros x0 y Hin; simpl in *.
  - destruct Hin as [-> | []]. apply Qle_refl.
  - destruct Hin as [-> | [-> | Hin]].
    + eapply Qle_trans; [apply IH; left; reflexivity | apply Q.le_min_l].
    + eapply Qle_trans; [apply IH; left; reflexivity | apply Q.le_min_r].
    + apply IH. now right.
Qed.

Lemma fold_max_ge xs : forall x0 y,
  In y (x0 :: xs) -> y <= fold_left Qmax xs x0.
Proof.
  induction xs as [| x xs IH]; intros x0 y Hin; simpl in *.
  - destruct Hin as [-> | []]. apply Qle_refl.
  - destruct Hin as [-> | [-> | Hin]].
    + eapply Qle_trans; [apply Q.le_max_l | apply IH; left; reflexivity].
    + eapply Qle_trans; [apply Q.le_max_r | apply IH; left; reflexivity].
    + apply IH. now right.
Qed.

Lemma fold_min_attained xs : forall x0,
  exists y, In y (x0 :: xs) /\ y == fold_left Qmin xs x0.
Proof.
  induction xs as [| x xs IH]; intros x0; simpl.
  - exists x0. split; [now left | reflexivity].
  - destruct (IH (Qmin x0 x)) as (y & [<- | Hin] & Hy).
    + destruct (Q.min_spec x0 x) as [[_ He] | [_ He]].
      * exists x0. split; [now left |]. now rewrite <- Hy, He.
      * exists x. split; [right; now left |]. now rewrite <- Hy, He.
    + exists y. split; [right; now right | exact Hy].
Qed.

Lemma fold_max_attained xs : forall x0,
  exists y, In y (x0 :: xs) /\ y == fold_left Qmax xs x0.
Proof.
  induction xs as [| x xs IH]; intros x0; simpl.
  - exists x0. split; [now left | reflexivity].
  - destruct (IH (Qmax x0 x)) as (y & [<- | Hin] & Hy).
    + destruct (Q.max_spec x0 x) as [[_ He] | [_ He]].
      * exists x. split; [right; now left |]. now rewrite <- Hy, He.
      * exists x0. split; [now left |]. now rewrite <- Hy, He.
    + exists y. split; [right; now right | exact Hy].
Qed.

Lemma amin_spec a lo :
  amin a = inr lo ->
  (forall y, In y a -> lo <= y) /\ exists y, In y a /\ y == lo.
Proof.
  destruct a as [| x xs]; [discriminate |].
  intros [= <-]. split.
  - intros y Hy. now apply fold_min_le.
  - apply fold_min_attained.
Qed.

Lemma amax_spec a hi :
  amax a = inr hi ->
  (forall y, In y a -> y <= hi) /\ exists y, In y a /\ y == hi.
Proof.
  destruct a as [| x xs]; [discriminate |].
  intros [= <-]. split.
  - intros y Hy. now apply fold_max_ge.
  - apply fold_max_attained.
Qed.

End NumpyFacts.

(** ** The data synthesizer *)

Section GeneratorFacts.
Import Numpy Generator.
Context {R : NumpyRandom}.
Local Open Scope Q_scope.

Lemma bind_inr {A B} (m : M A) (k : A -> M B) s r :
  bind m k s = inr r -> exists x s1, m s = inr (x, s1) /\ k x s1 = inr r.
Proof.
  unfold bind. destruct (m s) as [e | [x s1]]; [discriminate | eauto].
Qed.

Lemma draws_length {A} (f : rng_state -> A * rng_state) n :
  forall s, length (fst (draws f n s)) = n.
Proof.
  induction n as [| n IH]; intros s; simpl; [reflexivity |].
  destruct (f s) as [x s1]. specialize (IH s1).
  destruct (draws f n s1). simpl in *. now rewrite IH.
Qed.

Lemma draws_Forall {A} (P : A -> Prop) (f : rng_state -> A * rng_state) n :
  (forall s, P (fst (f s))) -> forall s, Forall P (fst (draws f n s)).
Proof.
  intros Hf. induction n as [| n IH]; intros s; simpl; [constructor |].
  pose proof (Hf s) as Hx. destruct (f s) as [x s1]. specialize (IH s1).
  destruct (draws f n s1). simpl in *. now constructor.
Qed.

Lemma sized_inr {A} (f : rng_state -> A * rng_state) n s l s' :
  sized f n s = inr (l, s') ->
  (0 <= n)%Z /\ l = fst (draws f (Z.to_nat n) s) /\ length l = Z.to_nat n.
Proof.
  unfold sized. destruct (n <? 0)%Z eqn:Hn; [discriminate |].
  intros [= Hd]. apply Z.ltb_ge in Hn.
  assert (l = fst (draws f (Z.to_nat n) s)) as -> by now rewrite Hd.
  auto using draws_length.
Qed.

Lemma sized_Forall {A} (P : A -> Prop) (f : rng_state -> A * rng_state) n s l s' :
  (forall s, P (fst (f s))) -> sized f n s = inr (l, s') -> Forall P l.
Proof.
  intros Hf H. apply sized_inr in H as (_ & -> & _). now apply draws_Forall.
Qed.

Lemma np_choice_length {A} (a : list A) d p n s l s' :
  np_choice a d p n s = inr (l, s') -> length l = Z.to_nat n.
Proof. intros H. now apply sized_inr in H. Qed.

Lemma np_choice_In {A} (a : list A) d p n s l s' :
  p <> [] -> length a = length p ->
  np_choice a d p n s = inr (l, s') -> Forall (fun x => In x a) l.
Proof.
  intros Hp Hlen. apply sized_Forall. intros s0.
  pose proof (choice_index_lt p s0 Hp) as Hlt.
  destruct (choice_index p s0) as [i s1]. simpl in *.
  apply nth_In. now rewrite Hlen.
Qed.

Ltac invert_binds H :=
  repeat (apply bind_inr in H;
          let x := fresh "x" in
          let s := fresh "s" in
          let Hx := fresh "Hx" in
          destruct H as (x & s & Hx & H); cbv beta zeta in H).

Lemma Forall_map_all {A B} (P : B -> Prop) (g : A -> B) (l : list A) :
  (forall x, P (g x)) -> Forall P (map g l).
Proof. intros Hg. apply Forall_map, Forall_forall. auto. Qed.

Lemma sample_features_ok n s f s' :
  sample_features n s = inr (f, s') -> features_ok (Z.to_nat n) f.
Proof.
  intros H. unfold sample_features in H. invert_binds H.
  unfold ret, ok in H. injection H as <- _.
  repeat match goal with
         | Hs : sized _ _ _ = inr _ |- _ =>
             let Hl := fresh "Hl" in
             pose proof (proj2 (proj2 (sized_inr _ _ _ _ _ Hs))) as Hl;
             first [ pose proof (sized_Forall (fun x => 0 <= x <= 1) _ _ _ _ _
                                   (beta_range _ _) Hs)
                   | idtac ];
             clear Hs
         | Hs : np_choice _ _ _ _ _ = inr _ |- _ =>
             apply np_choice_length in Hs
         end.
  constructor; simpl; unfold vmul_s;
    rewrite ?length_map, ?length_seq; try assumption; try reflexivity.
  - apply Forall_map_all. intros v. apply astype_int_between.
    apply (clip_bounds 16 25). lra.
  - apply Forall_map_all. intros v. apply (clip_bounds 20000 200000). lra.
  - apply Forall_map. apply Forall_map.
    match goal with Hb : Forall _ ?l |- Forall _ ?l =>
      eapply Forall_impl; [exact Hb |] end.
    intros v [Hv0 Hv1]. cbv beta.
    pose proof (round2_between 0 400 (v * 4.0) ltac:(unfold inject_Z; lra)) as Hr.
    unfold inject_Z in Hr. lra.
  - apply Forall_map_all. intros v. apply (clip_bounds 1 40). lra.
  - apply Forall_map.
    match goal with Hb : Forall _ ?l |- Forall _ ?l =>
      eapply Forall_impl; [exact Hb |] end.
    intros v [Hv0 Hv1]. cbv beta. lra.
  - apply Forall_map_all. intros v. apply (clip_bounds 4 12). lra.
  - apply Forall_map_all. intros v. apply (clip_bounds 0 20). lra.
  - apply Forall_map_all. intros v. apply clipZ_bounds. lia.
  - apply Forall_map_all. intros v. apply astype_int_between.
    apply (clip_bounds 10 50). lra.
Qed.

End GeneratorFacts.

Section GeneratorRuns.
Import Numpy Generator.
Context {R : NumpyRandom}.
Local Open Scope Q_scope.

Lemma bind_sized {A B} (f : rng_state -> A * rng_state) n (k : list A -> M B) s :
  (0 <= n)%Z ->
  bind (sized f n) k s =
  k (fst (draws f (Z.to_nat n) s)) (snd (draws f (Z.to_nat n) s)).
Proof.
  intros Hn. unfold bind, sized.
  destruct (n <? 0)%Z eqn:E; [apply Z.ltb_lt in E; lia |].
  unfold ok. now destruct (draws f (Z.to_nat n) s).
Qed.

Lemma sample_features_total n s :
  (0 <= n)%Z -> exists f s', sample_features n s = inr (f, s').
Proof.
  intros Hn. unfold sample_features, np_choice.
  repeat (rewrite bind_sized by exact Hn; cbv beta zeta).
  unfold ret, ok. eauto.
Qed.

Lemma length_performance_base n f :
  features_ok n f -> length (performance_base f) = n.
Proof.
  intros []. unfold performance_base, vadd, vmul_s, vdiv_s, of_ints.
  repeat rewrite ?length_zip_with, ?length_map. lia.
Qed.

Lemma raw_scores_inr self s f scores s' :
  raw_scores self s = inr (f, scores, s') ->
  valid_seed (random_seed self) /\ (0 <= num_students self)%Z /\
  features_ok (Z.to_nat (num_students self)) f /\
  exists noise, length noise = Z.to_nat (num_students self) /\
                scores = vadd (performance_base f) noise.
Proof.
  unfold raw_scores. intros H.
  apply bind_inr in H as ([] & s0 & Hseed & H).
  apply bind_inr in H as (f0 & s1 & Hf & H). cbv zeta in H.
  apply bind_inr in H as (noise & s2 & Hn & H).
  unfold ret, ok in H. injection H as <- <- _.
  unfold np_random_seed in Hseed.
  destruct ((0 <=? random_seed self) && (random_seed self <? 2 ^ 32))%Z eqn:E;
    [| discriminate].
  apply andb_true_iff in E as [E1 E2].
  apply Z.leb_le in E1. apply Z.ltb_lt in E2.
  apply sized_inr in Hn as (Hn0 & _ & Hlen).
  split; [exact (conj E1 E2) |].
  split; [exact Hn0 |].
  split; [now apply sample_features_ok in Hf | eauto].
Qed.

Lemma raw_scores_total self s :
  valid_seed (random_seed self) -> (0 <= num_students self)%Z ->
  exists f scores s', raw_scores self s = inr (f, scores, s').
Proof.
  intros [H1 H2] Hn. unfold raw_scores, bind at 1, np_random_seed.
  apply Z.leb_le in H1. apply Z.ltb_lt in H2. rewrite H1, H2. simpl.
  destruct (sample_features_total (num_students self)
              (seeded (random_seed self)) Hn) as (f & s1 & Hf).
  unfold bind at 1. rewrite Hf. cbv zeta.
  rewrite bind_sized by exact Hn. unfold ret, ok. eauto.
Qed.

Lemma length_raw_scores self s f scores s' :
  raw_scores self s = inr (f, scores, s') ->
  length scores = Z.to_nat (num_students self).
Proof.
  intros H. apply raw_scores_inr in H as (_ & _ & Hf & noise & Hl & ->).
  unfold vadd. rewrite length_zip_with, (length_performance_base _ _ Hf). lia.
Qed.

(** One cell of the normalised column. *)
Lemma normalized_cell lo hi x :
  lo < hi -> lo <= x <= hi ->
  exists q, round2_f (scale 100 (divide (x - lo) (hi - lo))) = Fin q /\
            0 <= q <= 100 /\ (x == lo -> q == 0) /\ (x == hi -> q == 100).
Proof.
  intros Hlt [Hlo Hhi]. unfold divide.
  assert (Hpos : 0 < hi - lo) by lra.
  destruct (Qeq_bool (hi - lo) 0) eqn:E.
  { apply Qeq_bool_iff in E. lra. }
  simpl. eexists. split; [reflexivity |].
  set (t := (x - lo) / (hi - lo)).
  assert (Ht0 : 0 <= t) by (apply Qle_shift_div_l; [exact Hpos | lra]).
  assert (Ht1 : t <= 1) by (apply Qle_shift_div_r; [exact Hpos | lra]).
  split; [| split].
  - pose proof (round2_between 0 10000 (t * 100)
                  ltac:(unfold inject_Z; lra)) as Hr.
    unfold inject_Z in Hr. lra.
  - intros Heq.
    assert (Ht : t == 0) by (unfold t; rewrite Heq; field; lra).
    pose proof (round2_between 0 0 (t * 100)
                  ltac:(unfold inject_Z; lra)) as Hr.
    unfold inject_Z in Hr. lra.
  - intros Heq.
    assert (Ht : t == 1) by (unfold t; rewrite Heq; field; lra).
    pose proof (round2_between 10000 10000 (t * 100)
                  ltac:(unfold inject_Z; lra)) as Hr.
    unfold inject_Z in Hr. lra.
Qed.

Lemma normalize_distinct scores lo hi :
  amin scores = inr lo -> amax scores = inr hi -> ~ lo == hi ->
  exists l, normalize scores = inr l /\
    length l = length scores /\
    Forall (fun c => exists q, c = Fin q /\ 0 <= q <= 100) l /\
    Exists (fun c => exists q, c = Fin q /\ q == 0) l /\
    Exists (fun c => exists q, c = Fin q /\ q == 100) l.
Proof.
  intros Hmin Hmax Hne. unfold normalize. rewrite Hmin, Hmax. simpl.
  destruct (amin_spec _ _ Hmin) as (Hlb & ymin & Hin_min & Hymin).
  destruct (amax_spec _ _ Hmax) as (Hub & ymax & Hin_max & Hymax).
  assert (Hlt : lo < hi).
  { pose proof (Hub _ Hin_min). apply Qle_lt_or_eq in H as [H | H]; lra. }
  eexists. split; [reflexivity |]. unfold vsub_s.
  split; [now rewrite !length_map |].
  rewrite map_map. split; [| split].
  - apply List.Forall_forall. intros c Hc. apply in_map_iff in Hc as (x & <- & Hx).
    destruct (normalized_cell lo hi x Hlt (conj (Hlb _ Hx) (Hub _ Hx)))
      as (q & Hq & Hr & _). eauto.
  - apply List.Exists_exists.
    destruct (normalized_cell lo hi ymin Hlt (conj (Hlb _ Hin_min) (Hub _ Hin_min)))
      as (q & Hq & _ & H0 & _).
    eexists. split; [apply in_map; exact Hin_min |]. eauto.
  - apply List.Exists_exists.
    destruct (normalized_cell lo hi ymax Hlt (conj (Hlb _ Hin_max) (Hub _ Hin_max)))
      as (q & Hq & _ & _ & H1).
    eexists. split; [apply in_map; exact Hin_max |]. eauto.
Qed.

(** When all raw scores coincide, every cell is [0/0]. *)
Lemma normalize_singleton x : normalize [x] = inr [NaN].
Proof.
  unfold normalize. simpl. unfold divide.
  assert (Hz : x - x == 0) by ring.
  apply Qeq_bool_iff in Hz as Hb. rewrite Hb.
  apply Qeq_alt in Hz. now rewrite Hz.
Qed.

End GeneratorRuns.

Section GeneratorClaims.
Import Numpy Generator.
Context {R : NumpyRandom}.
Local Open Scope Q_scope.

Ltac rounded_column a b Hcol :=
  apply Forall_map; eapply Forall_impl; [exact Hcol |];
  let v := fresh "v" in
  let Hv0 := fresh "Hv0" in
  let Hv1 := fresh "Hv1" in
  let Hr := fresh "Hr" in
  intros v [Hv0 Hv1]; cbv beta;
  pose proof (round2_between a b v ltac:(unfold inject_Z; lra)) as Hr;
  unfold inject_Z in Hr; lra.

(** C4.  A batch of at least two records whose raw scores are not all equal
    is generated, every bounded column lies in its documented interval,
    and the normalised score lies in [0, 100], is exactly 0 for some
    record and exactly 100 for some record. *)
Theorem generated_fields_within_documented_ranges
    (self : StudentDataGenerator) (s : rng_state) :
  (2 <= num_students self)%Z ->
  distinct_extremes self s ->
  exists d s', generate_dataset self s = inr (d, s') /\
    length (final_score d) = Z.to_nat (num_students self) /\
    Forall (fun x => 16 <= x <= 25)%Z (age d) /\
    Forall (fun x => 0 <= x <= 4) (previous_gpa d) /\
    Forall (fun x => 0 <= x <= 100) (attendance_rate d) /\
    Forall (fun x => 4 <= x <= 12) (sleep_hours d) /\
    Forall (fun x => 0 <= x <= 20) (exercise_hours_per_week d) /\
    Forall (fun x => 0 <= x <= 15)%Z (extracurricular_hours d) /\
    Forall (fun x => 10 <= x <= 50)%Z (class_size d) /\
    Forall (fun x => 20000 <= x <= 200000) (household_income d) /\
    Forall (fun x => x <= 40) (study_hours_per_week d) /\
    Forall (fun c => exists q, c = Fin q /\ 0 <= q <= 100) (final_score d) /\
    Exists (fun c => exists q, c = Fin q /\ q == 0) (final_score d) /\
    Exists (fun c => exists q, c = Fin q /\ q == 100) (final_score d).
Proof.
  intros _ Hd. unfold distinct_extremes in Hd.
  destruct (raw_scores self s) as [e | [[f scores] s1]] eqn:Hraw; [contradiction |].
  destruct (amin scores) as [e | lo] eqn:Hmin; [contradiction |].
  destruct (amax scores) as [e | hi] eqn:Hmax; [contradiction |].
  destruct (normalize_distinct scores lo hi Hmin Hmax Hd)
    as (l & Hnorm & Hlen & Hall & Hzero & Hfull).
  pose proof (length_raw_scores _ _ _ _ _ Hraw) as Hn.
  apply raw_scores_inr in Hraw as Hinv. destruct Hinv as (_ & _ & [] & _).
  exists (make_frame f l), s1. split.
  { unfold generate_dataset, bind. rewrite Hraw. cbn [fst snd].
    unfold lift. now rewrite Hnorm. }
  simpl. split; [now rewrite Hlen |].
  repeat match goal with |- _ /\ _ => split end; try assumption.
  - rounded_column 0%Z 10000%Z rng_attendance_rate0.
  - rounded_column 400%Z 1200%Z rng_sleep_hours0.
  - rounded_column 0%Z 2000%Z rng_exercise_hours0.
  - rounded_column 2000000%Z 20000000%Z rng_household_income0.
  - rounded_column 100%Z 4000%Z rng_study_hours0.
Qed.

(** C2.  A batch of one record is neither rejected nor given the fallback
    score: the normalisation divides zero by zero and the record's
    [final_score] is [nan]. *)
Theorem single_record_batch_scores_nan (s : rng_state) :
  exists d s',
    generate_dataset {| num_students := 1; random_seed := 42 |} s = inr (d, s') /\
    final_score d = [NaN].
Proof.
  set (self := {| num_students := 1; random_seed := 42 |}).
  destruct (raw_scores_total self s) as (f & scores & s1 & Hraw);
    [unfold valid_seed; simpl; lia | simpl; lia |].
  pose proof (length_raw_scores _ _ _ _ _ Hraw) as Hn. simpl in Hn.
  destruct scores as [| x [| y rest]]; try discriminate.
  exists (make_frame f [NaN]), s1. split; [| reflexivity].
  unfold generate_dataset, bind. rewrite Hraw. cbn [fst snd].
  unfold lift. now rewrite normalize_singleton.
Qed.

Lemma generate_dataset_reseeds (self : StudentDataGenerator) (s1 s2 : rng_state) :
  generate_dataset self s1 = generate_dataset self s2.
Proof. reflexivity. Qed.

(** C3.  With the same count (at least 2) and seed, two generators built
    and run from any two states of the global generator return the same
    dataset, and a second call on one instance returns what the first
    returned. *)
Theorem generation_is_deterministic (count seed : Z) :
  (2 <= count)%Z ->
  forall s1 s2 : rng_state,
    run (bind (init count seed) generate_dataset) s1 =
    run (bind (init count seed) generate_dataset) s2 /\
    forall self : StudentDataGenerator,
      num_students self = count -> random_seed self = seed ->
      run (generate_dataset self) s1 = run (generate_dataset self) s2 /\
      forall d1 s1',
        generate_dataset self s1 = inr (d1, s1') ->
        run (generate_dataset self) s1' = inr d1.
Proof.
  intros _ s1 s2. split; [| intros self _ _; split].
  - unfold run, bind, init, np_random_seed, ret.
    destruct ((0 <=? seed) && (seed <? 2 ^ 32))%Z; [| reflexivity].
    reflexivity.
  - unfold run. now rewrite (generate_dataset_reseeds self s1 s2).
  - intros d1 s1' H. unfold run.
    now rewrite (generate_dataset_reseeds self s1' s1), H.
Qed.

Lemma education_bonus_agrees e :
  inject_Z (education_bonus e) = Spec.education_bonus e.
Proof.
  unfold education_bonus, Spec.education_bonus.
  repeat destruct (String.eqb e _); reflexivity.
Qed.

(** C1, as the code has it.  For every record of a generated batch the base
    score is the documented sum, with coefficient 0.00002 on the household
    income: the code adds [(household_income / 10000) * 0.2]. *)
Theorem base_score_formula
    (self : StudentDataGenerator) (s : rng_state) f scores s' (i : nat) :
  raw_scores self s = inr (f, scores, s') ->
  (i < Z.to_nat (num_students self))%nat ->
  exists r b, row f i = Some r /\ performance_base f !! i = Some b /\
              b == Spec.base_with 0.00002 r.
Proof.
  intros Hraw Hi. apply raw_scores_inr in Hraw as (_ & _ & [] & _).
  repeat match goal with
         | Hl : length ?l = Z.to_nat (num_students self) |- _ =>
             let x := fresh "x" in
             let Hx := fresh "Hx" in
             destruct (lookup_lt_is_Some_2 l i ltac:(rewrite Hl; exact Hi)) as [x Hx];
             clear Hl
         end.
  eexists. eexists. unfold row, performance_base, vadd, vmul_s, vdiv_s, of_ints.
  repeat rewrite ?lookup_zip_with, ?list_lookup_fmap.
  repeat match goal with Hx : _ !! i = Some _ |- _ => rewrite Hx; clear Hx end.
  simpl. split; [reflexivity |]. split; [reflexivity |].
  unfold Spec.base_with. simpl.
  rewrite <- education_bonus_agrees. unfold private_bonus.
  unfold Z.sub.
  destruct (String.eqb _ "Private");
    rewrite ?inject_Z_mult, ?inject_Z_plus, ?inject_Z_opp;
    change (inject_Z 2) with 2; change (inject_Z 0) with 0;
    change (inject_Z 3) with 3; change (inject_Z 4) with 4;
    change (inject_Z 30) with 30; field.
Qed.

(** The specification's coefficient adds 0.01998 per unit of income. *)
Remark spec_base_excess r :
  Spec.base r == Spec.base_with 0.00002 r + 0.01998 * r_household_income r.
Proof. unfold Spec.base, Spec.base_with. ring. Qed.

End GeneratorClaims.

Section GeneratorExamples.
Import Numpy Generator Examples.
Local Open Scope Q_scope.
Local Existing Instance lcg.

Lemma generated_fields_within_documented_ranges_witness :
  (2 <= num_students batch3)%Z /\
  exists d s', generate_dataset (R := lcg) batch3 0%Z = inr (d, s') /\
    length (final_score d) = 3%nat /\
    Forall (fun x => 16 <= x <= 25)%Z (age d) /\
    Forall (fun c => exists q, c = Fin q /\ 0 <= q <= 100) (final_score d) /\
    Exists (fun c => exists q, c = Fin q /\ q == 0) (final_score d) /\
    Exists (fun c => exists q, c = Fin q /\ q == 100) (final_score d).
Proof.
  split; [simpl; lia |].
  destruct (generated_fields_within_documented_ranges (R := lcg) batch3 0%Z)
    as (d & s' & Hgen & Hlen & Hage & _ & _ & _ & _ & _ & _ & _ & _ & Hall & H0 & H100).
  - simpl; lia.
  - vm_compute. discriminate.
  - exists d, s'. repeat split; assumption.
Defined.

Lemma generation_is_deterministic_witness :
  run (R := lcg) (bind (init 3 42) generate_dataset) 0%Z =
  run (bind (init 3 42) generate_dataset) 7%Z.
Proof.
  exact (proj1 (generation_is_deterministic (R := lcg) 3 42 ltac:(lia) 0%Z 7%Z)).
Defined.

Lemma base_score_formula_witness :
  exists f scores s',
    raw_scores (R := lcg) batch3 0%Z = inr (f, scores, s') /\
    exists r b, row f 0 = Some r /\ performance_base f !! 0%nat = Some b /\
                b == Spec.base_with 0.00002 r.
Proof.
  destruct (raw_scores (R := lcg) batch3 0%Z) as [e | [[f scores] s']] eqn:Hraw.
  - vm_compute in Hraw. discriminate.
  - exists f, scores, s'. split; [reflexivity |].
    exact (base_score_formula (R := lcg) batch3 0%Z f scores s' 0 Hraw ltac:(simpl; lia)).
Defined.

(** C1 as stated fails: on the first record of this batch the code's base
    score is 76.1568, the specification's formula gives 3268.9608. *)
Lemma spec_base_score_counterexample :
  exists f scores s' r b,
    raw_scores (R := lcg) batch3 0%Z = inr (f, scores, s') /\
    row f 0 = Some r /\ performance_base f !! 0%nat = Some b /\
    ~ b == Spec.base r.
Proof.
  destruct (raw_scores (R := lcg) batch3 0%Z) as [e | [[f scores] s']] eqn:Hraw;
    [vm_compute in Hraw; discriminate |].
  vm_compute in Hraw. injection Hraw as <- <- <-.
  do 5 eexists. split; [reflexivity |].
  split; [vm_compute; reflexivity |].
  split; [vm_compute; reflexivity |].
  vm_compute. discriminate.
Qed.

End GeneratorExamples.

(** ** Dictionaries, frames and label encoders *)

Section FrameFacts.
Import Py Pandas Model.
Context {SK : Sklearn}.

Lemma dict_get_set_eq {A} k (v : A) d : dict_get k (dict_set k v d) = Some v.
Proof.
  induction d as [| [k' v'] d IH]; simpl.
  - now rewrite String.eqb_refl.
  - destruct (String.eqb k' k) eqn:E; simpl; rewrite E; [reflexivity | exact IH].
Qed.

Lemma dict_get_set_ne {A} k k' (v : A) d :
  k <> k' -> dict_get k' (dict_set k v d) = dict_get k' d.
Proof.
  intros Hne. induction d as [| [k0 v0] d IH]; simpl.
  - apply String.eqb_neq in Hne. now rewrite Hne.
  - destruct (String.eqb k0 k) eqn:E; simpl.
    + apply String.eqb_eq in E. subst k0.
      apply String.eqb_neq in Hne. now rewrite Hne.
    + now rewrite IH.
Qed.

Lemma dict_set_same {A} k (v : A) d : dict_get k d = Some v -> dict_set k v d = d.
Proof.
  induction d as [| [k0 v0] d IH]; simpl; [discriminate |].
  destruct (String.eqb k0 k) eqn:E.
  - now intros [= ->].
  - intros H. now rewrite IH.
Qed.








Lemma mapM_as_dict records : mapM as_dict (map VDict records) = Some records.
Proof.
  induction records as [| r records IH]; [reflexivity |].
  simpl. rewrite IH. reflexivity.
Qed.

Lemma index_of_None v classes :
  (forall c, In c classes -> Py.eqb c v = false) -> index_of v classes = None.
Proof.
  induction classes as [| c classes IH]; intros H; simpl; [reflexivity |].
  rewrite (H c) by now left.
  rewrite IH; [reflexivity |]. intros c' Hc'. apply H. now right.
Qed.

Lemma mapM_all_some {A B} (g : A -> option B) (d : B) (l : list A) :
  Forall (fun x => is_Some (g x)) l ->
  mapM g l = Some (map (fun x => default d (g x)) l).
Proof.
  induction 1 as [| x l [b Hb] _ IH]; [reflexivity |].
  simpl. rewrite Hb, IH. reflexivity.
Qed.

Lemma index_of_seen s classes :
  In (VStr s) classes -> is_Some (index_of (VStr s) classes).
Proof.
  induction classes as [| c classes IH]; simpl; [tauto |].
  intros H. destruct (Py.eqb c (VStr s)) eqn:E; [eauto |].
  destruct H as [-> | H].
  - unfold Py.eqb in E. simpl in E. rewrite String.eqb_refl in E. discriminate.
  - destruct (IH H) as [i ->]. simpl. eauto.
Qed.

(** Labels that are all among string classes are replaced by their
    positions. *)
Lemma lookup_labels_seen classes y :
  string_labels classes -> Forall (fun v => In v classes) y ->
  lookup_labels classes y = inr (codes_of classes y).
Proof.
  intros Hs Hy. unfold lookup_labels.
  assert (Hstr : forall v, In v y -> exists s, v = VStr s /\ In (VStr s) classes).
  { intros v Hv. unfold string_labels in Hs. rewrite List.Forall_forall in Hy, Hs.
    destruct (Hs v (Hy v Hv)) as [s ->]. eauto. }
  assert (Hh : forallb hashable y = true).
  { apply forallb_forall. intros v Hv. now destruct (Hstr v Hv) as (s & -> & _). }
  rewrite Hh, (mapM_all_some _ O).
  - unfold codes_of, ok. now rewrite map_map.
  - apply List.Forall_forall. intros v Hv. destruct (Hstr v Hv) as (s & -> & Hin).
    now apply index_of_seen.
Qed.

(** Integer codes are not among string classes. *)
Lemma lookup_labels_codes classes n y :
  string_labels classes ->
  Forall (fun c => exists n, c = VInt n) y ->
  lookup_labels classes (VInt n :: y) =
  inl (ValueError "y contains previously unseen labels").
Proof.
  intros Hs Hy. unfold lookup_labels.
  assert (Hh : forallb hashable (VInt n :: y) = true).
  { apply forallb_forall. intros v [<- | Hv]; [reflexivity |].
    rewrite List.Forall_forall in Hy. now destruct (Hy v Hv) as [m ->]. }
  rewrite Hh. simpl.
  rewrite (index_of_None (VInt n) classes); [reflexivity |].
  intros c Hc. unfold string_labels in Hs. rewrite List.Forall_forall in Hs.
  now destruct (Hs c Hc) as [s ->].
Qed.


Lemma lookup_labels_inr classes y codes :
  lookup_labels classes y = inr codes ->
  length codes = length y /\ Forall (fun c => exists n, c = VInt n) codes.
Proof.
  unfold lookup_labels.
  destruct (forallb hashable y); [| discriminate].
  destruct (mapM _ y) as [idx |] eqn:E; [| discriminate].
  intros [= <-]. apply length_mapM in E. split.
  - now rewrite length_map.
  - apply List.Forall_forall. intros c Hc. apply in_map_iff in Hc as (i & <- & _). eauto.
Qed.

Lemma string_labels_mapM classes :
  string_labels classes -> is_Some (mapM as_str classes).
Proof.
  intros H. apply mapM_is_Some. eapply Forall_impl; [exact H |].
  intros c [s ->]. simpl. eauto.
Qed.

Lemma transform_strings classes y :
  string_labels classes ->
  transform {| classes_ := Some classes |} y = lookup_labels classes y.
Proof.
  intros H. unfold transform. simpl.
  now destruct (string_labels_mapM classes H) as [strs ->].
Qed.


Lemma cast_int64_length y : forall ints,
  cast_int64 y = inr ints -> length ints = length y.
Proof.
  induction y as [| v y IH]; intros ints; simpl.
  - now intros [= <-].
  - unfold rbind. destruct (as_int64 v) as [e | n]; [discriminate |].
    destruct (cast_int64 y) as [e | ns]; [discriminate |].
    intros [= <-]. simpl. now rewrite (IH ns).
Qed.

Lemma transform_inr le y codes :
  transform le y = inr codes ->
  length codes = length y /\ Forall (fun c => exists n, c = VInt n) codes.
Proof.
  unfold transform. destruct (classes_ le) as [classes |]; [| discriminate].
  destruct (mapM as_str classes); [apply lookup_labels_inr |].
  destruct (mapM as_int classes).
  - unfold rbind. destruct (cast_int64 y) as [e | ints] eqn:Hc; [discriminate |].
    intros H. apply lookup_labels_inr in H as [Hl Hi].
    rewrite length_map in Hl. apply cast_int64_length in Hc.
    split; [congruence | exact Hi].
  - destruct y; [intros [= <-]; split; [reflexivity | constructor] |].
    apply transform_other_codes.
Qed.

Lemma eqb_str_int s n : Py.eqb (VStr s) (VInt n) = false.
Proof. reflexivity. Qed.

End FrameFacts.

(** ** The model wrapper *)

Section ModelFacts.
Import Py Pandas Model.
Context {SK : Sklearn}.

Lemma mbind_inr {A B} (m : MM A) (k : A -> MM B) self r self' :
  mbind m k self = (inr r, self') ->
  exists x s1, m self = (inr x, s1) /\ k x s1 = (inr r, self').
Proof.
  unfold mbind. destruct (m self) as [[e | x] s1]; [discriminate | eauto].
Qed.

Lemma mbind_inl {A B} (m : MM A) (k : A -> MM B) self e self' :
  m self = (inl e, self') -> mbind m k self = (inl e, self').
Proof. unfold mbind. now intros ->. Qed.

Lemma mbind_ok {A B} (m : MM A) (k : A -> MM B) self x self' :
  m self = (inr x, self') -> mbind m k self = k x self'.
Proof. unfold mbind. now intros ->. Qed.

Lemma with_label_encoders_id self :
  with_label_encoders (label_encoders self) self = self.
Proof. now destruct self. Qed.

(** An iteration for a column that has an encoder changes nothing in
    [self]. *)
Lemma encode_column_existing col df self le :
  label_encoders self !! col = Some le ->
  encode_column col df self =
  match dict_get col (columns df) with
  | None => (ok df, self)
  | Some y =>
      match transform le y with
      | inl e => (inl e, self)
      | inr codes => (ok (set_column col codes df), self)
      end
  end.
Proof.
  intros Hle. unfold encode_column, mbind, mget, mret, mlift. simpl.
  destruct (dict_get col (columns df)) as [y |]; [| reflexivity].
  rewrite Hle. now destruct (transform le y).
Qed.

(** An iteration touches one encoder and one column, and nothing else. *)
Lemma encode_column_frame c df self r self' :
  encode_column c df self = (r, self') ->
  self' = with_label_encoders (label_encoders self') self /\
  (forall col, c <> col -> label_encoders self' !! col = label_encoders self !! col) /\
  (forall df1, r = inr df1 ->
     index_len df1 = index_len df /\
     forall col, c <> col -> dict_get col (columns df1) = dict_get col (columns df)).
Proof.
  unfold encode_column, mbind, mget, mret, mlift, mmodify. simpl.
  destruct (dict_get c (columns df)) as [y |].
  - destruct (label_encoders self !! c) as [le |] eqn:Hle.
    + destruct (transform le y) as [e | codes]; intros [= <- <-];
        (split; [now rewrite with_label_encoders_id |]);
        (split; [reflexivity |]); intros df1 [= <-].
      split; [reflexivity |]. intros col Hne. simpl. now apply dict_get_set_ne.
    + simpl. destruct (np_unique y) as [e | [classes codes]]; simpl;
        intros [= <- <-]; simpl;
        (split; [reflexivity |]);
        (split; [intros col Hne; now rewrite lookup_insert_ne |]);
        intros df1 [= <-].
      split; [reflexivity |]. intros col Hne. simpl. now apply dict_get_set_ne.
  - intros [= <- <-]. split; [now rewrite with_label_encoders_id |].
    split; [reflexivity |]. intros df1 [= <-]. auto.
Qed.

Lemma encode_columns_existing cols : forall df self r self',
  (forall c, In c cols -> is_Some (label_encoders self !! c)) ->
  encode_columns cols df self = (r, self') -> self' = self.
Proof.
  induction cols as [| c cols IH]; intros df self r self' Hall; simpl.
  - unfold mret. now intros [= _ <-].
  - destruct (Hall c ltac:(now left)) as [le Hle].
    unfold mbind. rewrite (encode_column_existing _ _ _ _ Hle).
    destruct (dict_get c (columns df)) as [y |].
    + destruct (transform le y) as [e | codes].
      * now intros [= _ <-].
      * apply IH. intros c' Hc'. apply Hall. now right.
    + apply IH. intros c' Hc'. apply Hall. now right.
Qed.

Lemma encode_columns_index_len cols : forall df self d1 self',
  encode_columns cols df self = (inr d1, self') -> index_len d1 = index_len df.
Proof.
  induction cols as [| c cols IH]; intros df self d1 self'; simpl.
  - unfold mret. now intros [= <- _].
  - intros H. apply mbind_inr in H as (df1 & s1 & Hc & H).
    apply IH in H. apply encode_column_frame in Hc as (_ & _ & Hc).
    destruct (Hc df1 eq_refl) as [Hlen _]. congruence.
Qed.

Lemma encode_columns_other cols col : forall df self d1 self',
  ~ In col cols ->
  encode_columns cols df self = (inr d1, self') ->
  dict_get col (columns d1) = dict_get col (columns df).
Proof.
  induction cols as [| c cols IH]; intros df self d1 self' Hnin; simpl.
  - unfold mret. now intros [= <- _].
  - intros H. apply mbind_inr in H as (df1 & s1 & Hc & H).
    apply IH in H; [| intros Hin; apply Hnin; now right].
    apply encode_column_frame in Hc as (_ & _ & Hc).
    destruct (Hc df1 eq_refl) as [_ Hcol].
    rewrite H. apply Hcol. intros ->. apply Hnin. now left.
Qed.


(** A column that went through a fitted encoder holds integer codes. *)
Lemma encode_columns_codes cols col : forall df self d1 self' y,
  NoDup cols -> In col cols ->
  (forall c, In c cols -> is_Some (label_encoders self !! c)) ->
  dict_get col (columns df) = Some y ->
  encode_columns cols df self = (inr d1, self') ->
  exists codes, dict_get col (columns d1) = Some codes /\
                length codes = length y /\
                Forall (fun c => exists n, c = VInt n) codes.
Proof.
  induction cols as [| c cols IH]; intros df self d1 self' y Hnd Hin Hall Hy H;
    [destruct Hin |].
  apply NoDup_cons in Hnd as [Hnin Hnd]. rewrite list_elem_of_In in Hnin.
  simpl in H. apply mbind_inr in H as (df1 & s1 & Hc & H).
  destruct (Hall c ltac:(now left)) as [le Hle].
  rewrite (encode_column_existing _ _ _ _ Hle) in Hc.
  destruct (string_dec c col) as [-> | Hne].
  - rewrite Hy in Hc. destruct (transform le y) as [e | codes] eqn:Ht; [discriminate |].
    injection Hc as <- <-.
    apply encode_columns_other with (col := col) in H; [| exact Hnin].
    exists codes. rewrite H. simpl. rewrite dict_get_set_eq.
    split; [reflexivity |]. now apply transform_inr in Ht.
  - destruct Hin as [-> | Hin]; [congruence |].
    assert (Hs1 : s1 = self /\ dict_get col (columns df1) = Some y).
    { destruct (dict_get c (columns df)) as [yc |].
      - destruct (transform le yc) as [e | codes]; [discriminate |].
        injection Hc as <- <-. split; [reflexivity |].
        simpl. now rewrite dict_get_set_ne.
      - injection Hc as <- <-. auto. }
    destruct Hs1 as [-> Hy1].
    apply (IH df1 self d1 self' y Hnd Hin); auto.
    intros c' Hc'. apply Hall. now right.
Qed.

Lemma categorical_columns_NoDup : NoDup categorical_columns.
Proof.
  unfold categorical_columns.
  repeat (apply NoDup_cons; split;
          [rewrite list_elem_of_In; simpl; intuition discriminate |]).
  apply NoDup_nil. trivial.
Qed.

End ModelFacts.

Section ModelClaims.
Import Py Pandas Model.
Context {SK : Sklearn}.

Lemma fitted_on_strings_existing self :
  fitted_on_strings self ->
  forall c, In c categorical_columns -> is_Some (label_encoders self !! c).
Proof. intros Hf c Hc. destruct (Hf c Hc) as (classes & -> & _). eauto. Qed.

Lemma transform_empty classes :
  transform {| classes_ := Some classes |} [] = inr [].
Proof.
  unfold transform. simpl.
  destruct (mapM as_str classes); [reflexivity |].
  destruct (mapM as_int classes); reflexivity.
Qed.

Lemma set_column_same col y df :
  dict_get col (columns df) = Some y -> set_column col y df = df.
Proof.
  intros H. unfold set_column. rewrite (dict_set_same _ _ _ H). now destruct df.
Qed.

Lemma encode_columns_nothing_to_encode cols : forall df self,
  (forall c, In c cols ->
     exists classes, label_encoders self !! c = Some {| classes_ := Some classes |}) ->
  (forall c, In c cols ->
     dict_get c (columns df) = None \/ dict_get c (columns df) = Some []) ->
  encode_columns cols df self = (inr df, self).
Proof.
  induction cols as [| c cols IH]; intros df self Hall Hdf; [reflexivity |].
  simpl. destruct (Hall c ltac:(now left)) as [classes Hle].
  unfold mbind. rewrite (encode_column_existing _ _ _ _ Hle).
  destruct (Hdf c ltac:(now left)) as [-> | Hc].
  - apply IH; intros c' Hc'; [apply Hall | apply Hdf]; now right.
  - rewrite Hc, transform_empty, (set_column_same _ _ _ Hc).
    apply IH; intros c' Hc'; [apply Hall | apply Hdf]; now right.
Qed.

Lemma fitted_on_strings_encoder self col :
  fitted_on_strings self -> In col categorical_columns ->
  exists classes, label_encoders self !! col = Some {| classes_ := Some classes |} /\
                  string_labels classes.
Proof. intros Hf Hcol. exact (Hf col Hcol). Qed.

(** With fitted encoders a column that is absent stays absent. *)
Lemma encode_columns_absent cols col : forall df self d1 self',
  (forall c, In c cols -> is_Some (label_encoders self !! c)) ->
  dict_get col (columns df) = None ->
  encode_columns cols df self = (inr d1, self') ->
  dict_get col (columns d1) = None.
Proof.
  induction cols as [| c cols IH]; intros df self d1 self' Hall Hnone H; simpl in H.
  - unfold mret in H. now injection H as <- _.
  - apply mbind_inr in H as (df1 & s1 & Hc & H).
    destruct (Hall c ltac:(now left)) as [le Hle].
    rewrite (encode_column_existing _ _ _ _ Hle) in Hc.
    assert (Hs1 : s1 = self /\ dict_get col (columns df1) = None).
    { destruct (dict_get c (columns df)) as [yc |] eqn:Hyc.
      - destruct (transform le yc) as [e | codes]; [discriminate |].
        injection Hc as <- <-. split; [reflexivity |].
        simpl. rewrite dict_get_set_ne; [exact Hnone | congruence].
      - injection Hc as <- <-. auto. }
    destruct Hs1 as [-> Hnone1].
    apply (IH df1 self d1 self'); auto.
    intros c' Hc'. apply Hall. now right.
Qed.

(** The first call: labels that were all seen at fit time are replaced by
    their codes. *)
Lemma encode_columns_seen cols : forall df self,
  NoDup cols ->
  (forall c, In c cols ->
     exists classes, label_encoders self !! c = Some {| classes_ := Some classes |} /\
       string_labels classes /\
       forall y, dict_get c (columns df) = Some y -> Forall (fun v => In v classes) y) ->
  exists d1,
    encode_columns cols df self = (inr d1, self) /\
    forall c y classes, In c cols -> dict_get c (columns df) = Some y ->
      label_encoders self !! c = Some {| classes_ := Some classes |} ->
      dict_get c (columns d1) = Some (codes_of classes y).
Proof.
  induction cols as [| c cols IH]; intros df self Hnd Hall.
  - exists df. split; [reflexivity |]. intros c y classes [].
  - apply NoDup_cons in Hnd as [Hnin Hnd]. rewrite list_elem_of_In in Hnin.
    destruct (Hall c ltac:(now left)) as (classes & Hle & Hstr & Hseen).
    simpl. unfold mbind. rewrite (encode_column_existing _ _ _ _ Hle).
    destruct (dict_get c (columns df)) as [y |] eqn:Hy.
    + rewrite (transform_strings _ _ Hstr), (lookup_labels_seen _ _ Hstr (Hseen y eq_refl)).
      set (df1 := set_column c (codes_of classes y) df).
      destruct (IH df1 self Hnd) as (d1 & Hrun & Hcodes).
      { intros c' Hc'. destruct (Hall c' ltac:(now right)) as (cl & Hle' & Hstr' & Hseen').
        exists cl. split; [exact Hle' |]. split; [exact Hstr' |].
        intros y'. unfold df1. simpl.
        rewrite dict_get_set_ne by (intros ->; contradiction). apply Hseen'. }
      exists d1. split; [exact Hrun |].
      intros c' y' cl [<- | Hc'] Hy' Hle'.
      * rewrite (encode_columns_other cols c df1 self d1 self Hnin Hrun).
        unfold df1. simpl. rewrite dict_get_set_eq. congruence.
      * apply Hcodes; [exact Hc' | | exact Hle'].
        unfold df1. simpl. rewrite dict_get_set_ne by (intros ->; contradiction).
        exact Hy'.
    + destruct (IH df self Hnd) as (d1 & Hrun & Hcodes).
      { intros c' Hc'. apply Hall. now right. }
      exists d1. split; [exact Hrun |].
      intros c' y' cl [<- | Hc'] Hy' Hle'; [congruence |].
      now apply Hcodes.
Qed.

(** The second call: a column of integer codes meets encoders fitted on
    strings. *)
Lemma encode_columns_recoded cols : forall df self,
  (forall c, In c cols ->
     exists classes, label_encoders self !! c = Some {| classes_ := Some classes |} /\
                     string_labels classes) ->
  (forall c y, In c cols -> dict_get c (columns df) = Some y ->
     Forall (fun v => exists n, v = VInt n) y) ->
  (exists c v y, In c cols /\ dict_get c (columns df) = Some (v :: y)) ->
  encode_columns cols df self =
  (inl (ValueError "y contains previously unseen labels"), self).
Proof.
  induction cols as [| c cols IH]; intros df self Hall Hint (c0 & v & y & Hc0 & Hy0);
    [destruct Hc0 |].
  destruct (Hall c ltac:(now left)) as (classes & Hle & Hstr).
  simpl. unfold mbind. rewrite (encode_column_existing _ _ _ _ Hle).
  assert (Hrest : c <> c0 ->
            encode_columns cols df self =
            (inl (ValueError "y contains previously unseen labels"), self)).
  { intros Hne. apply IH.
    - intros c' Hc'. apply Hall. now right.
    - intros c' y' Hc'. apply Hint. now right.
    - exists c0, v, y. destruct Hc0 as [-> | Hc0]; [congruence | auto]. }
  destruct (dict_get c (columns df)) as [[| w yc] |] eqn:Hyc.
  - rewrite transform_empty, (set_column_same _ _ _ Hyc).
    apply Hrest. intros ->. congruence.
  - pose proof (Hint c (w :: yc) ltac:(now left) Hyc) as Hcodes.
    apply Forall_cons in Hcodes as [[n ->] Hcodes].
    now rewrite (transform_strings _ _ Hstr), (lookup_labels_codes _ _ _ Hstr Hcodes).
  - apply Hrest. intros ->. congruence.
Qed.

(** C5, as the code has it.  With fitted encoders whose classes are strings,
    [preprocess_data] never changes the model, so no encoder is re-fitted.
    A first call on data whose categories were all seen at fit time returns
    the data with each category replaced by its code, the position of the
    label among the encoder's classes.  A second application to the encoded
    output of a successful first one raises the unseen-label error as soon
    as the data has a categorical column with a row: the integer codes are
    not among the encoder's classes.  Only data whose categorical columns
    are absent or empty goes through unchanged, any number of times. *)
Theorem preprocess_twice (self : StudentPerformanceModel) (data : DataFrame) :
  fitted_on_strings self ->
  (forall r self', preprocess_data data self = (r, self') -> self' = self) /\
  ((forall col y classes, In col categorical_columns ->
      dict_get col (columns data) = Some y ->
      label_encoders self !! col = Some {| classes_ := Some classes |} ->
      Forall (fun v => In v classes) y) ->
   exists d1,
     preprocess_data data self = (inr d1, self) /\
     index_len d1 = index_len data /\
     (forall col, ~ In col categorical_columns ->
        dict_get col (columns d1) = dict_get col (columns data)) /\
     (forall col, In col categorical_columns -> dict_get col (columns data) = None ->
        dict_get col (columns d1) = None) /\
     (forall col y classes, In col categorical_columns ->
        dict_get col (columns data) = Some y ->
        label_encoders self !! col = Some {| classes_ := Some classes |} ->
        dict_get col (columns d1) = Some (codes_of classes y))) /\
  (forall d1, fst (preprocess_data data self) = inr d1 ->
     (exists col v y, In col categorical_columns /\
                      dict_get col (columns data) = Some (v :: y)) ->
     preprocess_data d1 self =
     (inl (ValueError "y contains previously unseen labels"), self)) /\
  ((forall col, In col categorical_columns ->
      dict_get col (columns data) = None \/ dict_get col (columns data) = Some []) ->
   preprocess_data data self = (inr data, self)).
Proof.
  intros Hf.
  pose proof (fitted_on_strings_existing self Hf) as Hex.
  assert (Hsame : forall df r self',
            preprocess_data df self = (r, self') -> self' = self).
  { intros df r self'. now apply encode_columns_existing. }
  split; [apply Hsame |]. split; [| split].
  - intros Hseen.
    destruct (encode_columns_seen categorical_columns data self
                categorical_columns_NoDup) as (d1 & Hrun & Hcodes).
    { intros c Hc. destruct (Hf c Hc) as (classes & Hle & Hstr).
      exists classes. split; [exact Hle |]. split; [exact Hstr |].
      intros y Hy. exact (Hseen c y classes Hc Hy Hle). }
    exists d1. split; [exact Hrun |].
    split; [exact (encode_columns_index_len _ _ _ _ _ Hrun) |].
    split; [intros col Hcol; exact (encode_columns_other _ _ _ _ _ _ Hcol Hrun) |].
    split; [intros col _ Hnone; exact (encode_columns_absent _ _ _ _ _ _ Hex Hnone Hrun) |].
    exact Hcodes.
  - intros d1 H1 (col & v & y & Hcol & Hy).
    destruct (preprocess_data data self) as [r self1] eqn:Hrun.
    simpl in H1. subst r. pose proof (Hsame _ _ _ Hrun) as ->.
    apply encode_columns_recoded.
    + intros c Hc. exact (Hf c Hc).
    + intros c y1 Hc Hy1.
      destruct (dict_get c (columns data)) as [y0 |] eqn:Hy0.
      * destruct (encode_columns_codes categorical_columns c data self d1 self y0
                    categorical_columns_NoDup Hc Hex Hy0 Hrun)
          as (codes & Hcodes & _ & Hint).
        rewrite Hy1 in Hcodes. now injection Hcodes as ->.
      * rewrite (encode_columns_absent _ _ _ _ _ _ Hex Hy0 Hrun) in Hy1. discriminate.
    + destruct (encode_columns_codes categorical_columns col data self d1 self (v :: y)
                  categorical_columns_NoDup Hcol Hex Hy Hrun)
        as (codes & Hcodes & Hlen & _).
      destruct codes as [| code codes]; [discriminate |].
      exists col, code, codes. auto.
  - intros Hnone. apply encode_columns_nothing_to_encode; [| exact Hnone].
    intros c Hc. destruct (Hf c Hc) as (classes & Hle & _). eauto.
Qed.



Lemma encode_columns_model cols : forall df self r self',
  encode_columns cols df self = (r, self') -> model self' = model self.
Proof.
  induction cols as [| c cols IH]; intros df self r self'; simpl.
  - unfold mret. now intros [= _ <-].
  - unfold mbind. destruct (encode_column c df self) as [[e | df1] s1] eqn:Hc;
      apply encode_column_frame in Hc as (Hs1 & _).
    + intros [= _ <-]. now rewrite Hs1.
    + intros H. apply IH in H. rewrite H, Hs1. reflexivity.
Qed.

Lemma prepare_features_model data self r self' :
  prepare_features data self = (r, self') -> model self' = model self.
Proof.
  unfold prepare_features, mbind, mget, mmodify, mret, mlift. simpl.
  destruct (feature_columns self); simpl;
    destruct (select _ data); simpl; now intros [= _ <-].
Qed.

Lemma predict_untrained data self :
  model self = None ->
  predict data self =
  (inl (ValueError "Model not trained yet. Call train() first."), self).
Proof. intros H. unfold predict, mbind, mget, mlift. simpl. now rewrite H. Qed.

Lemma never_trained_model self : never_trained self -> model self = None.
Proof.
  induction 1 as [| self data _ IH | self data _ IH | self data _ IH].
  - reflexivity.
  - destruct (preprocess_data data self) as [r self'] eqn:H.
    apply encode_columns_model in H. simpl. congruence.
  - destruct (prepare_features data self) as [r self'] eqn:H.
    apply prepare_features_model in H. simpl. congruence.
  - now rewrite (predict_untrained data self IH).
Qed.

(** C7.  On a model that was never trained and never loaded, [predict]
    raises the untrained-model error for every input, returning nothing and
    leaving the model as it was. *)
Theorem predict_never_trained (self : StudentPerformanceModel) (data : DataFrame) :
  never_trained self ->
  predict data self =
  (inl (ValueError "Model not trained yet. Call train() first."), self).
Proof.
  intros H. apply predict_untrained. now apply never_trained_model.
Qed.

End ModelClaims.

(** ** The prediction service *)

Section AppFacts.
Import Py Pandas Model App.
Context {SK : Sklearn}.
Variable frame_of_other : list value -> result DataFrame.

Lemma select_index_len cols df X : select cols df = inr X -> index_len X = index_len df.
Proof.
  unfold select, rbind. destruct (select_columns cols df); [discriminate |].
  now intros [= <-].
Qed.

Lemma prepare_features_index_len data self X y self' :
  prepare_features data self = (inr (X, y), self') -> index_len X = index_len data.
Proof.
  unfold prepare_features, mbind, mget, mmodify, mret, mlift. simpl.
  destruct (feature_columns self); simpl;
    destruct (select _ data) as [e | X0] eqn:Hs; simpl; try discriminate;
    intros [= <- _ _]; now apply select_index_len in Hs.
Qed.

Lemma scaler_transform_index_len X self X' self' :
  scaler_transform X self = (inr X', self') -> index_len X' = index_len X.
Proof.
  unfold scaler_transform, mbind, mget, mlift. simpl.
  destruct (scaler self) as [s |]; [| discriminate].
  destruct (scaler_apply s X) as [e | X0] eqn:Hs; [discriminate |].
  intros [= <- _]. now apply scaler_apply_rows in Hs.
Qed.

Lemma model_predict_length X self ps self' :
  model_predict X self = (inr ps, self') -> length ps = index_len X.
Proof.
  unfold model_predict, mbind, mget, mlift. simpl.
  destruct (model self) as [[c [p |]] |]; simpl; try discriminate.
  destruct (estimator_predict c p X) as [e | ys] eqn:Hp; [discriminate |].
  intros [= <- _]. now apply estimator_predict_length in Hp.
Qed.

(** [predict] returns one prediction per row of its frame. *)
Lemma predict_length data self ps self' :
  predict data self = (inr ps, self') -> length ps = index_len data.
Proof.
  unfold predict. intros H.
  apply mbind_inr in H as (self0 & s0 & Hget & H).
  unfold mget in Hget. injection Hget as <- <-.
  destruct (model self) as [e |]; [| discriminate].
  apply mbind_inr in H as (processed & s1 & Hpre & H).
  apply encode_columns_index_len in Hpre.
  apply mbind_inr in H as ([X y] & s2 & Hprep & H).
  apply prepare_features_index_len in Hprep.
  apply mbind_inr in H as (X' & s3 & HX & H).
  apply mbind_inr in H as (predictions & s4 & Hp & H).
  unfold mret in H. injection H as <- _.
  apply model_predict_length in Hp. rewrite Hp.
  destruct (config e).
  - apply scaler_transform_index_len in HX. congruence.
  - unfold mret in HX. injection HX as <- _. congruence.
Qed.

Lemma pd_DataFrame_records records :
  pd_DataFrame frame_of_other (map VDict records) = inr (from_records records).
Proof. unfold pd_DataFrame. now rewrite mapM_as_dict. Qed.

Lemma predict_single_raising now record self e self' :
  record <> [] ->
  predict (from_records [record]) self = (inl e, self') ->
  predict_single frame_of_other now (inr (VDict record)) (Some self) =
  (error_response 500 (str_exn e), Some self').
Proof.
  intros Hne Hp. unfold predict_single, with_global, try_except, mbind, mlift.
  destruct record as [| kv record]; [congruence |].
  cbn [truthy negb].
  change [VDict (kv :: record)] with (map VDict [kv :: record]).
  rewrite pd_DataFrame_records, Hp. reflexivity.
Qed.

Lemma predict_batch_raising now records self e self' :
  records <> [] ->
  predict (from_records records) self = (inl e, self') ->
  predict_batch frame_of_other now (inr (VList (map VDict records))) (Some self) =
  (error_response 500 (str_exn e), Some self').
Proof.
  intros Hne Hp. unfold predict_batch, with_global, try_except, mbind, mlift.
  destruct records as [| r records]; [congruence |].
  cbn [map truthy is_list negb orb].
  change (VDict r :: map VDict records) with (map VDict (r :: records)).
  rewrite pd_DataFrame_records, Hp. reflexivity.
Qed.

Lemma predict_batch_returning now records self ps self' :
  records <> [] ->
  predict (from_records records) self = (inr ps, self') ->
  predict_batch frame_of_other now (inr (VList (map VDict records))) (Some self) =
  ({| status := 200;
      body := [("predictions", VList (imap batch_entry (zip ps (map VDict records))));
               ("count", VInt (Z.of_nat
                  (length (imap batch_entry (zip ps (map VDict records))))));
               ("timestamp", VStr now)] |}, Some self').
Proof.
  intros Hne Hp. unfold predict_batch, with_global, try_except, mbind, mlift.
  destruct records as [| r records]; [congruence |].
  cbn [map truthy is_list negb orb].
  change (VDict r :: map VDict records) with (map VDict (r :: records)).
  rewrite pd_DataFrame_records, Hp. reflexivity.
Qed.


Lemma batch_results_lookup (ps : list Q) (records : list (list (string * value))) i record :
  length ps = length records -> records !! i = Some record ->
  exists p, ps !! i = Some p /\
    imap batch_entry (zip ps (map VDict records)) !! i =
    Some (VDict [("student_index", VInt (Z.of_nat i));
                 ("prediction", VFloat p);
                 ("input_data", VDict record)]).
Proof.
  intros Hlen Hrec.
  destruct (lookup_lt_is_Some_2 ps i) as [p Hp].
  { rewrite Hlen. eapply lookup_lt_Some. exact Hrec. }
  exists p. split; [exact Hp |].
  rewrite list_lookup_imap, lookup_zip_with, Hp. simpl.
  rewrite list_lookup_fmap, Hrec. reflexivity.
Qed.

(** C8, as the code has it.  With a loaded model, [POST /predict/batch]
    answers 400 exactly when the body is falsy (missing, [null], an empty
    list, ...) or not a list; for a non-empty list of records on which the
    pipeline succeeds it answers 200 with one entry per record, in order,
    each carrying its index, its prediction and its input, and [count] is
    the number of records; when the pipeline raises it answers 500. *)
Theorem predict_batch_contract (self : StudentPerformanceModel) (now : string) :
  (forall data,
     status (fst (predict_batch frame_of_other now (inr data) (Some self))) = 400%Z <->
     truthy data = false \/ is_list data = false) /\
  (forall records ps self',
     records <> [] ->
     predict (from_records records) self = (inr ps, self') ->
     length ps = length records /\
     predict_batch frame_of_other now (inr (VList (map VDict records))) (Some self) =
     ({| status := 200;
         body := [("predictions", VList (imap batch_entry (zip ps (map VDict records))));
                  ("count", VInt (Z.of_nat (length records)));
                  ("timestamp", VStr now)] |}, Some self') /\
     forall i record, records !! i = Some record ->
       exists p, ps !! i = Some p /\
         imap batch_entry (zip ps (map VDict records)) !! i =
         Some (VDict [("student_index", VInt (Z.of_nat i));
                      ("prediction", VFloat p);
                      ("input_data", VDict record)])) /\
  (forall records e self',
     records <> [] ->
     predict (from_records records) self = (inl e, self') ->
     predict_batch frame_of_other now (inr (VList (map VDict records))) (Some self) =
     (error_response 500 (str_exn e), Some self')).
Proof.
  split; [| split].
  - intros data. unfold predict_batch, with_global, try_except, mbind, mlift.
    destruct (truthy data) eqn:Ht; destruct (is_list data) eqn:Hl; cbn [negb orb];
      try (simpl; split; [auto | reflexivity]).
    destruct (pd_DataFrame frame_of_other _) as [e | df]; simpl;
      [split; [discriminate | intros [? | ?]; discriminate] |].
    destruct (predict df self) as [[e | ps] s1]; simpl;
      (split; [discriminate | intros [? | ?]; discriminate]).
  - intros records ps self' Hne Hp.
    pose proof (predict_length _ _ _ _ Hp) as Hlen. simpl in Hlen.
    split; [exact Hlen |]. split.
    + rewrite (predict_batch_returning now records self ps self' Hne Hp).
      rewrite length_imap, length_zip, length_map, Hlen, Nat.min_id. reflexivity.
    + intros i record. now apply batch_results_lookup.
  - intros records e self'. apply predict_batch_raising.
Qed.

End AppFacts.

(** ** Training *)

Section TrainFacts.
Import Py Pandas Model.
Context {SK : Sklearn}.

Lemma mbind_same_outcome {A} (m : MM A) (k1 k2 : A -> MM unit) self :
  (forall x s, m self = (inr x, s) -> same_outcome (k1 x s) (k2 x s)) ->
  same_outcome (mbind m k1 self) (mbind m k2 self).
Proof.
  intros H. unfold mbind. destruct (m self) as [[e | x] s].
  - split; reflexivity.
  - now apply H.
Qed.

Lemma mlift_inr {A} (r : result A) self x s :
  mlift r self = (inr x, s) -> s = self.
Proof. unfold mlift. now intros [= _ <-]. Qed.

Lemma mmodify_inr f self (u : unit) s :
  mmodify f self = (inr u, s) -> s = f self.
Proof. unfold mmodify. now intros [= _ <-]. Qed.

Lemma fit_then_predict X y Xt self ps s :
  mbind (model_fit X y) (fun _ => model_predict Xt) self = (inr ps, s) ->
  exists e p, model self = Some e /\
              model s = Some {| config := config e; params := Some p |}.
Proof.
  intros H. apply mbind_inr in H as ([] & s1 & Hfit & Hpred).
  unfold model_fit, mbind, mget, mlift, mmodify in Hfit. simpl in Hfit.
  destruct (model self) as [e |] eqn:He; [| discriminate].
  destruct (estimator_fit (config e) X y) as [err | p]; [discriminate |].
  injection Hfit as <-.
  unfold model_predict, mbind, mget, mlift in Hpred. simpl in Hpred.
  destruct (estimator_predict (config e) p Xt); [discriminate |].
  injection Hpred as _ <-. eauto.
Qed.

Lemma train_like_random_forest now data model_type self :
  model_type <> "linear" ->
  same_outcome (train now data model_type self)
               (train now data "random_forest" self).
Proof.
  intros Hmt. apply String.eqb_neq in Hmt. unfold train.
  rewrite Hmt.
  change (String.eqb "random_forest" "linear") with false.
  change (String.eqb "random_forest" "random_forest") with true.
  cbv iota.
  apply mbind_same_outcome; intros processed s1 _.
  apply mbind_same_outcome; intros [X y] s2 _.
  apply mbind_same_outcome; intros [[[X_train X_test] y_train] y_test] s3 _.
  apply mbind_same_outcome; intros X_train_scaled s4 _.
  apply mbind_same_outcome; intros X_test_scaled s5 _.
  apply mbind_same_outcome; intros [] s6 _.
  apply mbind_same_outcome; intros y_pred s7 Hfit.
  apply mbind_same_outcome; intros mse s8 H8.
  apply mbind_same_outcome; intros mae s9 H9.
  apply mbind_same_outcome; intros r2 s10 H10.
  apply mlift_inr in H8, H9, H10. subst s8 s9 s10.
  apply fit_then_predict in Hfit as (e & p & _ & Hfitted).
  destruct (String.eqb model_type "random_forest") eqn:E.
  - apply String.eqb_eq in E. subst model_type. split; reflexivity.
  - unfold same_outcome, mbind, mmodify, mget, mret, ok. simpl.
    rewrite Hfitted. simpl. split; [reflexivity | now rewrite ?Hfitted].
Qed.

Lemma train_fits_forest now data model_type self self' :
  model_type <> "linear" ->
  train now data model_type self = (inr tt, self') ->
  exists p, model self' =
            Some {| config := RandomForestRegressor 100 42 10 5; params := Some p |}.
Proof.
  intros Hmt H. apply String.eqb_neq in Hmt. unfold train in H.
  rewrite Hmt in H. cbv iota in H.
  apply mbind_inr in H as (processed & s1 & _ & H).
  apply mbind_inr in H as ([X y] & s2 & _ & H).
  apply mbind_inr in H as ([[[X_train X_test] y_train] y_test] & s3 & _ & H).
  apply mbind_inr in H as (X_train_scaled & s4 & _ & H).
  apply mbind_inr in H as (X_test_scaled & s5 & _ & H).
  apply mbind_inr in H as ([] & s6 & Hset & H).
  apply mbind_inr in H as (y_pred & s7 & Hfit & H).
  apply mbind_inr in H as (mse & s8 & H8 & H).
  apply mbind_inr in H as (mae & s9 & H9 & H).
  apply mbind_inr in H as (r2 & s10 & H10 & H).
  apply mbind_inr in H as ([] & s11 & H11 & H).
  apply mlift_inr in H8, H9, H10. subst s8 s9 s10.
  apply mmodify_inr in Hset, H11. subst s6 s11.
  apply fit_then_predict in Hfit as (e & p & He & Hfitted).
  simpl in He. injection He as <-. simpl in Hfitted.
  exists p. rewrite <- Hfitted.
  destruct (String.eqb model_type "random_forest").
  - unfold mbind, mget, mmodify, mlift in H. simpl in H. rewrite Hfitted in H.
    simpl in H. now injection H as <-.
  - unfold mret in H. now injection H as <-.
Qed.

(** C9.  For every [model_type] other than ['linear'], [train] behaves as
    for ['random_forest']: it returns or raises the same, never on account
    of the name, and when it returns the model holds the fitted forest of
    100 trees (random state 42, depth 10, minimum split 5). *)
Theorem unrecognized_model_type_trains_forest
    (now : string) (data : DataFrame) (model_type : string)
    (self : StudentPerformanceModel) :
  model_type <> "linear" ->
  fst (train now data model_type self) = fst (train now data "random_forest" self) /\
  model (snd (train now data model_type self)) =
  model (snd (train now data "random_forest" self)) /\
  (fst (train now data model_type self) = inr tt ->
   exists p, model (snd (train now data model_type self)) =
             Some {| config := RandomForestRegressor 100 42 10 5;
                     params := Some p |}).
Proof.
  intros Hmt.
  destruct (train_like_random_forest now data model_type self Hmt) as [Hres Hmodel].
  split; [exact Hres |]. split; [exact Hmodel |].
  destruct (train now data model_type self) as [r self'] eqn:Hrun.
  simpl. intros ->. now apply (train_fits_forest now data model_type self).
Qed.

End TrainFacts.

(** ** Persistence *)

Section PersistenceFacts.
Import Py Pandas Model.
Context {SK : Sklearn}.

Lemma join_relative_inj dir a b :
  OsPath.isabs a = false -> OsPath.isabs b = false ->
  OsPath.join dir a = OsPath.join dir b -> a = b.
Proof.
  unfold OsPath.join. intros -> ->.
  destruct (String.eqb dir "" || OsPath.ends_with_slash dir); intros H.
  - now apply String.app_inj in H.
  - apply String.app_inj in H. now apply (String.app_inj "/") in H.
Qed.

Ltac distinct_paths :=
  let H := fresh in
  intros H; apply join_relative_inj in H; [discriminate | reflexivity | reflexivity].






Lemma makedirs_inr dir fs fs1 :
  makedirs dir fs = inr fs1 <->
  files fs !! dir = None /\
  Forall (fun a => files fs !! a = None) (OsPath.ancestors dir) /\
  fs1 = made dir fs.
Proof.
  unfold makedirs.
  destruct (files fs !! dir) eqn:Hdir.
  { split; [discriminate | intros [[=] _]]. }
  destruct (existsb (fun a => is_file a fs) (OsPath.ancestors dir)) eqn:E.
  - split; [discriminate |]. intros (_ & Hall & _). exfalso.
    apply existsb_exists in E as (a & Ha & Hf). rewrite List.Forall_forall in Hall.
    unfold is_file in Hf. now rewrite (Hall a Ha) in Hf.
  - split.
    + intros [= <-]. split; [reflexivity |]. split; [| reflexivity].
      apply List.Forall_forall. intros a Ha.
      destruct (files fs !! a) eqn:Hfa; [| reflexivity]. exfalso.
      assert (existsb (fun a => is_file a fs) (OsPath.ancestors dir) = true);
        [| congruence].
      apply existsb_exists. exists a. split; [exact Ha |].
      unfold is_file. now rewrite Hfa.
    + intros (_ & _ & ->). reflexivity.
Qed.

Lemma dump_inr obj path fs :
  path ∉ dirs fs ->
  dump obj path fs = inr {| dirs := dirs fs; files := <[path := obj]> (files fs) |}.
Proof. intros H. unfold dump. now rewrite bool_decide_eq_false_2. Qed.

Lemma dump_inl obj path fs :
  path ∈ dirs fs -> dump obj path fs = inl (IsADirectoryError path).
Proof. intros H. unfold dump. now rewrite bool_decide_eq_true_2. Qed.

Lemma dump_cases obj path fs :
  ((path ∈ dirs fs) /\ dump obj path fs = inl (IsADirectoryError path)) \/
  ((path ∉ dirs fs) /\
   dump obj path fs = inr {| dirs := dirs fs; files := <[path := obj]> (files fs) |}).
Proof.
  destruct (decide (path ∈ dirs fs)) as [H | H];
    [left; split; [exact H | now apply dump_inl]
    | right; split; [exact H | now apply dump_inr]].
Qed.

(** The four dumps of [save_model] into a disk on which none of the four
    paths is a directory. *)
Lemma save_model_ok module_file model_dir self e fs fs1 :
  let dir := resolve_model_dir module_file model_dir in
  model self = Some e ->
  makedirs dir fs = inr fs1 ->
  (forall name, In name artifact_names -> OsPath.join dir name ∉ dirs fs1) ->
  save_model module_file model_dir self fs = (inr tt, saved dir e self fs).
Proof.
  intros dir He Hmk Hfree. unfold save_model. rewrite He. fold dir.
  unfold on_disk at 1. rewrite Hmk.
  apply makedirs_inr in Hmk as (_ & _ & ->).
  unfold on_disk at 1. rewrite dump_inr by (apply Hfree; simpl; auto).
  unfold on_disk at 1. rewrite dump_inr by (apply Hfree; simpl; auto).
  unfold on_disk at 1. rewrite dump_inr by (apply Hfree; simpl; auto).
  unfold on_disk at 1. rewrite dump_inr by (apply Hfree; simpl; auto 6).
  reflexivity.
Qed.

Lemma save_model_inr module_file model_dir self fs fs' :
  let dir := resolve_model_dir module_file model_dir in
  save_model module_file model_dir self fs = (inr tt, fs') ->
  exists e, model self = Some e /\
            makedirs dir fs = inr (made dir fs) /\
            (forall name, In name artifact_names ->
               OsPath.join dir name ∉ dirs (made dir fs)) /\
            fs' = saved dir e self fs.
Proof.
  intros dir. unfold save_model. fold dir.
  destruct (model self) as [e |]; [| discriminate].
  unfold on_disk at 1.
  destruct (makedirs dir fs) as [err | fs1] eqn:Hmk; [discriminate |].
  pose proof Hmk as Hmk'. apply makedirs_inr in Hmk' as (_ & _ & ->).
  unfold on_disk at 1.
  destruct (dump_cases (AEstimator e)
              (OsPath.join dir "student_performance_model.joblib") (made dir fs))
    as [[_ ->] | [H1 ->]]; [discriminate |].
  unfold on_disk at 1.
  match goal with |- context [dump ?o ?p ?f] =>
    destruct (dump_cases o p f) as [[_ ->] | [H2 ->]]; [discriminate |] end.
  unfold on_disk at 1.
  match goal with |- context [dump ?o ?p ?f] =>
    destruct (dump_cases o p f) as [[_ ->] | [H3 ->]]; [discriminate |] end.
  unfold on_disk at 1.
  match goal with |- context [dump ?o ?p ?f] =>
    destruct (dump_cases o p f) as [[_ ->] | [H4 ->]]; [discriminate |] end.
  intros [= <-]. exists e. split; [reflexivity |]. split; [reflexivity |].
  split; [| reflexivity].
  intros name [<- | [<- | [<- | [<- | []]]]]; assumption.
Qed.

Lemma saved_files dir e self fs :
  let fs' := saved dir e self fs in
  files fs' !! OsPath.join dir "student_performance_model.joblib"
    = Some (AEstimator e) /\
  files fs' !! OsPath.join dir "scaler.joblib" = Some (AScaler (scaler self)) /\
  files fs' !! OsPath.join dir "label_encoders.joblib"
    = Some (AEncoders (label_encoders self)) /\
  files fs' !! OsPath.join dir "model_metadata.joblib"
    = Some (AMetadata (feature_columns self) (target_column self) (model_metrics self)).
Proof.
  unfold saved. simpl.
  split; [rewrite !lookup_insert_ne by distinct_paths; apply lookup_insert_eq |].
  split; [rewrite !lookup_insert_ne by distinct_paths; apply lookup_insert_eq |].
  split; [rewrite !lookup_insert_ne by distinct_paths; apply lookup_insert_eq |].
  apply lookup_insert_eq.
Qed.

Lemma saved_other_files dir e self fs path :
  (forall name, In name artifact_names -> path <> OsPath.join dir name) ->
  files (saved dir e self fs) !! path = files fs !! path.
Proof.
  intros Hpath. unfold saved. simpl.
  rewrite !lookup_insert_ne; [reflexivity | ..];
    intros <-; eapply Hpath; try reflexivity; simpl; auto 6.
Qed.

(** [load_model] on a directory that holds the four artifacts. *)
Lemma load_model_files module_file model_dir fs self e s m fc tc ms :
  let dir := resolve_model_dir module_file model_dir in
  files fs !! OsPath.join dir "student_performance_model.joblib"
    = Some (AEstimator e) ->
  files fs !! OsPath.join dir "scaler.joblib" = Some (AScaler s) ->
  files fs !! OsPath.join dir "label_encoders.joblib" = Some (AEncoders m) ->
  files fs !! OsPath.join dir "model_metadata.joblib" = Some (AMetadata fc tc ms) ->
  load_model module_file model_dir fs self =
  (inr tt, {| model := Some e; scaler := s; label_encoders := m;
              feature_columns := fc; target_column := tc; model_metrics := ms |}).
Proof.
  intros dir H1 H2 H3 H4. unfold load_model, load. fold dir.
  unfold mbind at 1. unfold mlift at 1. rewrite H1. cbv beta iota.
  unfold mbind at 1. unfold mmodify at 1. cbv beta iota.
  unfold mbind at 1. unfold mlift at 1. rewrite H2. cbv beta iota.
  unfold mbind at 1. unfold mmodify at 1. cbv beta iota.
  unfold mbind at 1. unfold mlift at 1. rewrite H3. cbv beta iota.
  unfold mbind at 1. unfold mmodify at 1. cbv beta iota.
  unfold mbind at 1. unfold mlift at 1. rewrite H4. cbv beta iota.
  unfold mbind, mmodify. cbv beta iota. reflexivity.
Qed.

Lemma load_saved module_file dir e self fs other model_dir :
  resolve_model_dir module_file model_dir = dir ->
  model self = Some e ->
  load_model module_file model_dir (saved dir e self fs) other = (inr tt, self).
Proof.
  intros <- He.
  destruct (saved_files (resolve_model_dir module_file model_dir) e self fs)
    as (H1 & H2 & H3 & H4).
  rewrite (load_model_files _ _ _ _ _ _ _ _ _ _ H1 H2 H3 H4).
  destruct self; simpl in *. now subst.
Qed.

(** C10.  Both methods work in the directory [resolve_model_dir] gives: the
    package's [models] directory for every argument that is not absolute,
    the argument itself only when it is absolute.  [save_model] on a model
    with an estimator creates that directory and, where [os.makedirs]
    succeeds and no directory stands in the way of an artifact, stores the
    four artifacts in it and touches no other file; [load_model] reads the
    four files of that directory into the model, and nothing else.  Two
    arguments that are not absolute are therefore interchangeable. *)
Theorem model_dir_argument (module_file model_dir : string) :
  let package_models :=
    OsPath.join (OsPath.dirname (OsPath.dirname module_file)) "models" in
  let dir := resolve_model_dir module_file model_dir in
  (OsPath.isabs model_dir = false -> dir = package_models) /\
  (OsPath.isabs model_dir = true -> dir = model_dir) /\
  (forall self e fs fs1,
     model self = Some e ->
     makedirs dir fs = inr fs1 ->
     (forall name, In name artifact_names -> OsPath.join dir name ∉ dirs fs1) ->
     exists fs', save_model module_file model_dir self fs = (inr tt, fs')) /\
  (forall self fs fs',
     save_model module_file model_dir self fs = (inr tt, fs') ->
     (dir ∈ dirs fs') /\
     files fs' !! OsPath.join dir "student_performance_model.joblib"
       = AEstimator <$> model self /\
     files fs' !! OsPath.join dir "scaler.joblib" = Some (AScaler (scaler self)) /\
     files fs' !! OsPath.join dir "label_encoders.joblib"
       = Some (AEncoders (label_encoders self)) /\
     files fs' !! OsPath.join dir "model_metadata.joblib"
       = Some (AMetadata (feature_columns self) (target_column self)
                 (model_metrics self)) /\
     forall path,
       (forall name, In name artifact_names -> path <> OsPath.join dir name) ->
       files fs' !! path = files fs !! path) /\
  (forall self fs e s m fc tc ms,
     files fs !! OsPath.join dir "student_performance_model.joblib"
       = Some (AEstimator e) ->
     files fs !! OsPath.join dir "scaler.joblib" = Some (AScaler s) ->
     files fs !! OsPath.join dir "label_encoders.joblib" = Some (AEncoders m) ->
     files fs !! OsPath.join dir "model_metadata.joblib" = Some (AMetadata fc tc ms) ->
     load_model module_file model_dir fs self =
     (inr tt, {| model := Some e; scaler := s; label_encoders := m;
                 feature_columns := fc; target_column := tc;
                 model_metrics := ms |})) /\
  (forall self fs1 fs2,
     (forall name, In name artifact_names ->
        files fs1 !! OsPath.join dir name = files fs2 !! OsPath.join dir name) ->
     load_model module_file model_dir fs1 self =
     load_model module_file model_dir fs2 self) /\
  (forall other,
     OsPath.isabs model_dir = false -> OsPath.isabs other = false ->
     (forall self fs,
        save_model module_file model_dir self fs = save_model module_file other self fs) /\
     (forall fs self,
        load_model module_file model_dir fs self = load_model module_file other fs self)).
Proof.
  cbv zeta. split; [| split; [| split; [| split; [| split; [| split]]]]].
  - intros H. unfold resolve_model_dir. now rewrite H.
  - intros H. unfold resolve_model_dir. now rewrite H.
  - intros self e fs fs1 He Hmk Hfree. eexists.
    exact (save_model_ok module_file model_dir self e fs fs1 He Hmk Hfree).
  - intros self fs fs' Hsave.
    apply save_model_inr in Hsave as (e & He & _ & _ & ->).
    set (dir := resolve_model_dir module_file model_dir).
    destruct (saved_files dir e self fs) as (H1 & H2 & H3 & H4).
    split; [unfold saved, made; simpl; set_solver |].
    split; [now rewrite He |]. split; [exact H2 |]. split; [exact H3 |].
    split; [exact H4 |]. intros path. apply saved_other_files.
  - intros self fs e s m fc tc ms. apply load_model_files.
  - intros self fs1 fs2 Hagree. unfold load_model, load.
    set (dir := resolve_model_dir module_file model_dir) in *.
    rewrite !Hagree by (simpl; auto). reflexivity.
  - intros other H1 H2.
    assert (Hdir : resolve_model_dir module_file model_dir =
                   resolve_model_dir module_file other).
    { unfold resolve_model_dir. now rewrite H1, H2. }
    split.
    + intros self fs. unfold save_model. now rewrite Hdir.
    + intros fs self. unfold load_model. now rewrite Hdir.
Qed.

End PersistenceFacts.

(** ** Worked examples for the model and the service *)

Section ServiceExamples.
Import Py Pandas Model App Examples.
Local Existing Instance constant_sklearn.

Lemma loaded_model_fitted : fitted_on_strings loaded_model.
Proof.
  intros col [<- | [<- | [<- | []]]];
    (eexists; split; [vm_compute; reflexivity |]);
    repeat constructor; eauto.
Qed.

Lemma student_categories_seen col y classes :
  In col categorical_columns ->
  dict_get col (columns student_frame) = Some y ->
  label_encoders loaded_model !! col = Some {| classes_ := Some classes |} ->
  Forall (fun v => In v classes) y.
Proof.
  intros [<- | [<- | [<- | []]]] Hy Hle;
    vm_compute in Hy; vm_compute in Hle;
    injection Hy as <-; injection Hle as <-;
    apply List.Forall_forall; intros v [<- | []]; simpl; auto 6.
Defined.

Lemma preprocess_twice_witness :
  exists d1,
    preprocess_data student_frame loaded_model = (inr d1, loaded_model) /\
    dict_get "gender" (columns d1) = Some [VInt 0] /\
    preprocess_data d1 loaded_model =
    (inl (ValueError "y contains previously unseen labels"), loaded_model).
Proof.
  destruct (preprocess_twice loaded_model student_frame loaded_model_fitted)
    as (_ & Hfirst & Hsecond & _).
  destruct (Hfirst student_categories_seen) as (d1 & Hrun & _ & _ & _ & Hcodes).
  exists d1. split; [exact Hrun |]. split.
  - exact (Hcodes "gender" [VStr "Female"]
             [VStr "Female"; VStr "Male"; VStr "Other"]
             ltac:(now left) eq_refl eq_refl).
  - apply Hsecond.
    + now rewrite Hrun.
    + exists "gender", (VStr "Female"), []. split; [now left | reflexivity].
Defined.

(** C5 as stated fails: the first call encodes the student's three
    categories as 0, 0 and 1; the second call, given those codes, raises. *)
Lemma preprocess_twice_counterexample :
  preprocess_data student_frame loaded_model =
  (inr encoded_student_frame, loaded_model) /\
  preprocess_data encoded_student_frame loaded_model =
  (inl (ValueError "y contains previously unseen labels"), loaded_model).
Proof. split; vm_compute; reflexivity. Qed.



Lemma predict_never_trained_witness :
  predict student_frame Model.init =
  (inl (ValueError "Model not trained yet. Call train() first."), Model.init).
Proof. exact (predict_never_trained Model.init student_frame nt_init). Defined.

(** The service on the two students of the documentation page: two
    entries, indexed 0 and 1, in the order of the request. *)
Example predict_batch_two_students :
  fst (predict_batch no_other_frames "2024-05-01T10:00:00"
         (inr (VList [VDict student; VDict student])) (Some loaded_model)) =
  {| status := 200;
     body := [("predictions", VList
                 [VDict [("student_index", VInt 0); ("prediction", VFloat 50);
                         ("input_data", VDict student)];
                  VDict [("student_index", VInt 1); ("prediction", VFloat 50);
                         ("input_data", VDict student)]]);
              ("count", VInt 2);
              ("timestamp", VStr "2024-05-01T10:00:00")] |}.
Proof. vm_compute. reflexivity. Qed.

(** C8 as stated fails: an empty list is a list, and it is not a missing
    body, yet the handler answers 400. *)
Lemma empty_list_body_counterexample :
  let data := VList [] in
  status (fst (predict_batch no_other_frames "2024-05-01T10:00:00"
                 (inr data) (Some loaded_model))) = 400%Z /\
  is_list data = true /\ data <> VNone.
Proof. split; [reflexivity | split; [reflexivity | discriminate]]. Qed.

Lemma unrecognized_model_type_trains_forest_witness :
  fst (train "2024-05-01T10:00:00" training_frame "svm" Model.init) = inr tt /\
  model (snd (train "2024-05-01T10:00:00" training_frame "svm" Model.init)) =
  Some {| config := RandomForestRegressor 100 42 10 5; params := Some tt |}.
Proof.
  assert (Hok : fst (train "2024-05-01T10:00:00" training_frame "svm" Model.init)
                = inr tt) by (vm_compute; reflexivity).
  split; [exact Hok |].
  destruct (proj2 (proj2 (unrecognized_model_type_trains_forest
              "2024-05-01T10:00:00" training_frame "svm" Model.init
              ltac:(discriminate))) Hok) as [[] Hp].
  exact Hp.
Defined.

(** A relative argument is discarded: the artifacts land in the package's
    [models] directory and are read back from there under any other relative
    argument. *)
Lemma model_dir_argument_witness :
  exists fs',
    save_model "/app/src/model.py" "my_models" loaded_model empty_disk = (inr tt, fs') /\
    files fs' !! "/app/models/scaler.joblib" = Some (AScaler (Some tt)) /\
    files fs' !! "my_models/scaler.joblib" = None /\
    load_model "/app/src/model.py" "elsewhere" fs' Model.init = (inr tt, loaded_model).
Proof.
  destruct (model_dir_argument "/app/src/model.py" "my_models")
    as (_ & _ & Hsaves & Hwritten & Hloads & _ & Hany).
  destruct (Hsaves loaded_model _ empty_disk _ eq_refl eq_refl) as [fs' Hsave].
  { intros name [<- | [<- | [<- | [<- | []]]]];
      apply (bool_decide_unpack _); vm_compute; exact I. }
  exists fs'. split; [exact Hsave |].
  destruct (Hwritten loaded_model empty_disk fs' Hsave)
    as (_ & H1 & H2 & H3 & H4 & Hother).
  split; [exact H2 |]. split.
  - rewrite Hother; [reflexivity |].
    intros name [<- | [<- | [<- | [<- | []]]]]; discriminate.
  - destruct (Hany "elsewhere" eq_refl eq_refl) as [_ Hload].
    rewrite <- Hload.
    exact (Hloads Model.init fs' _ _ _ _ _ _ H1 H2 H3 H4).
Defined.

(** [os.path] on the paths of a typical checkout. *)
Example resolve_model_dir_examples :
  resolve_model_dir "/app/src/model.py" "../models" = "/app/models" /\
  resolve_model_dir "/app/src/model.py" "my_models" = "/app/models" /\
  resolve_model_dir "/app/src/model.py" "/tmp/run1" = "/tmp/run1".
Proof. repeat split; reflexivity. Qed.

End ServiceExamples.

(** * Further properties *)

(** ** The data synthesizer: outcomes, shape and value domains *)

Section GeneratorMore.
Import Numpy Generator.
Context {R : NumpyRandom}.
Local Open Scope Q_scope.

Lemma generate_dataset_inr self s d s' :
  generate_dataset self s = inr (d, s') ->
  exists f scores l,
    raw_scores self s = inr (f, scores, s') /\
    normalize scores = inr l /\ d = make_frame f l.
Proof.
  unfold generate_dataset. intros H.
  apply bind_inr in H as ([f scores] & s1 & Hraw & H).
  apply bind_inr in H as (l & s2 & Hnorm & H).
  unfold ret, ok in H. injection H as <- <-.
  unfold lift in Hnorm. cbn [snd] in Hnorm.
  destruct (normalize scores) as [e | l0] eqn:Hn; [discriminate |].
  injection Hnorm as <- <-. eauto 6.
Qed.

Lemma normalize_inr scores l :
  normalize scores = inr l ->
  exists lo hi, amin scores = inr lo /\ amax scores = inr hi /\
    l = map (fun x => round2_f (scale 100 (divide x (hi - lo)))) (vsub_s scores lo).
Proof.
  unfold normalize, rbind.
  destruct (amin scores) as [e | lo]; [discriminate |].
  destruct (amax scores) as [e | hi]; [discriminate |].
  intros [= <-]. eauto.
Qed.

Lemma normalize_nonempty scores :
  scores <> [] -> exists l, normalize scores = inr l.
Proof.
  destruct scores as [| x xs]; [congruence |]. intros _.
  unfold normalize. simpl. eauto.
Qed.

(** X1.  [generate_dataset] returns a dataset exactly for a valid seed and
    a count of at least one; an empty batch fails in the reduction to the
    minimum, a negative count at the first draw, a bad seed at once. *)
Theorem generate_dataset_outcome (self : StudentDataGenerator) (s : rng_state) :
  (valid_seed (random_seed self) /\ (1 <= num_students self)%Z <->
   exists d s', generate_dataset self s = inr (d, s')) /\
  (valid_seed (random_seed self) -> num_students self = 0%Z ->
   generate_dataset self s = inl (ValueError
     "zero-size array to reduction operation minimum which has no identity")) /\
  (valid_seed (random_seed self) -> (num_students self < 0)%Z ->
   generate_dataset self s = inl (ValueError "negative dimensions are not allowed")) /\
  (~ valid_seed (random_seed self) ->
   generate_dataset self s =
   inl (ValueError "Seed must be between 0 and 2**32 - 1")).
Proof.
  assert (Hzero : valid_seed (random_seed self) -> num_students self = 0%Z ->
            generate_dataset self s = inl (ValueError
     "zero-size array to reduction operation minimum which has no identity")).
  { intros Hseed Hn.
    destruct (raw_scores_total self s Hseed ltac:(lia)) as (f & scores & s1 & Hraw).
    pose proof (length_raw_scores _ _ _ _ _ Hraw) as Hlen.
    rewrite Hn in Hlen. destruct scores; [| discriminate].
    unfold generate_dataset, bind. rewrite Hraw. reflexivity. }
  assert (Hneg : valid_seed (random_seed self) -> (num_students self < 0)%Z ->
            generate_dataset self s =
            inl (ValueError "negative dimensions are not allowed")).
  { intros [H1 H2] Hn. unfold generate_dataset, raw_scores, bind at 1 2 3.
    unfold np_random_seed.
    apply Z.leb_le in H1. apply Z.ltb_lt in H2. rewrite H1, H2. cbn [andb].
    unfold ok. unfold sample_features, bind at 1, sized at 1.
    apply Z.ltb_lt in Hn. rewrite Hn. reflexivity. }
  assert (Hseed : ~ valid_seed (random_seed self) ->
            generate_dataset self s =
            inl (ValueError "Seed must be between 0 and 2**32 - 1")).
  { intros Hbad. unfold generate_dataset, raw_scores, bind at 1 2 3.
    unfold np_random_seed.
    destruct ((0 <=? random_seed self) && (random_seed self <? 2 ^ 32))%Z eqn:E;
      [| reflexivity].
    exfalso. apply Hbad. apply andb_true_iff in E as [E1 E2].
    apply Z.leb_le in E1. apply Z.ltb_lt in E2. now split. }
  split; [| auto].
  split.
  - intros [Hs Hn].
    destruct (raw_scores_total self s Hs ltac:(lia)) as (f & scores & s1 & Hraw).
    pose proof (length_raw_scores _ _ _ _ _ Hraw) as Hlen.
    destruct (normalize_nonempty scores) as [l Hl].
    { intros ->. simpl in Hlen. lia. }
    exists (make_frame f l), s1.
    unfold generate_dataset, bind. rewrite Hraw. cbn [fst snd].
    unfold lift. now rewrite Hl.
  - intros (d & s' & H).
    assert (Hv : valid_seed (random_seed self)).
    { destruct (Z_le_dec 0%Z (random_seed self));
        [destruct (Z_lt_dec (random_seed self) (2 ^ 32)%Z); [now split |] |];
        rewrite Hseed in H by (unfold valid_seed; lia); discriminate. }
    split; [exact Hv |].
    destruct (Z_lt_dec (num_students self) 0%Z) as [Hlt | Hge];
      [rewrite (Hneg Hv Hlt) in H; discriminate |].
    destruct (Z.eq_dec (num_students self) 0%Z) as [Hz | Hnz];
      [rewrite (Hzero Hv Hz) in H; discriminate | lia].
Qed.

(** X2.  Every column of a generated dataset has exactly [num_students]
    entries. *)
Theorem generated_columns_length (self : StudentDataGenerator) (s : rng_state) d s' :
  generate_dataset self s = inr (d, s') ->
  let n := Z.to_nat (num_students self) in
  length (student_id d) = n /\ length (age d) = n /\ length (gender d) = n /\
  length (parental_education d) = n /\ length (household_income d) = n /\
  length (previous_gpa d) = n /\ length (study_hours_per_week d) = n /\
  length (attendance_rate d) = n /\ length (sleep_hours d) = n /\
  length (exercise_hours_per_week d) = n /\ length (has_internet d) = n /\
  length (has_computer d) = n /\ length (extracurricular_hours d) = n /\
  length (school_type d) = n /\ length (class_size d) = n /\
  length (final_score d) = n.
Proof.
  intros H. apply generate_dataset_inr in H as (f & scores & l & Hraw & Hnorm & ->).
  pose proof (length_raw_scores _ _ _ _ _ Hraw) as Hlen.
  apply raw_scores_inr in Hraw as (_ & _ & [] & _).
  apply normalize_inr in Hnorm as (lo & hi & _ & _ & ->).
  cbv zeta. simpl. unfold vsub_s. rewrite !length_map.
  repeat split; assumption.
Qed.

Lemma sample_features_domains n s f s' :
  sample_features n s = inr (f, s') ->
  Forall (fun g => In g ["Male"; "Female"; "Other"]) (f_genders f) /\
  Forall (fun e => In e ["High School"; "Bachelor"; "Master"; "PhD";
                         "No Formal Education"]) (f_parental_education f) /\
  Forall (fun t => In t ["Public"; "Private"]) (f_school_type f) /\
  Forall (fun b => b = 0 \/ b = 1)%Z (f_has_internet f) /\
  Forall (fun b => b = 0 \/ b = 1)%Z (f_has_computer f).
Proof.
  intros H. unfold sample_features in H.
  repeat (apply bind_inr in H;
          let x := fresh "x" in
          let s := fresh "s" in
          let Hx := fresh "Hx" in
          destruct H as (x & s & Hx & H); cbv beta zeta in H).
  unfold ret, ok in H. injection H as <- _. simpl.
  repeat match goal with
         | Hs : sized _ _ _ = inr _ |- _ => clear Hs
         | Hs : np_choice _ _ _ _ _ = inr _ |- _ =>
             apply np_choice_In in Hs; [| discriminate | reflexivity]
         end.
  repeat split; try assumption;
    (eapply Forall_impl; [eassumption |]); simpl; intros b Hb; intuition.
Qed.

(** X3.  In a generated dataset the categorical columns hold only the
    documented categories, the two access flags are 0 or 1, and the weekly
    study hours are at least 1. *)
Theorem generated_value_domains (self : StudentDataGenerator) (s : rng_state) d s' :
  generate_dataset self s = inr (d, s') ->
  Forall (fun g => In g ["Male"; "Female"; "Other"]) (gender d) /\
  Forall (fun e => In e ["High School"; "Bachelor"; "Master"; "PhD";
                         "No Formal Education"]) (parental_education d) /\
  Forall (fun t => In t ["Public"; "Private"]) (school_type d) /\
  Forall (fun b => b = 0 \/ b = 1)%Z (has_internet d) /\
  Forall (fun b => b = 0 \/ b = 1)%Z (has_computer d) /\
  Forall (fun x => 1 <= x) (study_hours_per_week d).
Proof.
  intros H. apply generate_dataset_inr in H as (f & scores & l & Hraw & _ & ->).
  apply raw_scores_inr in Hraw as Hok. destruct Hok as (_ & _ & [] & _).
  unfold raw_scores in Hraw.
  apply bind_inr in Hraw as ([] & s0 & _ & Hraw).
  apply bind_inr in Hraw as (f0 & s1 & Hf & Hraw). cbv zeta in Hraw.
  apply bind_inr in Hraw as (noise & s2 & _ & Hraw).
  unfold ret, ok in Hraw. injection Hraw as <- _ _.
  destruct (sample_features_domains _ _ _ _ Hf) as (Hg & He & Ht & Hi & Hc).
  simpl. repeat split; try assumption.
  apply Forall_map. eapply Forall_impl; [exact rng_study_hours0 |].
  intros v [Hv0 Hv1]. cbv beta.
  pose proof (round2_between 100 4000 v ltac:(unfold inject_Z; lra)) as Hr.
  unfold inject_Z in Hr. lra.
Qed.

End GeneratorMore.

(** ** Identifiers and the normalised score *)

Section GeneratorScores.
Import Numpy Generator.
Context {R : NumpyRandom}.
Local Open Scope Q_scope.

Lemma zeros_digits k d :
  (zeros k ++ NilEmpty.string_of_uint d)%string =
  NilEmpty.string_of_uint (Nat.iter k Decimal.D0 d).
Proof.
  induction k as [| k IH]; [reflexivity |].
  change (String "0" (zeros k ++ NilEmpty.string_of_uint d) =
          String "0" (NilEmpty.string_of_uint (Nat.iter k Decimal.D0 d))).
  now rewrite IH.
Qed.

Lemma to_uint_nonnil i : Nat.to_uint i <> Decimal.Nil.
Proof.
  rewrite <- (DecimalNat.Unsigned.of_to i) at 1.
  rewrite DecimalNat.Unsigned.to_of. apply DecimalFacts.unorm_nonnil.
Qed.

Lemma string_of_uint_nonnil d :
  d <> Decimal.Nil -> NilZero.string_of_uint d = NilEmpty.string_of_uint d.
Proof. destruct d; [congruence | reflexivity ..]. Qed.

Lemma id_number_student (i : nat) (width : nat) :
  id_number ("STU" ++ zfill width (str_int i)) = Some i.
Proof.
  unfold zfill, str_int.
  rewrite (string_of_uint_nonnil _ (to_uint_nonnil i)), zeros_digits.
  set (digits := NilEmpty.string_of_uint _).
  change (Nat.of_uint <$> NilEmpty.uint_of_string digits = Some i).
  subst digits. rewrite DecimalString.NilEmpty.usu.
  cbn [fmap option_fmap option_map]. f_equal.
  rewrite <- DecimalNat.Unsigned.of_uint_norm, DecimalFacts.unorm_iter_D0,
    DecimalNat.Unsigned.of_uint_norm, DecimalNat.Unsigned.of_to. reflexivity.
Qed.

(** X4.  The identifier of the record at position [i] is [STU] followed by
    [i + 1] padded with zeros to four digits, it reads back as [i + 1], and
    no two records of a batch share an identifier. *)
Theorem student_ids_distinct (self : StudentDataGenerator) (s : rng_state) d s' :
  generate_dataset self s = inr (d, s') ->
  (forall i, (i < Z.to_nat (num_students self))%nat ->
     exists id, student_id d !! i = Some id /\
                id = ("STU" ++ zfill 4 (str_int (S i)))%string /\
                id_number id = Some (S i)) /\
  NoDup (student_id d).
Proof.
  intros H. apply generate_dataset_inr in H as (f & scores & l & Hraw & _ & ->).
  unfold raw_scores in Hraw.
  apply bind_inr in Hraw as ([] & s0 & _ & Hraw).
  apply bind_inr in Hraw as (f0 & s1 & Hf & Hraw). cbv zeta in Hraw.
  apply bind_inr in Hraw as (noise & s2 & _ & Hraw).
  unfold ret, ok in Hraw. injection Hraw as <- _ _.
  unfold sample_features in Hf.
  repeat (apply bind_inr in Hf;
          let x := fresh "x" in
          let s := fresh "s" in
          let Hx := fresh "Hx" in
          destruct Hf as (x & s & Hx & Hf); cbv beta zeta in Hf).
  unfold ret, ok in Hf. injection Hf as <- _. simpl.
  split.
  - intros i Hi. eexists. split; [| split; [reflexivity | apply id_number_student]].
    change (map ?g ?l) with (g <$> l).
    rewrite list_lookup_fmap, lookup_seq_lt by exact Hi. reflexivity.
  - change (map ?g ?l) with (g <$> l).
    apply NoDup_fmap_2_strong; [| apply NoDup_seq].
    intros a b _ _ Hab.
    pose proof (id_number_student a 4) as Ha. rewrite Hab in Ha.
    rewrite id_number_student in Ha. now injection Ha.
Qed.

Lemma rint_monotone x y : x <= y -> (rint x <= rint y)%Z.
Proof.
  intros Hle. pose proof (Qfloor_resp_le _ _ Hle) as Hf.
  destruct (Z.eq_dec (Qfloor x) (Qfloor y)) as [Heq | Hne].
  - unfold rint. rewrite <- Heq.
    destruct (Qcompare (x - inject_Z (Qfloor x)) (1 # 2)) eqn:Hx;
      destruct (Qcompare (y - inject_Z (Qfloor x)) (1 # 2)) eqn:Hy;
      try (destruct (Z.even (Qfloor x))); try lia; exfalso;
      first [apply Qeq_alt in Hx | apply Qlt_alt in Hx | apply Qgt_alt in Hx];
      first [apply Qeq_alt in Hy | apply Qlt_alt in Hy | apply Qgt_alt in Hy];
      lra.
  - destruct (rint_floor_or_succ x) as [-> | ->];
      destruct (rint_floor_or_succ y) as [-> | ->]; lia.
Qed.

Lemma round2_monotone x y : x <= y -> round2 x <= round2 y.
Proof.
  intros Hle. unfold round2.
  apply Qmult_le_compat_r; [| unfold Qle; simpl; lia].
  rewrite <- Zle_Qle. apply rint_monotone. lra.
Qed.

(** X5.  When the raw scores are not all equal, normalisation keeps their
    order: a record whose raw score is not larger than another's gets a
    final score that is not larger. *)
Theorem normalisation_keeps_order
    (self : StudentDataGenerator) (s : rng_state) f scores s1 d s' (i j : nat) x y :
  raw_scores self s = inr (f, scores, s1) ->
  generate_dataset self s = inr (d, s') ->
  distinct_extremes self s ->
  scores !! i = Some x -> scores !! j = Some y -> x <= y ->
  exists p q, final_score d !! i = Some (Fin p) /\
              final_score d !! j = Some (Fin q) /\ p <= q.
Proof.
  intros Hraw Hgen Hd Hi Hj Hxy.
  apply generate_dataset_inr in Hgen as (f' & scores' & l & Hraw' & Hnorm & ->).
  rewrite Hraw in Hraw'. injection Hraw' as <- <- <-.
  unfold distinct_extremes in Hd. rewrite Hraw in Hd.
  apply normalize_inr in Hnorm as (lo & hi & Hmin & Hmax & ->).
  rewrite Hmin, Hmax in Hd.
  destruct (amin_spec _ _ Hmin) as (Hlb & ymin & Hin_min & Hymin).
  destruct (amax_spec _ _ Hmax) as (Hub & _).
  assert (Hlt : lo < hi).
  { pose proof (Hub _ Hin_min) as Hle. apply Qle_lt_or_eq in Hle as [? | ?]; lra. }
  simpl. unfold vsub_s.
  change (map ?g ?l) with (g <$> l). rewrite !list_lookup_fmap, Hi, Hj. simpl.
  unfold divide.
  destruct (Qeq_bool (hi - lo) 0) eqn:E; [apply Qeq_bool_iff in E; lra |].
  simpl. do 2 eexists. split; [reflexivity |]. split; [reflexivity |].
  apply round2_monotone. apply Qmult_le_compat_r; [| lra].
  apply Qmult_le_compat_r; [lra |]. apply Qinv_le_0_compat. lra.
Qed.

Lemma normalize_constant scores lo hi l :
  amin scores = inr lo -> amax scores = inr hi -> lo == hi ->
  normalize scores = inr l -> Forall (fun c => c = NaN) l.
Proof.
  intros Hmin Hmax Heq Hn. unfold normalize in Hn. rewrite Hmin, Hmax in Hn.
  simpl in Hn. injection Hn as <-.
  destruct (amin_spec _ _ Hmin) as (Hlb & _).
  destruct (amax_spec _ _ Hmax) as (Hub & _).
  unfold vsub_s. rewrite map_map. apply List.Forall_forall.
  intros c Hc. apply in_map_iff in Hc as (x & <- & Hx).
  pose proof (Hlb _ Hx). pose proof (Hub _ Hx).
  unfold divide.
  assert (Hz : hi - lo == 0) by lra. apply Qeq_bool_iff in Hz. rewrite Hz.
  assert (Hx0 : x - lo == 0) by lra. apply Qeq_alt in Hx0. now rewrite Hx0.
Qed.

(** X6.  The scores of a generated dataset are either all [nan], which
    happens exactly when all raw scores coincide, or all finite numbers
    between 0 and 100; an infinity never appears. *)
Theorem final_scores_all_nan_or_all_finite
    (self : StudentDataGenerator) (s : rng_state) d s' :
  generate_dataset self s = inr (d, s') ->
  (~ distinct_extremes self s /\ Forall (fun c => c = NaN) (final_score d)) \/
  (distinct_extremes self s /\
   Forall (fun c => exists q, c = Fin q /\ 0 <= q <= 100) (final_score d)).
Proof.
  intros Hgen.
  apply generate_dataset_inr in Hgen as (f & scores & l & Hraw & Hnorm & ->).
  unfold distinct_extremes. rewrite Hraw. simpl.
  destruct (normalize_inr _ _ Hnorm) as (lo & hi & Hmin & Hmax & _).
  rewrite Hmin, Hmax.
  destruct (Qeq_dec lo hi) as [Heq | Hne].
  - left. split; [tauto |]. eapply normalize_constant; eauto.
  - right. split; [exact Hne |].
    destruct (normalize_distinct scores lo hi Hmin Hmax Hne) as (l' & Hl' & _ & Hall & _).
    rewrite Hnorm in Hl'. now injection Hl' as <-.
Qed.

End GeneratorScores.

(** ** Preprocessing: what it changes and what it keeps *)

Section PreprocessMore.
Import Py Pandas Model.
Context {SK : Sklearn}.

Lemma dict_set_keys {A} k (v : A) d :
  is_Some (dict_get k d) -> map fst (dict_set k v d) = map fst d.
Proof.
  induction d as [| [k0 v0] d IH]; simpl; [intros [? [=]] |].
  destruct (String.eqb k0 k) eqn:E; simpl; [reflexivity |].
  intros H. now rewrite IH.
Qed.

Lemma np_unique_codes y classes codes :
  np_unique y = inr (classes, codes) ->
  length codes = length y /\ Forall (fun c => exists n, c = VInt n) codes.
Proof.
  intros H.
  assert (Hc : codes = codes_of classes y).
  { unfold np_unique, rbind in H.
    destruct (mapM as_str y); [now injection H as <- <- |].
    destruct (mapM as_int y); [now injection H as <- <- |].
    destruct (unique_other y); [discriminate | now injection H as <- <-]. }
  subst codes. unfold codes_of. split; [apply length_map |].
  apply List.Forall_forall. intros c Hc. apply in_map_iff in Hc as (v & <- & _). eauto.
Qed.

(** One iteration, case by case. *)
Lemma encode_column_cases c df self r self' :
  encode_column c df self = (r, self') ->
  match dict_get c (columns df), label_encoders self !! c with
  | None, _ => r = inr df /\ self' = self
  | Some y, Some le =>
      self' = self /\
      match transform le y with
      | inl e => r = inl e
      | inr codes => r = inr (set_column c codes df)
      end
  | Some y, None =>
      match np_unique y with
      | inl e =>
          r = inl e /\
          self' = with_label_encoders
                    (<[c := {| classes_ := None |}]> (label_encoders self)) self
      | inr (classes, codes) =>
          r = inr (set_column c codes df) /\
          self' = with_label_encoders
                    (<[c := {| classes_ := Some classes |}]> (label_encoders self)) self
      end
  end.
Proof.
  unfold encode_column, mbind, mget, mret, mlift, mmodify. simpl.
  destruct (dict_get c (columns df)) as [y |]; [| now intros [= <- <-]].
  destruct (label_encoders self !! c) as [le |].
  - destruct (transform le y); now intros [= <- <-].
  - simpl. destruct (np_unique y) as [e | [classes codes]]; simpl;
      now intros [= <- <-].
Qed.

(** What one successful iteration does to the frame. *)
Lemma encode_column_frame_result c df self d1 self' :
  encode_column c df self = (inr d1, self') ->
  index_len d1 = index_len df /\
  map fst (columns d1) = map fst (columns df) /\
  (forall col, c <> col -> dict_get col (columns d1) = dict_get col (columns df)) /\
  (forall y, dict_get c (columns df) = Some y ->
     exists codes, dict_get c (columns d1) = Some codes /\
                   length codes = length y /\ int_coded codes).
Proof.
  intros H. apply encode_column_cases in H.
  destruct (dict_get c (columns df)) as [y |] eqn:Hy.
  - assert (exists codes, d1 = set_column c codes df /\
                          length codes = length y /\ int_coded codes)
      as (codes & Hd1 & Hlen & Hint).
    { destruct (label_encoders self !! c) as [le |].
      - destruct H as [_ H]. destruct (transform le y) as [e | codes] eqn:Ht;
          [discriminate |].
        injection H as ->. apply transform_inr in Ht as [? ?]. eauto.
      - destruct (np_unique y) as [e | [classes codes]] eqn:Hu;
          [destruct H; discriminate |].
        destruct H as [H _]. injection H as ->.
        apply np_unique_codes in Hu as [? ?]. eauto. }
    clear H. subst d1. simpl. split; [reflexivity |]. split; [apply dict_set_keys; eauto |].
    split; [intros col Hne; now apply dict_get_set_ne |].
    intros y' [= <-]. exists codes. now rewrite dict_get_set_eq.
  - destruct H as [H _]. injection H as ->.
    repeat split; auto. intros y [=].
Qed.

Lemma encode_columns_frame_result cols : forall df self d1 self',
  NoDup cols ->
  encode_columns cols df self = (inr d1, self') ->
  index_len d1 = index_len df /\
  map fst (columns d1) = map fst (columns df) /\
  (forall col, ~ In col cols -> dict_get col (columns d1) = dict_get col (columns df)) /\
  (forall col y, In col cols -> dict_get col (columns df) = Some y ->
     exists codes, dict_get col (columns d1) = Some codes /\
                   length codes = length y /\ int_coded codes).
Proof.
  induction cols as [| c cols IH]; intros df self d1 self' Hnd H.
  - simpl in H. unfold mret in H. injection H as <- _.
    repeat split; auto. intros col y [].
  - apply NoDup_cons in Hnd as [Hnin Hnd]. rewrite list_elem_of_In in Hnin.
    simpl in H. apply mbind_inr in H as (df1 & s1 & Hc & H).
    apply encode_column_frame_result in Hc as (Hl1 & Hk1 & Ho1 & Hc1).
    destruct (IH _ _ _ _ Hnd H) as (Hl & Hk & Ho & Hcs).
    split; [congruence |]. split; [congruence |]. split.
    + intros col Hcol. rewrite Ho by (intros ?; apply Hcol; now right).
      apply Ho1. intros ->. apply Hcol. now left.
    + intros col y [<- | Hin] Hy.
      * destruct (Hc1 y Hy) as (codes & Hcodes & ?). exists codes.
        rewrite Ho by exact Hnin. auto.
      * apply Hcs; [exact Hin |]. rewrite Ho1; [exact Hy |].
        intros ->. contradiction.
Qed.

(** X7.  A successful [preprocess_data] returns a frame with the same index
    and the same columns in the same order; the columns that are not
    categorical are untouched, and every categorical column that is present
    becomes a column of integer codes of the same length. *)
Theorem preprocess_data_frame (data d1 : DataFrame) (self self' : StudentPerformanceModel) :
  preprocess_data data self = (inr d1, self') ->
  index_len d1 = index_len data /\
  map fst (columns d1) = map fst (columns data) /\
  (forall col, ~ In col categorical_columns ->
     dict_get col (columns d1) = dict_get col (columns data)) /\
  (forall col y, In col categorical_columns -> dict_get col (columns data) = Some y ->
     exists codes, dict_get col (columns d1) = Some codes /\
                   length codes = length y /\ int_coded codes).
Proof. apply encode_columns_frame_result, categorical_columns_NoDup. Qed.

(** What one iteration, successful or not, does to the model. *)
Lemma encode_column_model c df self r self' :
  encode_column c df self = (r, self') ->
  self' = with_label_encoders (label_encoders self') self /\
  (forall col le, label_encoders self !! col = Some le ->
                  label_encoders self' !! col = Some le) /\
  (forall col, is_Some (label_encoders self' !! col) ->
     is_Some (label_encoders self !! col) \/
     (col = c /\ is_Some (dict_get c (columns df)))).
Proof.
  intros H. apply encode_column_cases in H.
  destruct (dict_get c (columns df)) as [y |] eqn:Hy.
  - destruct (label_encoders self !! c) as [le |] eqn:Hle.
    + destruct H as [-> _]. rewrite with_label_encoders_id. auto.
    + assert (exists le', self' = with_label_encoders
                                    (<[c := le']> (label_encoders self)) self)
        as [le' ->].
      { destruct (np_unique y) as [e | [classes codes]]; destruct H as [_ ->]; eauto. }
      simpl. split; [reflexivity |]. split.
      * intros col le Hcol. rewrite lookup_insert_ne; [exact Hcol | congruence].
      * intros col. destruct (string_dec c col) as [<- | Hne].
        -- right. eauto.
        -- rewrite lookup_insert_ne by exact Hne. auto.
  - destruct H as [_ ->]. rewrite with_label_encoders_id. auto.
Qed.

Lemma encode_columns_model_result cols : forall df self r self',
  encode_columns cols df self = (r, self') ->
  self' = with_label_encoders (label_encoders self') self /\
  (forall col le, label_encoders self !! col = Some le ->
                  label_encoders self' !! col = Some le) /\
  (forall col, is_Some (label_encoders self' !! col) ->
     is_Some (label_encoders self !! col) \/ In col cols).
Proof.
  induction cols as [| c cols IH]; intros df self r self' H; simpl in H.
  - unfold mret in H. injection H as _ <-. rewrite with_label_encoders_id. auto.
  - unfold mbind in H.
    destruct (encode_column c df self) as [[e | df1] s1] eqn:Hc;
      apply encode_column_model in Hc as (Hs1 & Hkeep1 & Hnew1).
    + injection H as _ <-. split; [exact Hs1 |]. split; [exact Hkeep1 |].
      intros col Hcol. destruct (Hnew1 col Hcol) as [? | [-> _]]; [now left |].
      right. now left.
    + apply IH in H as (Hs & Hkeep & Hnew). split; [| split].
      * rewrite Hs, Hs1. reflexivity.
      * intros col le Hcol. apply Hkeep, Hkeep1, Hcol.
      * intros col Hcol. destruct (Hnew col Hcol) as [H1 | H1]; [| right; now right].
        destruct (Hnew1 col H1) as [? | [-> _]]; [now left |]. right. now left.
Qed.

(** X8.  Whether it returns or raises, [preprocess_data] changes nothing of
    the model but the encoder dictionary; an encoder that is in the
    dictionary is never replaced or removed, and a new entry can only
    appear under one of the three categorical column names. *)
Theorem preprocess_data_model (data : DataFrame) (self self' : StudentPerformanceModel) r :
  preprocess_data data self = (r, self') ->
  self' = with_label_encoders (label_encoders self') self /\
  (forall col le, label_encoders self !! col = Some le ->
                  label_encoders self' !! col = Some le) /\
  (forall col, is_Some (label_encoders self' !! col) ->
     is_Some (label_encoders self !! col) \/ In col categorical_columns).
Proof. apply encode_columns_model_result. Qed.

End PreprocessMore.

(** ** Fitting at training time, reusing at prediction time *)

Section FitThenReuse.
Import Py Pandas Model.
Context {SK : Sklearn}.

Lemma insert_str_In s l x : In x l \/ x = s -> In x (insert_str s l).
Proof.
  induction l as [| y l IH]; simpl.
  - intros [[] | ->]. now left.
  - destruct (String.compare s y) eqn:E; simpl.
    + apply String.compare_eq_iff in E. subst y. intros [H | ->]; auto.
    + intros [H | ->]; auto.
    + intros [[-> | H] | ->]; auto.
Qed.

Lemma sorted_labels_In strs s : In s strs -> In s (fold_right insert_str [] strs).
Proof.
  induction strs as [| t strs IH]; simpl; [tauto |].
  intros [-> | H]; apply insert_str_In; auto.
Qed.

Lemma index_of_string s cs : In s cs -> is_Some (index_of (VStr s) (map VStr cs)).
Proof.
  induction cs as [| c cs IH]; simpl; [tauto |].
  intros H. unfold Py.eqb. simpl.
  destruct (String.eqb c s) eqn:E; [eauto |].
  destruct H as [-> | H]; [rewrite String.eqb_refl in E; discriminate |].
  destruct (IH H) as [i ->]. simpl. eauto.
Qed.

Lemma mapM_as_str_inv y strs : mapM as_str y = Some strs -> y = map VStr strs.
Proof.
  revert strs. induction y as [| v y IH]; intros strs H; simpl in H.
  - now injection H as <-.
  - destruct v; try discriminate. simpl in H.
    destruct (mapM as_str y) as [strs' |]; [| discriminate].
    injection H as <-. simpl. now rewrite (IH strs').
Qed.

(** An encoder fitted on a column of strings transforms that column to the
    codes the fit returned. *)
Lemma transform_after_fit y strs classes codes :
  mapM as_str y = Some strs ->
  np_unique y = inr (classes, codes) ->
  transform {| classes_ := Some classes |} y = inr codes.
Proof.
  intros Hstr Hu. unfold np_unique in Hu. rewrite Hstr in Hu.
  injection Hu as <- <-.
  apply mapM_as_str_inv in Hstr as ->.
  assert (Hs : string_labels (map VStr (fold_right insert_str [] strs))).
  { apply List.Forall_forall. intros c Hc. apply in_map_iff in Hc as (s & <- & _). eauto. }
  rewrite (transform_strings _ _ Hs). apply lookup_labels_seen; [exact Hs |].
  apply List.Forall_forall. intros v Hv. apply in_map_iff in Hv as (s & <- & Hin).
  apply in_map. now apply sorted_labels_In.
Qed.

Lemma encode_columns_keeps_encoder cols c df self r self' :
  ~ In c cols ->
  encode_columns cols df self = (r, self') ->
  label_encoders self' !! c = label_encoders self !! c.
Proof.
  intros Hnin H. apply encode_columns_model_result in H as (_ & Hkeep & Hnew).
  destruct (label_encoders self !! c) as [le |] eqn:E; [now apply Hkeep |].
  destruct (label_encoders self' !! c) as [le' |] eqn:E'; [| reflexivity].
  destruct (Hnew c ltac:(eauto)) as [[x Hx] | Hin]; [congruence | contradiction].
Qed.

Lemma encode_columns_rerun cols : forall df self d1 self1,
  NoDup cols ->
  fits_on_strings cols df self ->
  encode_columns cols df self = (inr d1, self1) ->
  encode_columns cols df self1 = (inr d1, self1).
Proof.
  induction cols as [| c cols IH]; intros df self d1 self1 Hnd Hfit H.
  - simpl in *. unfold mret in *. now injection H as <- <-.
  - apply NoDup_cons in Hnd as [Hnin Hnd]. rewrite list_elem_of_In in Hnin.
    simpl in H. apply mbind_inr in H as (df2 & s2 & Hc & Hrest).
    pose proof (encode_columns_keeps_encoder _ _ _ _ _ _ Hnin Hrest) as Henc.
    pose proof (encode_column_frame_result _ _ _ _ _ Hc) as (_ & _ & Hother & _).
    pose proof (encode_column_model _ _ _ _ _ Hc) as (_ & Hkeep & _).
    assert (Hfit2 : fits_on_strings cols df2 s2).
    { intros c' y Hc' Hy Hnone. apply (Hfit c' y); [now right | |].
      - rewrite <- Hother; [exact Hy |]. intros ->. contradiction.
      - destruct (label_encoders self !! c') as [le |] eqn:E; [| reflexivity].
        rewrite (Hkeep _ _ E) in Hnone. discriminate. }
    specialize (IH df2 s2 d1 self1 Hnd Hfit2 Hrest).
    simpl. unfold mbind.
    assert (Hstep : encode_column c df self1 = (inr df2, self1)).
    { apply encode_column_cases in Hc.
      destruct (dict_get c (columns df)) as [y |] eqn:Hy.
      - destruct (label_encoders self !! c) as [le |] eqn:Hle.
        + destruct Hc as [-> Hc].
          rewrite (encode_column_existing c df self1 le) by congruence.
          rewrite Hy. destruct (transform le y); [discriminate |].
          now injection Hc as ->.
        + destruct (Hfit c y ltac:(now left) Hy Hle) as [strs Hstrs].
          destruct (np_unique y) as [e | [classes codes]] eqn:Hu;
            [destruct Hc; discriminate |].
          destruct Hc as [Hdf2 Hs2]. injection Hdf2 as ->.
          rewrite (encode_column_existing c df self1 {| classes_ := Some classes |}).
          * rewrite Hy, (transform_after_fit y strs classes codes Hstrs Hu).
            reflexivity.
          * rewrite Henc, Hs2. simpl. apply lookup_insert_eq.
      - destruct Hc as [Hdf2 _]. injection Hdf2 as ->.
        unfold encode_column, mbind, mget, mret. simpl. now rewrite Hy. }
    rewrite Hstep. exact IH.
Qed.

(** X9.  Encoders fitted by one call are reused unchanged by the next:
    when the categorical columns that still lack an encoder hold strings
    and [preprocess_data] succeeds, calling it again on the same raw data
    with the resulting model returns the same encoded frame and leaves
    that model as it is. *)
Theorem preprocess_data_fit_then_reuse
    (data d1 : DataFrame) (self self1 : StudentPerformanceModel) :
  fits_on_strings categorical_columns data self ->
  preprocess_data data self = (inr d1, self1) ->
  preprocess_data data self1 = (inr d1, self1).
Proof.
  intros Hfit H. eapply encode_columns_rerun; eauto using categorical_columns_NoDup.
Qed.

End FitThenReuse.

(** ** Feature selection *)

Section FeaturesMore.
Import Py Pandas Model.
Context {SK : Sklearn}.

Lemma dict_get_None_keys {A} k (d : list (string * A)) :
  dict_get k d = None <-> ~ In k (map fst d).
Proof.
  induction d as [| [k0 v0] d IH]; simpl; [tauto |].
  destruct (String.eqb k0 k) eqn:E.
  - apply String.eqb_eq in E. split; [discriminate | tauto].
  - apply String.eqb_neq in E. rewrite IH. tauto.
Qed.

Lemma select_columns_inr cols df cs :
  select_columns cols df = inr cs ->
  map fst cs = cols /\
  Forall (fun c => dict_get c cs = dict_get c (columns df)
                   /\ is_Some (dict_get c (columns df))) cols.
Proof.
  revert cs. induction cols as [| c cols IH]; intros cs H; simpl in H.
  - injection H as <-. split; [reflexivity | constructor].
  - destruct (dict_get c (columns df)) as [v |] eqn:Hc; [| discriminate].
    unfold rbind in H. destruct (select_columns cols df) as [e | tl]; [discriminate |].
    injection H as <-. destruct (IH tl eq_refl) as [Hk Hall].
    simpl. split; [now rewrite Hk |]. constructor.
    + rewrite String.eqb_refl, Hc. eauto.
    + eapply Forall_impl; [exact Hall |]. intros c' [Hget Hsome]. simpl in *.
      destruct (String.eqb c c') eqn:E; [| auto].
      apply String.eqb_eq in E. subst c'. rewrite Hc. eauto.
Qed.

Lemma select_columns_inl cols df e :
  select_columns cols df = inl e ->
  exists c, e = KeyError c /\ In c cols /\ dict_get c (columns df) = None.
Proof.
  induction cols as [| c cols IH]; intros H; simpl in H; [discriminate |].
  destruct (dict_get c (columns df)) as [v |] eqn:Hc.
  - unfold rbind in H. destruct (select_columns cols df) as [e' | tl]; [| discriminate].
    injection H as <-. destruct (IH eq_refl) as (c' & -> & Hin & Hnone).
    exists c'. simpl. auto.
  - injection H as <-. exists c. simpl. auto.
Qed.

Lemma select_columns_present cols df :
  Forall (fun c => is_Some (dict_get c (columns df))) cols ->
  exists cs, select_columns cols df = inr cs.
Proof.
  induction 1 as [| c cols [v Hv] _ [tl IH]]; simpl; [eauto |].
  rewrite Hv, IH. simpl. eauto.
Qed.

Lemma feature_names_spec target df c :
  In c (feature_names target df) <->
  In c (map fst (columns df)) /\ c <> "student_id" /\ c <> target.
Proof.
  unfold feature_names. rewrite filter_In. simpl.
  rewrite negb_true_iff, !orb_false_iff, !String.eqb_neq. tauto.
Qed.

Lemma prepare_features_eq data self :
  prepare_features data self =
  let fc := match feature_columns self with
            | None => feature_names (target_column self) data
            | Some fc => fc
            end in
  let self1 := match feature_columns self with
               | None => with_feature_columns (Some fc) self
               | Some _ => self
               end in
  match select fc data with
  | inl e => (inl e, self1)
  | inr X => (inr (X, dict_get (target_column self) (columns data)), self1)
  end.
Proof.
  unfold prepare_features, mbind, mget, mmodify, mret, mlift, feature_names, ok.
  cbv beta iota zeta.
  destruct (feature_columns self) as [fc |] eqn:E; cbv beta iota zeta.
  - rewrite E. change (default [] (Some fc)) with fc.
    destruct (select fc data); reflexivity.
  - cbn [feature_columns with_feature_columns target_column].
    match goal with |- context [select (default [] (Some ?l)) data] =>
      change (default [] (Some l)) with l end.
    destruct (select _ data); reflexivity.
Qed.

(** X10.  The first [prepare_features] on a model never raises: it fixes the
    feature list to the frame's columns, in order, without the identifier and
    the target, returns exactly those columns with the rows of the frame,
    and returns the target column when the frame has one. *)
Theorem prepare_features_first_call (data : DataFrame) (self : StudentPerformanceModel) :
  feature_columns self = None ->
  let fc := feature_names (target_column self) data in
  exists X,
    prepare_features data self =
    (inr (X, dict_get (target_column self) (columns data)),
     with_feature_columns (Some fc) self) /\
    ~ In "student_id" fc /\ ~ In (target_column self) fc /\
    index_len X = index_len data /\
    map fst (columns X) = fc /\
    forall c, In c fc -> dict_get c (columns X) = dict_get c (columns data).
Proof.
  intros Hnone fc.
  assert (Hpresent : Forall (fun c => is_Some (dict_get c (columns data))) fc).
  { apply List.Forall_forall. intros c Hc. apply feature_names_spec in Hc as (Hc & _).
    destruct (dict_get c (columns data)) eqn:E; [eauto |].
    apply dict_get_None_keys in E. contradiction. }
  destruct (select_columns_present fc data Hpresent) as [cs Hcs].
  exists {| index_len := index_len data; columns := cs |}.
  destruct (select_columns_inr _ _ _ Hcs) as [Hk Hall].
  split; [| split; [| split; [| split; [| split]]]].
  - rewrite prepare_features_eq, Hnone. cbv zeta. fold fc.
    unfold select, rbind. rewrite Hcs. reflexivity.
  - intros H. apply feature_names_spec in H. tauto.
  - intros H. apply feature_names_spec in H. tauto.
  - reflexivity.
  - exact Hk.
  - intros c Hc. rewrite List.Forall_forall in Hall. now apply Hall.
Qed.

(** X11.  Once the feature list is fixed, [prepare_features] never changes
    the model; it returns the listed columns of the frame, in the listed
    order, and raises a [KeyError] naming a listed column the frame lacks
    exactly when there is one. *)
Theorem prepare_features_later_calls
    (data : DataFrame) (self : StudentPerformanceModel) (fc : list string) :
  feature_columns self = Some fc ->
  snd (prepare_features data self) = self /\
  match fst (prepare_features data self) with
  | inr (X, y) =>
      Forall (fun c => is_Some (dict_get c (columns data))) fc /\
      index_len X = index_len data /\ map fst (columns X) = fc /\
      (forall c, In c fc -> dict_get c (columns X) = dict_get c (columns data)) /\
      y = dict_get (target_column self) (columns data)
  | inl e =>
      exists c, e = KeyError c /\ In c fc /\ dict_get c (columns data) = None
  end.
Proof.
  intros Hfc. rewrite prepare_features_eq, Hfc. cbv zeta. unfold select, rbind.
  destruct (select_columns fc data) as [e | cs] eqn:Hcs; simpl.
  - split; [reflexivity |]. now apply select_columns_inl in Hcs.
  - split; [reflexivity |].
    destruct (select_columns_inr _ _ _ Hcs) as [Hk Hall].
    rewrite List.Forall_forall in Hall.
    split; [apply List.Forall_forall; intros c Hc; now apply Hall |].
    split; [reflexivity |]. split; [exact Hk |].
    split; [intros c Hc; now apply Hall | reflexivity].
Qed.

End FeaturesMore.

(** ** What the methods keep of the model *)

Section ModelInvariants.
Import Py Pandas Model.
Context {SK : Sklearn}.

Lemma preserves_mbind {A B} I (m : MM A) (k : A -> MM B) :
  preserves I m -> (forall x, preserves I (k x)) -> preserves I (mbind m k).
Proof.
  intros Hm Hk self r self' HI. unfold mbind.
  destruct (m self) as [[e | x] s1] eqn:E.
  - intros [= <- <-]. eapply Hm; eauto.
  - intros H. eapply Hk; [| exact H]. eapply Hm; eauto.
Qed.

Lemma preserves_mret {A} I (x : A) : preserves I (mret x).
Proof. intros self r self' HI [= _ <-]. exact HI. Qed.

Lemma preserves_mlift {A} I (x : result A) : preserves I (mlift x).
Proof. intros self r self' HI [= _ <-]. exact HI. Qed.

Lemma preserves_mget I : preserves I mget.
Proof. intros self r self' HI [= _ <-]. exact HI. Qed.

Lemma preserves_mmodify I f :
  (forall self, I self -> I (f self)) -> preserves I (mmodify f).
Proof. intros Hf self r self' HI [= _ <-]. now apply Hf. Qed.

Ltac keeps :=
  repeat first
    [ apply preserves_mret
    | apply preserves_mlift
    | apply preserves_mget
    | apply preserves_mmodify; intros ? [? ?]; split; assumption
    | apply preserves_mbind; [| intros ?]
    | match goal with
      | |- preserves _ (match ?x with _ => _ end) => destruct x
      | |- preserves _ (let '(_, _) := ?x in _) => destruct x
      end ].

Lemma preprocess_data_keeps_features fc target data :
  preserves (features_fixed fc target) (preprocess_data data).
Proof.
  intros self r self' [Hfc Ht] H. unfold preprocess_data in H.
  apply encode_columns_model_result in H as (-> & _). split; assumption.
Qed.

Lemma prepare_features_keeps_features fc target data :
  preserves (features_fixed fc target) (prepare_features data).
Proof.
  intros self r self' [Hfc Ht] H.
  rewrite prepare_features_eq, Hfc in H. cbv zeta in H.
  destruct (select fc data); injection H as _ <-; split; assumption.
Qed.

Lemma scaler_fit_transform_keeps_features fc target X :
  preserves (features_fixed fc target) (scaler_fit_transform X).
Proof. unfold scaler_fit_transform. keeps. Qed.

Lemma scaler_transform_keeps_features fc target X :
  preserves (features_fixed fc target) (scaler_transform X).
Proof. unfold scaler_transform. keeps. Qed.

Lemma model_fit_keeps_features fc target X y :
  preserves (features_fixed fc target) (model_fit X y).
Proof. unfold model_fit. keeps. Qed.

Lemma model_predict_keeps_features fc target X :
  preserves (features_fixed fc target) (model_predict X).
Proof. unfold model_predict. keeps. Qed.

Lemma predict_keeps_features fc target data :
  preserves (features_fixed fc target) (predict data).
Proof.
  unfold predict. apply preserves_mbind; [apply preserves_mget | intros self0].
  destruct (model self0); [| apply preserves_mlift].
  apply preserves_mbind; [apply preprocess_data_keeps_features | intros d].
  apply preserves_mbind; [apply prepare_features_keeps_features | intros [X y]].
  apply preserves_mbind.
  - destruct (config e); [apply scaler_transform_keeps_features | apply preserves_mret].
  - intros X'. apply preserves_mbind; [apply model_predict_keeps_features |].
    intros ps. apply preserves_mret.
Qed.

Lemma train_keeps_features fc target now data model_type :
  preserves (features_fixed fc target) (train now data model_type).
Proof.
  unfold train.
  apply preserves_mbind; [apply preprocess_data_keeps_features | intros d].
  apply preserves_mbind; [apply prepare_features_keeps_features | intros [X y]].
  apply preserves_mbind; [apply preserves_mlift | intros [[[Xtr Xte] ytr] yte]].
  apply preserves_mbind; [apply scaler_fit_transform_keeps_features | intros Xs].
  apply preserves_mbind; [apply scaler_transform_keeps_features | intros Xts].
  apply preserves_mbind; [destruct (String.eqb model_type "linear"); keeps | intros []].
  apply preserves_mbind.
  { destruct (String.eqb model_type "linear");
      (apply preserves_mbind; [apply model_fit_keeps_features | intros []]);
      apply model_predict_keeps_features. }
  intros y_pred. keeps.
Qed.

(** X12.  The feature list and the target name, once the model has them,
    survive every later call of [preprocess_data], [prepare_features],
    [predict] and [train], whether the call returns or raises: a second
    training run does not recompute the feature list. *)
Theorem feature_columns_frozen
    (self : StudentPerformanceModel) (fc : list string) (now model_type : string)
    (data : DataFrame) :
  feature_columns self = Some fc ->
  let kept (self' : StudentPerformanceModel) :=
    feature_columns self' = Some fc /\ target_column self' = target_column self in
  kept (snd (preprocess_data data self)) /\
  kept (snd (prepare_features data self)) /\
  kept (snd (predict data self)) /\
  kept (snd (train now data model_type self)).
Proof.
  intros Hfc kept. subst kept. cbv beta.
  assert (HI : features_fixed fc (target_column self) self) by (split; auto).
  split; [| split; [| split]].
  - destruct (preprocess_data data self) as [r self'] eqn:E.
    exact (preprocess_data_keeps_features _ _ _ _ _ _ HI E).
  - destruct (prepare_features data self) as [r self'] eqn:E.
    exact (prepare_features_keeps_features _ _ _ _ _ _ HI E).
  - destruct (predict data self) as [r self'] eqn:E.
    exact (predict_keeps_features _ _ _ _ _ _ HI E).
  - destruct (train now data model_type self) as [r self'] eqn:E.
    exact (train_keeps_features _ _ _ _ _ _ _ _ HI E).
Qed.

End ModelInvariants.

(** ** Prediction: what it reads and what it leaves alone *)

Section PredictMore.
Import Py Pandas Model.
Context {SK : Sklearn}.

Lemma encode_columns_readonly cols : forall df self r self',
  (forall c, In c cols ->
     dict_get c (columns df) = None \/ is_Some (label_encoders self !! c)) ->
  encode_columns cols df self = (r, self') -> self' = self.
Proof.
  induction cols as [| c cols IH]; intros df self r self' Hall H; simpl in H.
  - unfold mret in H. now injection H as _ <-.
  - unfold mbind in H.
    destruct (encode_column c df self) as [[e | df1] s1] eqn:Hc.
    + injection H as _ <-. apply encode_column_cases in Hc.
      destruct (Hall c ltac:(now left)) as [Hnone | [le Hle]].
      * rewrite Hnone in Hc. now destruct Hc.
      * rewrite Hle in Hc. destruct (dict_get c (columns df)); now destruct Hc.
    + assert (Hs1 : s1 = self).
      { pose proof Hc as Hc'. apply encode_column_cases in Hc'.
        destruct (Hall c ltac:(now left)) as [Hnone | [le Hle]].
        - rewrite Hnone in Hc'. now destruct Hc'.
        - rewrite Hle in Hc'. destruct (dict_get c (columns df)); now destruct Hc'. }
      subst s1. apply (IH df1 self r self'); [| exact H].
      intros c' Hc'.
      destruct (Hall c' ltac:(now right)) as [Hnone | Hsome]; [| now right].
      destruct (string_dec c c') as [<- | Hne].
      * left. apply encode_column_cases in Hc. rewrite Hnone in Hc.
        destruct Hc as [Hdf _]. injection Hdf as <-. exact Hnone.
      * left. apply encode_column_frame_result in Hc as (_ & _ & Hother & _).
        now rewrite Hother.
Qed.

Lemma scaler_transform_readonly X self :
  snd (scaler_transform X self) = self.
Proof.
  unfold scaler_transform, mbind, mget, mlift. simpl.
  destruct (scaler self); reflexivity.
Qed.

Lemma model_predict_readonly X self :
  snd (model_predict X self) = self.
Proof.
  unfold model_predict, mbind, mget, mlift. simpl.
  destruct (model self) as [[c [p |]] |]; reflexivity.
Qed.

(** [predict] on a model that has an estimator [e] and a feature list. *)
Lemma predict_eq data self e fc :
  model self = Some e -> feature_columns self = Some fc ->
  predict data self =
  match preprocess_data data self with
  | (inl err, s1) => (inl err, s1)
  | (inr d1, s1) =>
      match select fc d1 with
      | inl err => (inl err, s1)
      | inr X =>
          match config e with
          | LinearRegression =>
              match scaler_transform X s1 with
              | (inl err, s2) => (inl err, s2)
              | (inr X', s2) => model_predict X' s2
              end
          | _ => model_predict X s1
          end
      end
  end.
Proof.
  intros He Hfc. unfold predict, mbind at 1, mget, ok. cbv beta iota. rewrite He.
  unfold mbind at 1.
  destruct (preprocess_data data self) as [[err | d1] s1] eqn:Hpre; [reflexivity |].
  assert (Hfc1 : feature_columns s1 = Some fc).
  { unfold preprocess_data in Hpre.
    apply encode_columns_model_result in Hpre as (-> & _). exact Hfc. }
  unfold mbind at 1. rewrite prepare_features_eq, Hfc1. cbv zeta.
  destruct (select fc d1) as [err | X]; [reflexivity |].
  cbv beta iota. unfold mbind at 1.
  destruct (config e).
  - destruct (scaler_transform X s1) as [[err | X'] s2]; [reflexivity |].
    unfold mbind, mret, ok. destruct (model_predict X' s2) as [[err | ps] s3]; reflexivity.
  - unfold mret at 1, ok. unfold mbind, mret, ok.
    destruct (model_predict X s1) as [[err | ps] s3]; reflexivity.
Qed.

(** [predict] on a complete model only reads it. *)
Lemma predict_readonly (data : DataFrame) (self : StudentPerformanceModel) :
  is_Some (feature_columns self) ->
  (forall c, In c categorical_columns ->
     dict_get c (columns data) = None \/ is_Some (label_encoders self !! c)) ->
  snd (predict data self) = self.
Proof.
  intros [fc Hfc] Henc.
  destruct (model self) as [e |] eqn:He.
  2: { unfold predict, mbind, mget, ok. cbv beta iota. rewrite He. reflexivity. }
  rewrite (predict_eq data self e fc He Hfc).
  destruct (preprocess_data data self) as [[err | d1] s1] eqn:Hpre;
    pose proof (encode_columns_readonly _ _ _ _ _ Henc Hpre) as ->;
    [reflexivity |].
  destruct (select fc d1) as [err | X]; [reflexivity |].
  destruct (config e).
  - pose proof (scaler_transform_readonly X self) as Hs.
    destruct (scaler_transform X self) as [[err | X'] s2]; simpl in Hs; subst s2;
      [reflexivity | apply model_predict_readonly].
  - apply model_predict_readonly.
Qed.

Lemma encode_column_agree keep c d d' self :
  In c keep -> agree_on keep d d' ->
  match encode_column c d self, encode_column c d' self with
  | (inl e, s), (inl e', s') => e = e' /\ s = s'
  | (inr d1, s), (inr d1', s') => agree_on keep d1 d1' /\ s = s'
  | _, _ => False
  end.
Proof.
  intros Hc [Hlen Hcols].
  destruct (encode_column c d self) as [r s] eqn:H.
  destruct (encode_column c d' self) as [r' s'] eqn:H'.
  apply encode_column_cases in H. apply encode_column_cases in H'.
  rewrite <- (Hcols c Hc) in H'.
  destruct (dict_get c (columns d)) as [y |].
  - destruct (label_encoders self !! c) as [le |].
    + destruct H as [-> H], H' as [-> H'].
      destruct (transform le y) as [e | codes]; subst r r'; [auto |].
      split; [| reflexivity]. split; [exact Hlen |].
      intros c' Hc'. simpl. destruct (string_dec c c') as [<- | Hne].
      * now rewrite !dict_get_set_eq.
      * rewrite !dict_get_set_ne by exact Hne. auto.
    + destruct (np_unique y) as [e | [classes codes]];
        destruct H as [-> ->], H' as [-> ->]; [auto |].
      split; [| reflexivity]. split; [exact Hlen |].
      intros c' Hc'. simpl. destruct (string_dec c c') as [<- | Hne].
      * now rewrite !dict_get_set_eq.
      * rewrite !dict_get_set_ne by exact Hne. auto.
  - destruct H as [-> ->], H' as [-> ->]. split; [split; assumption | reflexivity].
Qed.

Lemma encode_columns_agree keep cols : forall d d' self,
  (forall c, In c cols -> In c keep) -> agree_on keep d d' ->
  match encode_columns cols d self, encode_columns cols d' self with
  | (inl e, s), (inl e', s') => e = e' /\ s = s'
  | (inr d1, s), (inr d1', s') => agree_on keep d1 d1' /\ s = s'
  | _, _ => False
  end.
Proof.
  induction cols as [| c cols IH]; intros d d' self Hsub Hag; simpl.
  - unfold mret. auto.
  - unfold mbind.
    pose proof (encode_column_agree keep c d d' self (Hsub c ltac:(now left)) Hag) as H.
    destruct (encode_column c d self) as [[e | d1] s];
      destruct (encode_column c d' self) as [[e' | d1'] s']; try contradiction.
    + exact H.
    + destruct H as [Hag1 <-]. apply IH; [| exact Hag1].
      intros c' Hc'. apply Hsub. now right.
Qed.

Lemma select_agree keep fc d d' :
  (forall c, In c fc -> In c keep) -> agree_on keep d d' ->
  select fc d = select fc d'.
Proof.
  intros Hsub [Hlen Hcols]. unfold select. rewrite Hlen.
  replace (select_columns fc d') with (select_columns fc d); [reflexivity |].
  induction fc as [| c fc IH]; simpl; [reflexivity |].
  rewrite (Hcols c) by (apply Hsub; now left).
  rewrite IH; [reflexivity |]. intros c' Hc'. apply Hsub. now right.
Qed.

(** X14.  With the feature list fixed, [predict] depends on its input only
    through the number of rows, the feature columns and the categorical
    columns: two frames that agree on these give the same predictions or
    the same error, and the same model afterwards.  Any other column, such
    as the identifier or the score, is ignored. *)
Theorem predict_reads_only_features
    (self : StudentPerformanceModel) (fc : list string) (d d' : DataFrame) :
  feature_columns self = Some fc ->
  index_len d = index_len d' ->
  (forall c, In c categorical_columns \/ In c fc ->
     dict_get c (columns d) = dict_get c (columns d')) ->
  predict d self = predict d' self.
Proof.
  intros Hfc Hlen Hcols.
  destruct (model self) as [e |] eqn:He.
  2: { unfold predict, mbind, mget, ok. cbv beta iota. rewrite He. reflexivity. }
  rewrite !(predict_eq _ self e fc He Hfc).
  set (keep := (categorical_columns ++ fc)%list).
  assert (Hag : agree_on keep d d').
  { split; [exact Hlen |]. intros c Hc. apply Hcols.
    unfold keep in Hc. apply in_app_or in Hc. exact Hc. }
  pose proof (encode_columns_agree keep categorical_columns d d' self
                ltac:(intros c Hc; unfold keep; apply in_or_app; now left) Hag) as Hpre.
  unfold preprocess_data.
  destruct (encode_columns categorical_columns d self) as [[err | d1] s1];
    destruct (encode_columns categorical_columns d' self) as [[err' | d1'] s1'];
    try contradiction; destruct Hpre as [H1 <-].
  - now subst.
  - rewrite (select_agree keep fc d1 d1'); [reflexivity | | exact H1].
    intros c Hc. unfold keep. apply in_or_app. now right.
Qed.

(** X15.  A frame that lacks a column of the fixed feature list is never
    predicted on: [predict] raises, either the error of the preprocessing
    step or the [KeyError] of the column selection, which names a listed
    column the frame lacks.  No default value is filled in. *)
Theorem predict_missing_feature_raises
    (data : DataFrame) (self : StudentPerformanceModel) (fc : list string) (c : string) :
  feature_columns self = Some fc ->
  In c fc -> dict_get c (columns data) = None ->
  exists e, fst (predict data self) = inl e /\
    (model self = None \/
     fst (preprocess_data data self) = inl e \/
     exists c', e = KeyError c' /\ In c' fc /\ dict_get c' (columns data) = None).
Proof.
  intros Hfc Hc Hnone.
  destruct (model self) as [m |] eqn:He.
  2: { unfold predict, mbind, mget, ok. cbv beta iota. rewrite He. simpl. eauto. }
  rewrite (predict_eq data self m fc He Hfc).
  destruct (preprocess_data data self) as [[err | d1] s1] eqn:Hpre.
  - exists err. simpl. auto.
  - assert (Hkeys : map fst (columns d1) = map fst (columns data)).
    { unfold preprocess_data in Hpre.
      apply encode_columns_frame_result in Hpre; [| apply categorical_columns_NoDup].
      tauto. }
    assert (Hmiss : forall k, dict_get k (columns d1) = None <->
                              dict_get k (columns data) = None).
    { intros k. rewrite !dict_get_None_keys, Hkeys. tauto. }
    unfold select, rbind.
    destruct (select_columns fc d1) as [err | cs] eqn:Hsel.
    + exists err. split; [reflexivity |]. right. right.
      apply select_columns_inl in Hsel as (c' & -> & Hin & Hn).
      exists c'. rewrite <- Hmiss. auto.
    + exfalso. apply select_columns_inr in Hsel as [_ Hall].
      rewrite List.Forall_forall in Hall. destruct (Hall c Hc) as [_ [v Hv]].
      apply Hmiss in Hnone. congruence.
Qed.

End PredictMore.

(** ** What a training run leaves in the model *)

Section TrainMore.
Import Py Pandas Model.
Context {SK : Sklearn}.

Lemma feature_names_keys target d d' :
  map fst (columns d) = map fst (columns d') ->
  feature_names target d = feature_names target d'.
Proof. unfold feature_names. now intros ->. Qed.

(** A successful training run, step by step. *)
Lemma train_inr now data model_type self self' :
  train now data model_type self = (inr tt, self') ->
  exists d1 s1 X y s2 s p mse mae r2 train_size test_size,
    preprocess_data data self = (inr d1, s1) /\
    prepare_features d1 s1 = (inr (X, y), s2) /\
    self' = with_model_metrics
              (metrics_of now model_type (default [] (feature_columns s2)) p
                 mse mae r2 train_size test_size)
              (with_model (Some {| config := estimator_for model_type;
                                   params := Some p |})
                 (with_scaler (Some s) s2)).
Proof.
  intros H. unfold train in H.
  apply mbind_inr in H as (processed & s1 & Hpre & H).
  apply mbind_inr in H as ([X y] & s2 & Hprep & H).
  apply mbind_inr in H as ([[[X_train X_test] y_train] y_test] & s3 & Hsplit & H).
  apply mbind_inr in H as (X_train_scaled & s4 & Hscale & H).
  apply mbind_inr in H as (X_test_scaled & s5 & Hscale' & H).
  apply mbind_inr in H as ([] & s6 & Hset & H).
  apply mbind_inr in H as (y_pred & s7 & Hfit & H).
  apply mbind_inr in H as (mse & s8 & H8 & H).
  apply mbind_inr in H as (mae & s9 & H9 & H).
  apply mbind_inr in H as (r2 & s10 & H10 & H).
  apply mbind_inr in H as ([] & s11 & H11 & H).
  apply mlift_inr in Hsplit, H8, H9, H10. subst s3 s8 s9 s10.
  apply mmodify_inr in H11. subst s11.
  (* scaling *)
  unfold scaler_fit_transform in Hscale.
  apply mbind_inr in Hscale as (s & s2' & Hsf & Hscale).
  apply mlift_inr in Hsf. subst s2'.
  apply mbind_inr in Hscale as ([] & s2' & Hm & Hscale).
  apply mmodify_inr in Hm. subst s2'. apply mlift_inr in Hscale. subst s4.
  assert (Hs5 : s5 = with_scaler (Some s) s2).
  { unfold scaler_transform, mbind, mget, mlift, ok in Hscale'. simpl in Hscale'.
    now injection Hscale' as _ <-. }
  subst s5.
  (* the estimator *)
  assert (Hs6 : s6 = with_model (Some {| config := estimator_for model_type;
                                         params := None |})
                       (with_scaler (Some s) s2)).
  { unfold estimator_for. destruct (String.eqb model_type "linear");
      now apply mmodify_inr in Hset. }
  subst s6.
  assert (Hs7 : exists p, s7 = with_model (Some {| config := estimator_for model_type;
                                                   params := Some p |})
                                 (with_scaler (Some s) s2)).
  { assert (Hgen : forall Xa ya Xb,
        mbind (model_fit Xa ya) (fun _ => model_predict Xb)
          (with_model (Some {| config := estimator_for model_type; params := None |})
             (with_scaler (Some s) s2)) = (inr y_pred, s7) ->
        exists p, s7 = with_model (Some {| config := estimator_for model_type;
                                           params := Some p |})
                         (with_scaler (Some s) s2)).
    { intros Xa ya Xb Hrun. apply mbind_inr in Hrun as ([] & sa & Hfa & Hpa).
      unfold model_fit, mbind, mget, mlift, mmodify, ok in Hfa. simpl in Hfa.
      destruct (estimator_fit (estimator_for model_type) Xa ya) as [err | p];
        [discriminate |].
      injection Hfa as <-. exists p.
      pose proof (model_predict_readonly Xb
        (with_model (Some {| config := estimator_for model_type; params := Some p |})
           (with_model (Some {| config := estimator_for model_type; params := None |})
              (with_scaler (Some s) s2)))) as Hro.
      rewrite Hpa in Hro. simpl in Hro. subst s7. reflexivity. }
    destruct (String.eqb model_type "linear"); eapply Hgen; exact Hfit. }
  destruct Hs7 as [p ->].
  exists processed, s1, X, y, s2, s, p, mse, mae, r2,
    (Z.of_nat (index_len X_train)), (Z.of_nat (index_len X_test)).
  split; [exact Hpre |]. split; [exact Hprep |].
  unfold metrics_of.
  destruct (String.eqb model_type "random_forest").
  - unfold mbind, mget, mmodify, mlift, ok in H. simpl in H.
    now injection H as <-.
  - unfold mret in H. now injection H as <-.
Qed.

(** What the two preparation steps of [train] and [predict] leave. *)
Lemma prepared_features data d1 s1 X y s2 self :
  preprocess_data data self = (inr d1, s1) ->
  prepare_features d1 s1 = (inr (X, y), s2) ->
  let fc := match feature_columns self with
            | Some fc => fc
            | None => feature_names (target_column self) data
            end in
  feature_columns s2 = Some fc /\ target_column s2 = target_column self /\
  label_encoders s2 = label_encoders s1 /\ select fc d1 = inr X.
Proof.
  intros Hpre Hprep fc. unfold preprocess_data in Hpre.
  pose proof (encode_columns_frame_result _ _ _ _ _ categorical_columns_NoDup Hpre)
    as (_ & Hkeys & _).
  apply encode_columns_model_result in Hpre as (Hs1 & _).
  rewrite prepare_features_eq in Hprep. cbv zeta in Hprep.
  assert (Hfc1 : feature_columns s1 = feature_columns self) by now rewrite Hs1.
  assert (Ht1 : target_column s1 = target_column self) by now rewrite Hs1.
  rewrite Hfc1, Ht1, (feature_names_keys _ _ _ Hkeys) in Hprep. subst fc.
  destruct (feature_columns self) as [fc0 |] eqn:E.
  - destruct (select fc0 d1); [discriminate |]. injection Hprep as <- _ <-. auto.
  - destruct (select _ d1); [discriminate |]. injection Hprep as <- _ <-. auto.
Qed.

(** X16.  What a successful training run leaves in the model: the fitted
    estimator of the requested kind (a linear regression only for
    ['linear']), a fitted scaler, the feature list (the one already fixed,
    or else the columns of the data without the identifier and the target),
    the same target name, and a fresh metrics dictionary, whatever was there
    before: the four scores with [rmse] the square root of [mse], the model
    type as it was given, the date, the two sizes, and the feature
    importances only when the model type is exactly ['random_forest']. *)
Theorem train_bookkeeping
    (now : string) (data : DataFrame) (model_type : string)
    (self self' : StudentPerformanceModel) :
  train now data model_type self = (inr tt, self') ->
  let fc := match feature_columns self with
            | Some fc => fc
            | None => feature_names (target_column self) data
            end in
  exists p s mse mae r2 train_size test_size,
    model self' = Some {| config := estimator_for model_type; params := Some p |} /\
    scaler self' = Some s /\
    feature_columns self' = Some fc /\
    target_column self' = target_column self /\
    model_metrics self' =
      ([("mse", VFloat mse); ("rmse", VFloat (np_sqrt mse)); ("mae", VFloat mae);
        ("r2_score", VFloat r2); ("model_type", VStr model_type);
        ("training_date", VStr now);
        ("train_size", VInt train_size); ("test_size", VInt test_size)]
       ++ if String.eqb model_type "random_forest"
          then [("feature_importance",
                 importance_records
                   (sort_values_descending
                      (zip fc (feature_importances_ (estimator_for model_type) p))))]
          else [])%list.
Proof.
  intros H fc.
  apply train_inr in H
    as (d1 & s1 & X & y & s2 & s & p & mse & mae & r2 & ntr & nte & Hpre & Hprep & ->).
  destruct (prepared_features _ _ _ _ _ _ _ Hpre Hprep) as (Hfc & Ht & _ & _).
  fold fc in Hfc.
  exists p, s, mse, mae, r2, ntr, nte. simpl. rewrite Hfc.
  repeat split; auto.
Qed.

Lemma encode_column_same_encoders c df a b :
  label_encoders a = label_encoders b ->
  fst (encode_column c df a) = fst (encode_column c df b) /\
  label_encoders (snd (encode_column c df a)) =
  label_encoders (snd (encode_column c df b)).
Proof.
  intros Heq.
  destruct (encode_column c df a) as [ra sa] eqn:Ha.
  destruct (encode_column c df b) as [rb sb] eqn:Hb.
  apply encode_column_cases in Ha. apply encode_column_cases in Hb.
  rewrite <- Heq in Hb. simpl.
  destruct (dict_get c (columns df)) as [y |].
  - destruct (label_encoders a !! c) as [le |].
    + destruct Ha as [-> Ha], Hb as [-> Hb].
      destruct (transform le y); subst; auto.
    + destruct (np_unique y) as [e | [classes codes]];
        destruct Ha as [-> ->], Hb as [-> ->]; simpl; rewrite Heq; auto.
  - destruct Ha as [-> ->], Hb as [-> ->]. auto.
Qed.

Lemma encode_columns_same_encoders cols : forall df a b,
  label_encoders a = label_encoders b ->
  fst (encode_columns cols df a) = fst (encode_columns cols df b) /\
  label_encoders (snd (encode_columns cols df a)) =
  label_encoders (snd (encode_columns cols df b)).
Proof.
  induction cols as [| c cols IH]; intros df a b Heq; simpl.
  - auto.
  - unfold mbind.
    destruct (encode_column_same_encoders c df a b Heq) as [Hr Hs].
    destruct (encode_column c df a) as [[ea | da] sa];
      destruct (encode_column c df b) as [[eb | db] sb]; simpl in *;
      try discriminate.
    + auto.
    + injection Hr as ->. now apply IH.
Qed.

(** X25.  Predicting on the data the model was just trained on.  When the
    categorical columns that lacked an encoder held strings, [predict] on
    the training data does not fail before it reaches the estimator: the
    encoders fitted by [train] accept every category, every feature column
    is present, and the estimator (after the scaler, for a linear model) is
    applied to the very feature frame [train] had selected, identifier and
    target left out.  The model is left as [train] left it. *)
Theorem predict_on_training_data
    (now : string) (data : DataFrame) (model_type : string)
    (self self' : StudentPerformanceModel) :
  train now data model_type self = (inr tt, self') ->
  fits_on_strings categorical_columns data self ->
  exists d1 X p s,
    fst (preprocess_data data self) = inr d1 /\
    select (default [] (feature_columns self')) d1 = inr X /\
    model self' = Some {| config := estimator_for model_type; params := Some p |} /\
    scaler self' = Some s /\
    predict data self' =
    (match estimator_for model_type with
     | LinearRegression =>
         rbind (scaler_apply s X) (estimator_predict LinearRegression p)
     | c => estimator_predict c p X
     end, self').
Proof.
  intros H Hfit.
  apply train_inr in H
    as (d1 & s1 & X & y & s2 & s & p & mse & mae & r2 & ntr & nte & Hpre & Hprep & ->).
  destruct (prepared_features _ _ _ _ _ _ _ Hpre Hprep) as (Hfc & Ht & Henc & Hsel).
  set (cfg := estimator_for model_type) in *.
  set (self' := with_model_metrics _ _).
  exists d1, X, p, s. rewrite Hpre.
  split; [reflexivity |].
  assert (Hfc' : feature_columns self' = feature_columns s2) by reflexivity.
  rewrite Hfc', Hfc.
  change (default [] (Some ?l)) with l.
  split; [exact Hsel |]. split; [reflexivity |]. split; [reflexivity |].
  (* preprocessing again, with the encoders of the trained model *)
  assert (Hpre' : preprocess_data data self' = (inr d1, self')).
  { unfold preprocess_data in *.
    pose proof (encode_columns_rerun _ _ _ _ _ categorical_columns_NoDup Hfit Hpre)
      as Hre.
    assert (Hle : label_encoders self' = label_encoders s1) by exact Henc.
    pose proof (encode_columns_same_encoders categorical_columns data self' s1 Hle)
      as [Hr Hs].
    rewrite Hre in Hr, Hs. cbn [fst snd] in Hr, Hs.
    destruct (encode_columns categorical_columns data self') as [r sx] eqn:Hrun.
    cbn [fst snd] in Hr, Hs. subst r. f_equal.
    apply encode_columns_model_result in Hrun as (-> & _).
    rewrite Hs, <- Hle. apply with_label_encoders_id. }
  rewrite (predict_eq data self' {| config := cfg; params := Some p |} _
             eq_refl (eq_trans Hfc' Hfc)).
  rewrite Hpre', Hsel. cbn [config].
  unfold scaler_transform, model_predict, mbind, mget, mlift, ok. simpl.
  destruct cfg; [| reflexivity].
  unfold rbind. destruct (scaler_apply s X); reflexivity.
Qed.

End TrainMore.

(** ** Saving and loading *)

Section PersistenceMore.
Import Py Pandas Model.
Context {SK : Sklearn}.
Variable module_file : string.

(** X17.  Saving and loading are inverse: after a successful [save_model],
    [load_model] with a directory argument that resolves to the same
    directory succeeds on any model object, a fresh one or one that held
    something else, and makes it equal to the model that was saved, field
    by field. *)
Theorem save_then_load
    (dir_saved dir_loaded : string) (self other : StudentPerformanceModel)
    (fs fs' : FileSystem) :
  save_model module_file dir_saved self fs = (inr tt, fs') ->
  resolve_model_dir module_file dir_loaded = resolve_model_dir module_file dir_saved ->
  load_model module_file dir_loaded fs' other = (inr tt, self).
Proof.
  intros Hsave Hdir. apply save_model_inr in Hsave as (e & He & _ & _ & ->).
  now apply load_saved.
Qed.


(** X19.  [load_model] is not atomic.  Without the estimator file it raises
    and leaves the model as it was; with the estimator file but without the
    scaler file it raises after the estimator has been replaced, so that the
    model is left with the new estimator and its old scaler, encoders,
    feature list and metrics.  It returns only when all four files exist. *)
Theorem load_model_partial
    (model_dir : string) (fs : FileSystem) (self : StudentPerformanceModel) :
  let dir := resolve_model_dir module_file model_dir in
  let model_path := OsPath.join dir "student_performance_model.joblib" in
  let scaler_path := OsPath.join dir "scaler.joblib" in
  (files fs !! model_path = None ->
   load_model module_file model_dir fs self =
   (inl (FileNotFoundError model_path), self)) /\
  (forall e, files fs !! model_path = Some (AEstimator e) ->
             files fs !! scaler_path = None ->
   load_model module_file model_dir fs self =
   (inl (FileNotFoundError scaler_path), with_model (Some e) self)) /\
  (fst (load_model module_file model_dir fs self) = inr tt ->
   forall name, In name artifact_names ->
     is_Some (files fs !! OsPath.join dir name)).
Proof.
  cbv zeta. set (dir := resolve_model_dir module_file model_dir).
  split; [| split].
  - intros H. unfold load_model, load. fold dir.
    unfold mbind at 1. unfold mlift at 1. rewrite H. reflexivity.
  - intros e H1 H2. unfold load_model, load. fold dir.
    unfold mbind at 1. unfold mlift at 1. rewrite H1. cbv beta iota.
    unfold mbind at 1. unfold mmodify at 1. cbv beta iota.
    unfold mbind at 1. unfold mlift at 1. rewrite H2. reflexivity.
  - destruct (load_model module_file model_dir fs self) as [[err | []] self'] eqn:Hrun;
      [discriminate |].
    intros _. unfold load_model, load in Hrun. fold dir in Hrun.
    apply mbind_inr in Hrun as (o1 & s1 & L1 & Hrun).
    apply mbind_inr in Hrun as ([] & s2 & _ & Hrun).
    apply mbind_inr in Hrun as (o2 & s3 & L2 & Hrun).
    apply mbind_inr in Hrun as ([] & s4 & _ & Hrun).
    apply mbind_inr in Hrun as (o3 & s5 & L3 & Hrun).
    apply mbind_inr in Hrun as ([] & s6 & _ & Hrun).
    apply mbind_inr in Hrun as (o4 & s7 & L4 & _).
    unfold mlift in L1, L2, L3, L4.
    intros name [<- | [<- | [<- | [<- | []]]]].
    + destruct (files fs !! _); [eauto | discriminate].
    + clear L1 L3 L4. destruct (files fs !! _); [eauto | discriminate].
    + clear L1 L2 L4. destruct (files fs !! _); [eauto | discriminate].
    + clear L1 L2 L3. destruct (files fs !! _); [eauto | discriminate].
Qed.

End PersistenceMore.

(** ** The service: requests and start-up *)

Section ServiceMore.
Import Py Pandas Model App.
Context {SK : Sklearn}.
Variable frame_of_other : list value -> result DataFrame.

(** X20.  With a loaded model, [POST /predict] answers 400 exactly when the
    body is falsy.  For a non-empty record it answers 200 with the single
    prediction of the one-row frame, the record itself and the time, or 500
    with the message of the error [predict] raised; the prediction array
    is never empty, so [prediction[0]] never fails. *)
Theorem predict_single_contract (self : StudentPerformanceModel) (now : string) :
  (forall data,
     status (fst (predict_single frame_of_other now (inr data) (Some self))) = 400%Z <->
     truthy data = false) /\
  (forall record, record <> [] ->
     match predict (from_records [record]) self with
     | (inr ps, self') =>
         exists p, ps = [p] /\
           predict_single frame_of_other now (inr (VDict record)) (Some self) =
           ({| status := 200;
               body := [("prediction", VFloat p);
                        ("input_data", VDict record);
                        ("timestamp", VStr now)] |}, Some self')
     | (inl e, self') =>
         predict_single frame_of_other now (inr (VDict record)) (Some self) =
         (error_response 500 (str_exn e), Some self')
     end).
Proof.
  split.
  - intros data. unfold predict_single, with_global, try_except, mbind, mlift.
    destruct (truthy data) eqn:Ht; cbn [negb];
      [| simpl; split; [auto | reflexivity]].
    destruct (pd_DataFrame frame_of_other _) as [e | df]; simpl;
      [split; discriminate |].
    destruct (predict df self) as [[e | [| p ps]] s1]; simpl; split; discriminate.
  - intros record Hne.
    destruct (predict (from_records [record]) self) as [[e | ps] self'] eqn:Hp.
    + now apply predict_single_raising.
    + pose proof (predict_length _ _ _ _ Hp) as Hlen. simpl in Hlen.
      destruct ps as [| p [| q ps]]; try discriminate.
      exists p. split; [reflexivity |].
      unfold predict_single, with_global, try_except, mbind, mlift.
      destruct record as [| kv record]; [congruence |].
      cbn [truthy negb].
      change [VDict (kv :: record)] with (map VDict [kv :: record]).
      rewrite pd_DataFrame_records, Hp. reflexivity.
Qed.

Lemma with_global_readonly (block : MM response) self :
  snd (block self) = self ->
  snd (with_global block (Some self)) = Some self.
Proof.
  unfold with_global, try_except. destruct (block self) as [[e | r] s]; simpl;
    now intros ->.
Qed.

(** X13.  Serving does not touch a complete model.  When the feature list
    is fixed and every categorical column has an encoder, [predict] leaves
    the model exactly as it was, whether it returns or raises, and so do
    [POST /predict] and [POST /predict/batch] for every request: no request
    can influence the answer to a later one. *)
Theorem requests_leave_model_unchanged (self : StudentPerformanceModel) :
  is_Some (feature_columns self) ->
  (forall c, In c categorical_columns -> is_Some (label_encoders self !! c)) ->
  (forall data, snd (predict data self) = self) /\
  (forall now get_json,
     snd (predict_single frame_of_other now get_json (Some self)) = Some self) /\
  (forall now get_json,
     snd (predict_batch frame_of_other now get_json (Some self)) = Some self).
Proof.
  intros Hfc Henc.
  assert (Hp : forall data, snd (predict data self) = self).
  { intros data. apply predict_readonly; [exact Hfc | auto]. }
  split; [exact Hp |]. split.
  - intros now get_json. apply with_global_readonly.
    unfold mbind, mlift. destruct get_json as [e | data]; [reflexivity |].
    destruct (negb (truthy data)); [reflexivity |].
    destruct (pd_DataFrame frame_of_other [data]) as [e | df]; [reflexivity |].
    specialize (Hp df). destruct (predict df self) as [[e | [| p ps]] s];
      simpl in *; now subst.
  - intros now get_json. apply with_global_readonly.
    unfold mbind, mlift. destruct get_json as [e | data]; [reflexivity |].
    destruct (negb (truthy data) || negb (is_list data)); [reflexivity |].
    destruct (pd_DataFrame frame_of_other _) as [e | df]; [reflexivity |].
    specialize (Hp df). destruct (predict df self) as [[e | ps] s];
      simpl in *; now subst.
Qed.

(** X21.  Start-up without a saved estimator: [load_or_train_model] returns
    [False], yet the global model is no longer [None] but a fresh, untrained
    object.  [GET /health] then reports the model as loaded, [GET
    /model/info] answers 200 with empty metrics and no feature list, and
    every prediction request with a non-empty record is answered 500 with
    the message of the untrained model. *)
Theorem startup_without_saved_model (app_file model_file : string) (fs : FileSystem) :
  let models_dir := OsPath.join (OsPath.dirname (OsPath.dirname app_file)) "models" in
  path_exists (OsPath.join models_dir "student_performance_model.joblib") fs = false ->
  let started := load_or_train_model app_file model_file fs in
  started = (false, Some Model.init) /\
  (forall now, dict_get "model_loaded" (body (health now (snd started)))
               = Some (VBool true)) /\
  model_info (snd started) =
    {| status := 200;
       body := [("model_metrics", VDict []); ("feature_columns", VNone);
                ("target_column", VStr "final_score")] |} /\
  (forall now record, record <> [] ->
     predict_single frame_of_other now (inr (VDict record)) (snd started) =
     (error_response 500 "Model not trained yet. Call train() first.",
      Some Model.init)) /\
  (forall now records, records <> [] ->
     predict_batch frame_of_other now (inr (VList (map VDict records))) (snd started) =
     (error_response 500 "Model not trained yet. Call train() first.",
      Some Model.init)).
Proof.
  intros models_dir Hno started.
  assert (Hs : started = (false, Some Model.init)).
  { subst started. unfold load_or_train_model. fold models_dir. now rewrite Hno. }
  rewrite Hs. cbn [snd].
  split; [reflexivity |]. split; [reflexivity |]. split; [reflexivity |]. split.
  - intros now record Hne.
    apply (predict_single_raising frame_of_other now record Model.init
             (ValueError "Model not trained yet. Call train() first.") Model.init Hne).
    reflexivity.
  - intros now records Hne.
    apply (predict_batch_raising frame_of_other now records Model.init
             (ValueError "Model not trained yet. Call train() first.") Model.init Hne).
    reflexivity.
Qed.

Lemma resolve_package_models model_file dir :
  dir = OsPath.join (OsPath.dirname (OsPath.dirname model_file)) "models" ->
  resolve_model_dir model_file dir = dir.
Proof.
  intros Hdir. unfold resolve_model_dir.
  destruct (OsPath.isabs dir); simpl; [reflexivity | now rewrite Hdir].
Qed.

(** X22.  Training then serving.  When [app.py] and [model.py] lie in the
    same directory and the model was saved with a relative directory
    argument (such as the default), [load_or_train_model] on the resulting
    file system returns [True] and the global model is exactly the model
    that was saved. *)
Theorem startup_after_save
    (app_file model_file dir_saved : string) (self : StudentPerformanceModel)
    (fs fs' : FileSystem) :
  OsPath.dirname app_file = OsPath.dirname model_file ->
  OsPath.isabs dir_saved = false ->
  save_model model_file dir_saved self fs = (inr tt, fs') ->
  load_or_train_model app_file model_file fs' = (true, Some self).
Proof.
  intros Hsame Hrel Hsave.
  apply save_model_inr in Hsave as (e & He & _ & _ & ->).
  unfold load_or_train_model. rewrite Hsame.
  set (models_dir := OsPath.join (OsPath.dirname (OsPath.dirname model_file)) "models").
  assert (Hdir : resolve_model_dir model_file dir_saved = models_dir).
  { unfold resolve_model_dir. now rewrite Hrel. }
  rewrite Hdir.
  destruct (saved_files models_dir e self fs) as (H1 & _).
  unfold path_exists. rewrite H1.
  rewrite (load_saved model_file models_dir e self fs Model.init models_dir);
    [reflexivity | now apply resolve_package_models | exact He].
Qed.

End ServiceMore.

(** ** From the generator to the model and to the service *)

Section PipelineFacts.
Import Numpy Generator Py Pandas Model App Pipeline.
Context {R : NumpyRandom} {SK : Sklearn}.

Lemma generated_scores_cells self s d s' :
  generate_dataset self s = inr (d, s') ->
  is_Some (mapM score_cell (final_score d)).
Proof.
  intros Hgen.
  apply generate_dataset_inr in Hgen as (f & scores & l & Hraw & Hnorm & ->).
  simpl.
  assert (Hall : Forall (fun c => is_Some (score_cell c)) l).
  { destruct (normalize_inr _ _ Hnorm) as (lo & hi & Hmin & Hmax & _).
    destruct (Qeq_dec lo hi) as [Heq | Hne].
    - eapply Forall_impl; [exact (normalize_constant _ _ _ _ Hmin Hmax Heq Hnorm) |].
      intros c ->. simpl. eauto.
    - destruct (normalize_distinct scores lo hi Hmin Hmax Hne)
        as (l' & Hl' & _ & Hall & _).
      rewrite Hnorm in Hl'. injection Hl' as <-.
      eapply Forall_impl; [exact Hall |].
      intros c (q & -> & _). simpl. eauto. }
  rewrite (mapM_all_some _ VNaN _ Hall). eauto.
Qed.

Lemma mapM_as_str_strings l : mapM as_str (map VStr l) = Some l.
Proof. induction l as [| x l IH]; [reflexivity |]. simpl. now rewrite IH. Qed.

(** Fitting an encoder on a column of strings. *)
Lemma encode_column_fit c df self l :
  dict_get c (columns df) = Some (map VStr l) ->
  label_encoders self !! c = None ->
  let classes := map VStr (fold_right insert_str [] l) in
  encode_column c df self =
  (inr (set_column c (codes_of classes (map VStr l)) df),
   with_label_encoders (<[c := {| classes_ := Some classes |}]> (label_encoders self))
     self).
Proof.
  intros Hy Hle classes.
  destruct (encode_column c df self) as [r self'] eqn:H.
  apply encode_column_cases in H. rewrite Hy, Hle in H.
  unfold np_unique in H. rewrite mapM_as_str_strings in H.
  destruct H as [-> ->]. reflexivity.
Qed.

Lemma encode_columns_step c cols df self d1 s1 :
  encode_column c df self = (inr d1, s1) ->
  encode_columns (c :: cols) df self = encode_columns cols d1 s1.
Proof. intros H. simpl. unfold mbind. now rewrite H. Qed.

(** X23.  The frame [generate_dataset] returns is ready for training: it
    has one row per student and the sixteen columns; on a fresh model
    [preprocess_data] succeeds on it and fits the three encoders on
    strings, and [prepare_features] then fixes the feature list to exactly
    the fourteen documented features, in the documented order, and finds
    the target column. *)
Theorem generated_frame_trains
    (self : StudentDataGenerator) (s : rng_state) d s' :
  generate_dataset self s = inr (d, s') ->
  exists df d1 self1 X y,
    to_frame d = Some df /\
    index_len df = Z.to_nat (num_students self) /\
    Forall (fun kc => length (snd kc) = index_len df) (columns df) /\
    preprocess_data df Model.init = (inr d1, self1) /\
    fitted_on_strings self1 /\
    prepare_features d1 self1 =
      (inr (X, Some y), with_feature_columns (Some documented_features) self1) /\
    map fst (columns X) = documented_features /\
    dict_get "final_score" (columns df) = Some y.
Proof.
  intros Hgen.
  destruct (generated_scores_cells _ _ _ _ Hgen) as [scores Hscores].
  assert (Hlen_scores : length scores = length (final_score d)).
  { symmetry. eapply length_mapM. exact Hscores. }
  pose proof Hgen as Hgen'.
  apply generate_dataset_inr in Hgen' as (f & raw & l & Hraw & Hnorm & Hd).
  pose proof (length_raw_scores _ _ _ _ _ Hraw) as Hlen.
  apply raw_scores_inr in Hraw as (_ & _ & [] & _).
  apply normalize_inr in Hnorm as (lo & hi & _ & _ & Hl).
  set (n := Z.to_nat (num_students self)) in *.
  assert (Hrows : length (student_id d) = n) by (rewrite Hd; assumption).
  assert (Hcolumns :
    Forall (fun kc : string * list value => length (snd kc) = length (student_id d))
      (("student_id", map VStr (student_id d)) :: feature_cells d
       ++ [("final_score", scores)])%list).
  { rewrite Hrows. unfold feature_cells.
    assert (Hs : length scores = n).
    { rewrite Hlen_scores, Hd. simpl. rewrite Hl. unfold vsub_s.
      now rewrite !length_map. }
    rewrite Hd. simpl.
    repeat constructor; simpl; rewrite ?length_map; assumption. }
  set (df := {| index_len := length (student_id d);
                columns := (("student_id", map VStr (student_id d)) :: feature_cells d
                            ++ [("final_score", scores)])%list |}).
  assert (Hdf : to_frame d = Some df).
  { unfold to_frame. rewrite Hscores. reflexivity. }
  assert (Hn : index_len df = n) by exact Hrows.
  (* preprocessing *)
  set (s1 := with_label_encoders
               (<["gender" := {| classes_ := Some
                    (map VStr (fold_right insert_str [] (gender d))) |}]> ∅) Model.init).
  set (d1 := set_column "gender"
               (codes_of (map VStr (fold_right insert_str [] (gender d)))
                  (map VStr (gender d))) df).
  set (s2 := with_label_encoders
               (<["parental_education" := {| classes_ := Some
                    (map VStr (fold_right insert_str [] (parental_education d))) |}]>
                  (label_encoders s1)) s1).
  set (d2 := set_column "parental_education"
               (codes_of (map VStr (fold_right insert_str [] (parental_education d)))
                  (map VStr (parental_education d))) d1).
  set (s3 := with_label_encoders
               (<["school_type" := {| classes_ := Some
                    (map VStr (fold_right insert_str [] (school_type d))) |}]>
                  (label_encoders s2)) s2).
  set (d3 := set_column "school_type"
               (codes_of (map VStr (fold_right insert_str [] (school_type d)))
                  (map VStr (school_type d))) d2).
  assert (Hpre : preprocess_data df Model.init = (inr d3, s3)).
  { unfold preprocess_data, categorical_columns.
    rewrite (encode_columns_step "gender" _ df Model.init d1 s1)
      by exact (encode_column_fit "gender" df Model.init (gender d) eq_refl eq_refl).
    rewrite (encode_columns_step "parental_education" _ d1 s1 d2 s2)
      by exact (encode_column_fit "parental_education" d1 s1 (parental_education d)
                  eq_refl eq_refl).
    rewrite (encode_columns_step "school_type" _ d2 s2 d3 s3)
      by exact (encode_column_fit "school_type" d2 s2 (school_type d) eq_refl eq_refl).
    reflexivity. }
  assert (Hfit : fitted_on_strings s3).
  { intros col [<- | [<- | [<- | []]]];
      (eexists; split; [reflexivity |]);
      apply List.Forall_forall; intros c Hc;
      apply in_map_iff in Hc as (x & <- & _); eauto. }
  assert (Hsel : exists cs, select_columns documented_features d3 = inr cs).
  { apply select_columns_present.
    repeat constructor; eexists; reflexivity. }
  destruct Hsel as [cs Hcs].
  exists df, d3, s3, {| index_len := index_len d3; columns := cs |}, scores.
  split; [exact Hdf |]. split; [exact Hn |]. split.
  { exact Hcolumns. }
  split; [exact Hpre |]. split; [exact Hfit |]. split.
  - rewrite prepare_features_eq. cbv zeta.
    change (feature_columns s3) with (@None (list string)). cbv iota.
    change (feature_names (target_column s3) d3) with documented_features.
    unfold select, rbind. rewrite Hcs. reflexivity.
  - split; [| reflexivity].
    apply select_columns_inr in Hcs as [Hk _]. exact Hk.
Qed.

Lemma to_records_length n cols : length (to_records n cols) = n.
Proof. unfold to_records. now rewrite length_map, length_seq. Qed.

Lemma to_records_keys n cols :
  Forall (fun r => map fst r = map fst cols) (to_records n cols).
Proof.
  unfold to_records. apply List.Forall_forall. intros r Hr.
  apply in_map_iff in Hr as (i & <- & _). now rewrite map_map.
Qed.

(** X24.  [GET /generate/sample] always answers 200: the seed it draws is
    valid and five students are enough for the normalisation.  The body
    counts five students and holds five records, each with exactly the
    fourteen documented features (no identifier, no score), and five
    scores.  The answer depends on the state of the global generator only
    through the seed drawn: there are at most 999 different samples. *)
Theorem generate_sample_answers
    (randint : rng_state -> Z * rng_state) (s : rng_state) :
  (forall s0, 1 <= fst (randint s0) < 1000)%Z ->
  (exists body,
     generate_sample randint s = (200%Z, inr body) /\
     count body = 5%nat /\
     length (sample_data body) = 5%nat /\
     length (actual_scores body) = 5%nat /\
     Forall (fun r => map fst r = documented_features) (sample_data body)) /\
  (forall s2, fst (randint s2) = fst (randint s) ->
     generate_sample randint s2 = generate_sample randint s).
Proof.
  intros Hrange. split.
  - unfold generate_sample. specialize (Hrange s).
    destruct (randint s) as [seed s1]. simpl in Hrange.
    unfold Generator.bind at 1, Generator.init, Generator.bind at 1, np_random_seed.
    assert (Hseed : ((0 <=? seed) && (seed <? 2 ^ 32))%Z = true).
    { apply andb_true_iff. split; [apply Z.leb_le | apply Z.ltb_lt]; lia. }
    rewrite Hseed. unfold Generator.ret, ok. cbv beta iota.
    set (self := {| num_students := 5; random_seed := seed |}).
    destruct (raw_scores_total self (seeded seed))
      as (f & scores & s2 & Hraw).
    { split; simpl; lia. }
    { simpl. lia. }
    pose proof (length_raw_scores _ _ _ _ _ Hraw) as Hlen.
    change (Z.to_nat (num_students self)) with 5%nat in Hlen.
    destruct (normalize_nonempty scores) as [l Hl].
    { intros ->. discriminate. }
    assert (Hgen : generate_dataset self (seeded seed) = inr (make_frame f l, s2)).
    { unfold generate_dataset, Generator.bind. rewrite Hraw. cbn [fst snd].
      unfold lift. now rewrite Hl. }
    rewrite Hgen.
    apply raw_scores_inr in Hraw as (_ & _ & [] & _).
    apply normalize_inr in Hl as (lo & hi & _ & _ & ->).
    eexists. split; [reflexivity |]. simpl.
    split; [assumption |]. split; [now rewrite to_records_length |].
    split; [unfold vsub_s; now rewrite !length_map |].
    exact (to_records_keys _ (feature_cells (make_frame f _))).
  - intros s2 Heq. unfold generate_sample.
    destruct (randint s2) as [seed2 s2'], (randint s) as [seed s1]. simpl in Heq.
    subst seed2. unfold Generator.bind, Generator.init, np_random_seed.
    destruct ((0 <=? seed) && (seed <? 2 ^ 32))%Z; reflexivity.
Qed.

End PipelineFacts.

(** ** Worked examples for the further properties *)

Section GeneratorMoreExamples.
Import Numpy Generator Examples.
Local Open Scope Q_scope.
Local Existing Instance lcg.

Lemma generated_columns_length_witness :
  exists d s', generate_dataset (R := lcg) batch3 0%Z = inr (d, s') /\
    length (student_id d) = 3%nat /\ length (final_score d) = 3%nat.
Proof.
  destruct (generate_dataset (R := lcg) batch3 0%Z) as [e | [d s']] eqn:Hgen;
    [vm_compute in Hgen; discriminate |].
  exists d, s'. split; [reflexivity |].
  pose proof (generated_columns_length (R := lcg) batch3 0%Z d s' Hgen) as H.
  cbv zeta in H. split; [apply H | apply H].
Defined.

Lemma generated_value_domains_witness :
  exists d s', generate_dataset (R := lcg) batch3 0%Z = inr (d, s') /\
    Forall (fun g => In g ["Male"; "Female"; "Other"]) (gender d) /\
    Forall (fun x => 1 <= x) (study_hours_per_week d).
Proof.
  destruct (generate_dataset (R := lcg) batch3 0%Z) as [e | [d s']] eqn:Hgen;
    [vm_compute in Hgen; discriminate |].
  exists d, s'. split; [reflexivity |].
  destruct (generated_value_domains (R := lcg) batch3 0%Z d s' Hgen)
    as (Hg & _ & _ & _ & _ & Hs).
  split; assumption.
Defined.

Lemma student_ids_distinct_witness :
  exists d s', generate_dataset (R := lcg) batch3 0%Z = inr (d, s') /\
    NoDup (student_id d).
Proof.
  destruct (generate_dataset (R := lcg) batch3 0%Z) as [e | [d s']] eqn:Hgen;
    [vm_compute in Hgen; discriminate |].
  exists d, s'. split; [reflexivity |].
  exact (proj2 (student_ids_distinct (R := lcg) batch3 0%Z d s' Hgen)).
Defined.

Lemma normalisation_keeps_order_witness :
  exists d s' p q, generate_dataset (R := lcg) batch3 0%Z = inr (d, s') /\
    final_score d !! 0%nat = Some (Fin p) /\
    final_score d !! 2%nat = Some (Fin q) /\ p <= q.
Proof.
  destruct (raw_scores (R := lcg) batch3 0%Z) as [e | [[f scores] s1]] eqn:Hraw;
    [vm_compute in Hraw; discriminate |].
  destruct (generate_dataset (R := lcg) batch3 0%Z) as [e | [d s']] eqn:Hgen;
    [vm_compute in Hgen; discriminate |].
  assert (Hxy : exists x y, scores !! 0%nat = Some x /\ scores !! 2%nat = Some y /\ x <= y).
  { pose proof Hraw as Hraw'. vm_compute in Hraw'. injection Hraw' as _ <- _.
    do 2 eexists. split; [reflexivity |]. split; [reflexivity |].
    vm_compute. discriminate. }
  destruct Hxy as (x & y & Hi & Hj & Hle).
  destruct (normalisation_keeps_order (R := lcg) batch3 0%Z f scores s1 d s' 0 2
              x y Hraw Hgen ltac:(vm_compute; discriminate) Hi Hj Hle)
    as (p & q & Hp & Hq & Hpq).
  exists d, s', p, q. repeat split; assumption.
Defined.

Lemma final_scores_all_nan_or_all_finite_witness :
  exists d s', generate_dataset (R := lcg) batch3 0%Z = inr (d, s') /\
    (Forall (fun c => c = NaN) (final_score d) \/
     Forall (fun c => exists q, c = Fin q /\ 0 <= q <= 100) (final_score d)).
Proof.
  destruct (generate_dataset (R := lcg) batch3 0%Z) as [e | [d s']] eqn:Hgen;
    [vm_compute in Hgen; discriminate |].
  exists d, s'. split; [reflexivity |].
  destruct (final_scores_all_nan_or_all_finite (R := lcg) batch3 0%Z d s' Hgen)
    as [[_ H] | [_ H]]; [left | right]; exact H.
Defined.

Lemma generate_sample_answers_witness :
  exists body, Pipeline.generate_sample (R := lcg) lcg_randint 0%Z = (200%Z, inr body) /\
               Pipeline.count body = 5%nat.
Proof.
  destruct (proj1 (generate_sample_answers (R := lcg) lcg_randint 0%Z
              (fun s0 => ltac:(unfold lcg_randint; simpl;
                               pose proof (Z.mod_pos_bound s0 999 eq_refl); lia))))
    as (body & Hb & Hc & _).
  exists body. split; assumption.
Defined.

End GeneratorMoreExamples.

Section ModelMoreExamples.
Import Numpy Generator Py Pandas Model App Pipeline Examples.
Local Existing Instance constant_sklearn.
Local Existing Instance lcg.

Lemma preprocess_data_frame_witness :
  index_len encoded_student_frame = index_len student_frame /\
  map fst (columns encoded_student_frame) = map fst (columns student_frame).
Proof.
  destruct (preprocess_data_frame student_frame encoded_student_frame
              loaded_model loaded_model ltac:(vm_compute; reflexivity))
    as (H1 & H2 & _).
  split; assumption.
Defined.

Lemma preprocess_data_model_witness :
  loaded_model = with_label_encoders (label_encoders loaded_model) loaded_model.
Proof.
  exact (proj1 (preprocess_data_model student_frame loaded_model loaded_model
                  (inr encoded_student_frame) ltac:(vm_compute; reflexivity))).
Defined.

Lemma student_frame_fits_on_strings :
  fits_on_strings categorical_columns student_frame Model.init.
Proof.
  intros c y [<- | [<- | [<- | []]]] Hy _;
    vm_compute in Hy; injection Hy as <-; eexists; reflexivity.
Defined.

Lemma preprocess_data_fit_then_reuse_witness :
  exists d1 self1,
    preprocess_data student_frame Model.init = (inr d1, self1) /\
    preprocess_data student_frame self1 = (inr d1, self1).
Proof.
  destruct (preprocess_data student_frame Model.init) as [[e | d1] self1] eqn:H;
    [vm_compute in H; discriminate |].
  exists d1, self1. split; [reflexivity |].
  exact (preprocess_data_fit_then_reuse student_frame d1 Model.init self1
           student_frame_fits_on_strings H).
Defined.

Lemma prepare_features_first_call_witness :
  exists X,
    prepare_features training_frame Model.init =
    (inr (X, dict_get "final_score" (columns training_frame)),
     with_feature_columns (Some documented_features) Model.init).
Proof.
  destruct (prepare_features_first_call training_frame Model.init eq_refl)
    as (X & HX & _).
  exists X. exact HX.
Defined.

Lemma prepare_features_later_calls_witness :
  snd (prepare_features student_frame loaded_model) = loaded_model.
Proof.
  exact (proj1 (prepare_features_later_calls student_frame loaded_model _ eq_refl)).
Defined.

Lemma feature_columns_frozen_witness :
  feature_columns (snd (train "2024-05-01T10:00:00" training_frame "linear"
                          loaded_model)) = Some documented_features.
Proof.
  exact (proj1 (proj2 (proj2 (proj2
    (feature_columns_frozen loaded_model documented_features
       "2024-05-01T10:00:00" "linear" training_frame eq_refl))))).
Defined.

Lemma loaded_model_encoders c :
  In c categorical_columns -> is_Some (label_encoders loaded_model !! c).
Proof. intros [<- | [<- | [<- | []]]]; eexists; vm_compute; reflexivity. Defined.

Lemma requests_leave_model_unchanged_witness :
  snd (predict_single no_other_frames "2024-05-01T10:00:00"
         (inr (VDict stranger)) (Some loaded_model)) = Some loaded_model.
Proof.
  exact (proj1 (proj2 (requests_leave_model_unchanged no_other_frames loaded_model
           ltac:(eexists; reflexivity) loaded_model_encoders))
         "2024-05-01T10:00:00" (inr (VDict stranger))).
Defined.

Lemma predict_reads_only_features_witness :
  predict student_frame loaded_model =
  predict (set_column "student_id" [VStr "STU0001"] student_frame) loaded_model.
Proof.
  apply (predict_reads_only_features loaded_model documented_features
           student_frame (set_column "student_id" [VStr "STU0001"] student_frame)
           eq_refl eq_refl).
  intros c [Hc | Hc]; simpl in Hc;
    repeat (destruct Hc as [<- | Hc]; [vm_compute; reflexivity |]);
    destruct Hc.
Defined.

Lemma predict_missing_feature_raises_witness :
  exists e, fst (predict (from_records [tl student]) loaded_model) = inl e.
Proof.
  destruct (predict_missing_feature_raises (from_records [tl student]) loaded_model
              documented_features "age" eq_refl ltac:(now left)
              ltac:(vm_compute; reflexivity))
    as (e & He & _).
  exists e. exact He.
Defined.

Lemma train_bookkeeping_witness :
  exists self',
    train "2024-05-01T10:00:00" training_frame "svm" Model.init = (inr tt, self') /\
    feature_columns self' = Some documented_features /\
    dict_get "feature_importance" (model_metrics self') = None.
Proof.
  destruct (train "2024-05-01T10:00:00" training_frame "svm" Model.init)
    as [[e | []] self'] eqn:H; [vm_compute in H; discriminate |].
  exists self'. split; [reflexivity |].
  destruct (train_bookkeeping _ _ _ _ _ H)
    as (p & s & mse & mae & r2 & ntr & nte & _ & _ & Hfc & _ & Hm).
  split; [exact Hfc |]. rewrite Hm. reflexivity.
Defined.

Lemma training_frame_fits_on_strings :
  fits_on_strings categorical_columns training_frame Model.init.
Proof.
  intros c y [<- | [<- | [<- | []]]] Hy _;
    vm_compute in Hy; injection Hy as <-; eexists; reflexivity.
Defined.

Lemma predict_on_training_data_witness :
  exists self',
    train "2024-05-01T10:00:00" training_frame "linear" Model.init = (inr tt, self') /\
    predict training_frame self' = (inr [50; 50; 50; 50]%Q, self').
Proof.
  destruct (train "2024-05-01T10:00:00" training_frame "linear" Model.init)
    as [[e | []] self'] eqn:H; [vm_compute in H; discriminate |].
  exists self'. split; [reflexivity |].
  destruct (predict_on_training_data _ _ _ _ _ H training_frame_fits_on_strings)
    as (d1 & X & p & s & Hpre & Hsel & _ & _ & Hp).
  rewrite Hp. f_equal.
  apply select_index_len in Hsel. simpl. rewrite Hsel.
  assert (Hd1 : index_len d1 = 4%nat).
  { destruct (preprocess_data training_frame Model.init) as [r s1] eqn:E.
    simpl in Hpre. subst r. apply encode_columns_index_len in E. exact E. }
  rewrite Hd1. reflexivity.
Defined.

(** An empty disk and the paths of a typical checkout. *)
Lemma save_then_load_witness :
  exists fs',
    save_model "/app/src/model.py" "../models" loaded_model empty_disk = (inr tt, fs') /\
    load_model "/app/src/model.py" "models" fs' Model.init = (inr tt, loaded_model).
Proof.
  destruct (save_model "/app/src/model.py" "../models" loaded_model empty_disk)
    as [[e | []] fs'] eqn:H; [vm_compute in H; discriminate |].
  exists fs'. split; [reflexivity |].
  exact (save_then_load "/app/src/model.py" "../models" "models" loaded_model
           Model.init empty_disk fs' H eq_refl).
Defined.


Lemma startup_without_saved_model_witness :
  load_or_train_model "/app/src/app.py" "/app/src/model.py" empty_disk =
  (false, Some Model.init).
Proof.
  exact (proj1 (startup_without_saved_model no_other_frames "/app/src/app.py"
                  "/app/src/model.py" empty_disk eq_refl)).
Defined.

Lemma startup_after_save_witness :
  exists fs',
    save_model "/app/src/model.py" "../models" loaded_model empty_disk = (inr tt, fs') /\
    load_or_train_model "/app/src/app.py" "/app/src/model.py" fs' =
    (true, Some loaded_model).
Proof.
  destruct (save_model "/app/src/model.py" "../models" loaded_model empty_disk)
    as [[e | []] fs'] eqn:H; [vm_compute in H; discriminate |].
  exists fs'. split; [reflexivity |].
  exact (startup_after_save "/app/src/app.py" "/app/src/model.py" "../models"
           loaded_model empty_disk fs' eq_refl eq_refl H).
Defined.

Lemma generated_frame_trains_witness :
  exists d s' df d1 self1,
    generate_dataset (R := lcg) batch3 0%Z = inr (d, s') /\
    to_frame d = Some df /\
    preprocess_data df Model.init = (inr d1, self1) /\
    fitted_on_strings self1.
Proof.
  destruct (generate_dataset (R := lcg) batch3 0%Z) as [e | [d s']] eqn:Hgen;
    [vm_compute in Hgen; discriminate |].
  destruct (generated_frame_trains (R := lcg) batch3 0%Z d s' Hgen)
    as (df & d1 & self1 & X & y & Hdf & _ & _ & Hpre & Hfit & _).
  exists d, s', df, d1, self1. repeat split; assumption.
Defined.

End ModelMoreExamples.
